(** * Verification of the medishift-scheduler scheduling core

    Shallow embedding of the monthly call scheduler
    ([MonthlyCallScheduler], src/unnamed/part_000), its duplicated backend
    variant ("Monthly Call Scheduler (Backend logic).ts"), the yearly
    rotation engine ([YearlyScheduleEngine], src/unnamed/part_001) and the
    leave-request analyzer (vacation-analyzer_Version3.ts).

    Modelling conventions.
    - A JavaScript [Date] built at local midnight is modelled as a day
      number [Z] (days since 1970-01-01); [getDay], [getMonth] and
      [getDate] are computed by the proleptic Gregorian civil calendar, and
      [new Date(y, m, d)] normalises month and day overflow as JS does.
      Differences of dates in milliseconds divided by one day are therefore
      exact day differences (no daylight-saving drift).
    - JS numbers that hold integers are [Z]; scores and averages, which are
      fractional, are [Q].
    - [Map<string, ...>] and JS objects used as maps are stdpp [gmap]s.
    - [Timestamp.now()] fields and console logging are not modelled. *)

From Stdlib Require Import ZArith QArith Qround String Ascii List Lia Lqa.
From stdpp Require Import base gmap strings list.
Import ListNotations.

Open Scope Z_scope.

(* ================================================================= *)
(** ** Generic helpers *)

(** A stable sort driven by a JS comparator: [after y x] holds when
    [comparator(y, x) > 0], i.e. [y] must be placed after [x].  Any stable
    sort (the ECMAScript [Array.prototype.sort] is stable) yields this
    result. *)
Fixpoint insert_by {A} (after : A -> A -> bool) (x : A) (l : list A) : list A :=
  match l with
  | [] => [x]
  | y :: ys => if after y x then x :: y :: ys else y :: insert_by after x ys
  end.

Definition sort_by {A} (after : A -> A -> bool) (l : list A) : list A :=
  fold_left (fun acc x => insert_by after x acc) l [].

(** [Array.prototype.find]. *)
Fixpoint find_first {A} (p : A -> bool) (l : list A) : option A :=
  match l with
  | [] => None
  | x :: xs => if p x then Some x else find_first p xs
  end.

(** [Array.prototype.some]. *)
Definition js_some {A} (p : A -> bool) (l : list A) : bool := existsb p l.

(** Integer range [lo, lo+1, ..., hi]. *)
Definition range_incl (lo hi : Z) : list Z :=
  map (fun k => lo + Z.of_nat k) (seq 0 (Z.to_nat (hi - lo + 1))).

(** Decimal rendering of a non-negative integer (template literals). *)
Fixpoint digits_aux (fuel : nat) (n : Z) (acc : string) : string :=
  match fuel with
  | O => acc
  | S f =>
      let c := Ascii.ascii_of_nat (48 + Z.to_nat (n mod 10)) in
      if n <? 10 then String c acc else digits_aux f (n / 10) (String c acc)
  end.

Definition Z_to_string (n : Z) : string :=
  if n <? 0 then String "-" (digits_aux 64 (- n) EmptyString)
  else digits_aux 64 n EmptyString.

(** [n.toString().padStart(2, '0')]. *)
Definition padStart2 (n : Z) : string :=
  let s := Z_to_string n in
  if (String.length s <? 2)%nat then String "0" s else s.

(** [String.prototype.toLowerCase] on ASCII text. *)
Definition ascii_lower (c : ascii) : ascii :=
  let n := Ascii.nat_of_ascii c in
  if ((65 <=? n) && (n <=? 90))%nat then Ascii.ascii_of_nat (n + 32) else c.

Fixpoint toLowerCase (s : string) : string :=
  match s with
  | EmptyString => EmptyString
  | String c s' => String (ascii_lower c) (toLowerCase s')
  end.

(* ================================================================= *)
(** ** Calendar: JavaScript dates at local midnight *)

Module Calendar.

  (** Day number of the civil date [y-m-d], [m] in 1..12. *)
Definition days_from_civil (y m d : Z) : Z :=
    let y' := if m <=? 2 then y - 1 else y in
    let era := y' / 400 in
    let yoe := y' - era * 400 in
    let doy := (153 * (if m >? 2 then m - 3 else m + 9) + 2) / 5 + d - 1 in
    let doe := yoe * 365 + yoe / 4 - yoe / 100 + doy in
    era * 146097 + doe - 719468.

  (** Civil date [(y, m, d)], [m] in 1..12, of a day number. *)
Definition civil_from_days (z0 : Z) : Z * Z * Z :=
    let z := z0 + 719468 in
    let era := z / 146097 in
    let doe := z - era * 146097 in
    let yoe := (doe - doe / 1460 + doe / 36524 - doe / 146096) / 365 in
    let y := yoe + era * 400 in
    let doy := doe - (365 * yoe + yoe / 4 - yoe / 100) in
    let mp := (5 * doy + 2) / 153 in
    let d := doy - (153 * mp + 2) / 5 + 1 in
    let m := if mp <? 10 then mp + 3 else mp - 9 in
    (if m <=? 2 then y + 1 else y, m, d).

  (** [new Date(year, monthIndex, day)], with JS overflow rules. *)
Definition mkDate (year monthIndex day : Z) : Z :=
    days_from_civil (year + monthIndex / 12) (monthIndex mod 12 + 1) 1 + (day - 1).

  (** [date.getDay()]: 0 = Sunday; 1970-01-01 was a Thursday. *)
Definition getDay (d : Z) : Z := (d + 4) mod 7.

  (** [date.getMonth()], 0..11. *)
Definition getMonth (d : Z) : Z := let '(_, m, _) := civil_from_days d in m - 1.

  (** [date.getDate()], 1..31. *)
Definition getDate (d : Z) : Z := let '(_, _, dd) := civil_from_days d in dd.

  (** [date.toLocaleDateString('en-US', { weekday: 'long' })]. *)
Definition weekdayName (d : Z) : string :=
    match getDay d with
    | 0 => "Sunday" | 1 => "Monday" | 2 => "Tuesday" | 3 => "Wednesday"
    | 4 => "Thursday" | 5 => "Friday" | _ => "Saturday"
    end.

  (** [new Date(year, month + 1, 0).getDate()]. *)
Definition daysInMonth (year month : Z) : Z := getDate (mkDate year (month + 1) 0).

End Calendar.
Import Calendar.

(* ================================================================= *)
(** ** Domain model (shared/types) *)

Inductive RotationType := CORE_NSX | MANDATORY_OFF_SERVICE | EXAM_LEAVE | HOLIDAY_LEAVE | FLEXIBLE.
Inductive Team := Red | Blue.
Inductive HolidayType := Christmas | NewYear.

(** Call types as the code spells them ('None' is the day-requirement
    value of a day without call). *)
Inductive CallType := Night | Weekend | Holiday | PostCall | NoCall.
Inductive CallStatus := Scheduled | PostCallStatus.
Inductive StaffingLevel := Normal | Shortage.
Inductive LeaveStatus :=
  PendingAnalysis | PendingApproval | Approved | Denied | FlaggedForReview | AnalysisFailed.

#[global] Instance CallType_eq_dec : EqDecision CallType.
Proof. solve_decision. Defined.
#[global] Instance RotationType_eq_dec : EqDecision RotationType.
Proof. solve_decision. Defined.
#[global] Instance Team_eq_dec : EqDecision Team.
Proof. solve_decision. Defined.
#[global] Instance LeaveStatus_eq_dec : EqDecision LeaveStatus.
Proof. solve_decision. Defined.
#[global] Instance StaffingLevel_eq_dec : EqDecision StaffingLevel.
Proof. solve_decision. Defined.

Record Resident := mkResident {
  id : string;
  name : string;
  pgyLevel : Z;
  specialty : string;
  onService : bool;
  isChief : bool;
  callExempt : bool
}.

Record RotationAssignment := mkRotationAssignment {
  ra_residentId : string;
  rotationName : string;
  rotationType : RotationType;
  team : option Team;
  holidayType : option HolidayType;
  required : option bool
}.

Record RotationBlock := mkRotationBlock {
  blockNumber : Z;
  startDate : Z;
  endDate : Z;
  assignments : list RotationAssignment
}.

Record AcademicYear := mkAcademicYear {
  ay_id : string;
  blocks : list RotationBlock
}.

Record CallAssignment := mkCallAssignment {
  ca_id : string;
  ca_residentId : string;
  residentName : string;
  ca_date : Z;
  ca_type : CallType;
  points : Z;
  ca_isHoliday : bool;
  ca_team : option Team;
  createdBy : string;
  ca_status : CallStatus
}.

Record LeaveRequest := mkLeaveRequest {
  lr_id : string;
  lr_residentId : string;
  lr_type : string;
  lr_status : LeaveStatus;
  lr_startDate : Z;
  lr_endDate : Z
}.

Record ParoRule := mkParoRule { minDays : Z; maxDays : Z; calls : Z }.

Record MonthlySchedulerConfig := mkMonthlySchedulerConfig {
  paroHardCaps : list ParoRule;
  (** [callRatios[pgyLevel]]; an absent key reads [undefined]. *)
  callRatios : gmap Z Z;
  maxWeekendsPerRotation : Z;
  (** [undefined] is [None]. *)
  weekendDefinition : option (list string)
}.

(** A mandatory off-service or exam-leave rule of the yearly engine. *)
Record RotationRule := mkRotationRule {
  rule_blockNumber : Z;
  pgyLevels : list Z;
  rule_rotationName : string
}.

Record YearlySchedulerConfig := mkYearlySchedulerConfig {
  mandatoryRotations : option (list RotationRule);
  examLeave : option (list RotationRule)
}.

Record AppConfiguration := mkAppConfiguration {
  monthlySchedulerConfig : MonthlySchedulerConfig;
  (** [config.yearlySchedulerConfig], possibly undefined *)
  yearlySchedulerConfig : option YearlySchedulerConfig;
  (** configured holidays, already parsed to dates *)
  cfg_holidays : option (list Z)
}.

(* ================================================================= *)
(** ** MonthlyCallScheduler.getMaxCalls (part_000, lines 890-934) *)

Definition getMaxCalls (config : AppConfiguration) (resident : Resident)
    (workingDays : Z) (staffingLevel : StaffingLevel) : Z :=
  if isChief resident && callExempt resident then 0
  else
    let paroRule := find_first
      (fun rule => (minDays rule <=? workingDays) && (workingDays <=? maxDays rule))
      (paroHardCaps (monthlySchedulerConfig config)) in
    let paroHardCap := match paroRule with Some rule => calls rule | None => 8 end in
    (* [!callRatio]: undefined and 0 are both falsy *)
    match callRatios (monthlySchedulerConfig config) !! pgyLevel resident with
    | None | Some 0 => paroHardCap
    | Some callRatio =>
        let pgyTarget := workingDays / callRatio in
        match staffingLevel with
        | Normal => Z.min paroHardCap pgyTarget
        | Shortage => paroHardCap
        end
    end.

(* ================================================================= *)
(** ** MonthlyCallScheduler (part_000): state and helpers *)

Record CallStats := mkCallStats {
  totalCalls : Z;
  weekendCalls : Z;
  holidayCalls : Z;
  nightCalls : Z;
  lastCallDate : option Z;
  consecutiveDays : Z;
  callDates : list Z;
  cs_points : Z
}.

(** The scheduler object: the constructor's fields.  [sched_holidays] is
    [this.holidays = this.loadHolidays()]. *)
Record Scheduler := mkScheduler {
  residents : list Resident;
  config : AppConfiguration;
  academicYear : AcademicYear;
  approvedLeave : list LeaveRequest;
  month : Z;
  year : Z;
  existingAssignments : list CallAssignment
}.

(** [this.callStats]. *)
Abbreviation Stats := (gmap string CallStats).

Definition emptyStats : CallStats := mkCallStats 0 0 0 0 None 0 [] 0.

(** [this.callStats.get(id)!]: every resident's entry is created by the
    constructor, so the non-null assertion never fails for a listed
    resident. *)
Definition getStats (st : Stats) (rid : string) : CallStats :=
  default emptyStats (st !! rid).

Section MonthlyHelpers.
Variable S : Scheduler.

Definition loadHolidays : list Z :=
    default [] (cfg_holidays (config S)) ++
    [mkDate (year S) 0 1; mkDate (year S) 6 4; mkDate (year S) 11 25].

Definition isHoliday (date : Z) : bool :=
    js_some (fun h => h =? date) loadHolidays.

Definition isWeekend (date : Z) : bool :=
    let weekendDays := default ["Friday"; "Saturday"; "Sunday"]%string
      (weekendDefinition (monthlySchedulerConfig (config S))) in
    if in_dec string_dec (toLowerCase (weekdayName date)) (map toLowerCase weekendDays)
    then true else false.

Definition getCurrentBlock (date : Z) : option RotationBlock :=
    find_first (fun b => (startDate b <=? date) && (date <=? endDate b))
      (blocks (academicYear S)).

Definition findRotation (b : RotationBlock) (rid : string) : option RotationAssignment :=
    find_first (fun a => bool_decide (ra_residentId a = rid)) (assignments b).

Definition getWorkingDaysForBlock (block : option RotationBlock) : Z :=
    match block with
    | None => 28
    | Some b => Z.of_nat (length (List.filter (fun d => negb (isHoliday d))
                                     (range_incl (startDate b) (endDate b))))
    end.

Definition isOnLeave (rid : string) (date : Z) : bool :=
    js_some (fun leave =>
      bool_decide (lr_residentId leave = rid) &&
      bool_decide (lr_status leave = Approved) &&
      (lr_startDate leave <=? date) && (date <=? lr_endDate leave))
      (approvedLeave S).

Definition hasRequestedTimeOff (rid : string) (date : Z) : bool :=
    js_some (fun leave =>
      bool_decide (lr_residentId leave = rid) &&
      bool_decide (lr_status leave = PendingApproval) &&
      (lr_startDate leave <=? date) && (date <=? lr_endDate leave))
      (approvedLeave S).

  (** [getDaysBetween]: [floor(|d2 - d1| ms / one day)]. *)
Definition getDaysBetween (date1 date2 : Z) : Z := Z.abs (date2 - date1).

Definition isPostCall (st : Stats) (rid : string) (date : Z) : bool :=
    match lastCallDate (getStats st rid) with
    | None => false
    | Some last => getDaysBetween last date <? 2
    end.

  (** Number of recorded calls in the look-back window [date-28, date). *)
Definition recentCalls (st : Stats) (rid : string) (date : Z) : Z :=
    let lookbackDate := date - 28 in
    Z.of_nat (length (List.filter (fun d => (lookbackDate <=? d) && (d <? date))
                        (callDates (getStats st rid)))).

Definition checkPAROCompliance (st : Stats) (rid : string) (date : Z) : bool :=
    let lookback := 28 in
    recentCalls st rid date + 1 <=? lookback / 4.

Definition maxWeekends : Z :=
    let m := maxWeekendsPerRotation (monthlySchedulerConfig (config S)) in
    if m =? 0 then 2 else m.

Definition isEligibleForCall (st : Stats) (resident : Resident) (date : Z)
      (staffingLevel : StaffingLevel) : bool :=
    let stats := getStats st (id resident) in
    match getCurrentBlock date with
    | None => false
    | Some block =>
      match findRotation block (id resident) with
      | None => false
      | Some rotation =>
        if negb (bool_decide (rotationType rotation = CORE_NSX)) then false
        else if isOnLeave (id resident) date then false
        else if isPostCall st (id resident) date then false
        else
          let workingDays := getWorkingDaysForBlock (Some block) in
          let maxCalls := getMaxCalls (config S) resident workingDays staffingLevel in
          if maxCalls <=? totalCalls stats then false
          else if isWeekend date && (maxWeekends <=? weekendCalls stats) then false
          else checkPAROCompliance st (id resident) date
      end
    end.

Definition calculateCallPoints (callType : CallType) : Z :=
    match callType with
    | Night => 1 | Weekend => 2 | Holiday => 3 | PostCall => 0 | NoCall => 0
    end.

Definition getRequiredResidentCount (callType : CallType) : Z :=
    match callType with
    | Holiday => 2 | Weekend => 1 | Night => 1 | _ => 0
    end.

Definition requiresPostCall (callType : CallType) : bool :=
    match callType with Night | Weekend | Holiday => true | _ => false end.

Definition getResidentTeam (rid : string) (date : Z) : option Team :=
    match getCurrentBlock date with
    | None => None
    | Some b => match findRotation b rid with Some r => team r | None => None end
    end.
End MonthlyHelpers.

(* ================================================================= *)
(** ** MonthlyCallScheduler: statistics, scoring and selection *)

Section MonthlyScheduler.
Variable S : Scheduler.

Definition getLastCallDate (calls : list CallAssignment) : option Z :=
    match sort_by (fun y x => ca_date y <? ca_date x) calls with
    | [] => None
    | a :: _ => Some (ca_date a)
    end.

Definition initialStatsOf (resident : Resident) : CallStats :=
    let existingCalls := List.filter (fun a =>
      bool_decide (ca_residentId a = id resident) &&
      negb (bool_decide (ca_type a = PostCall))) (existingAssignments S) in
    {| totalCalls := Z.of_nat (length existingCalls);
       weekendCalls := Z.of_nat (length (List.filter (fun a => bool_decide (ca_type a = Weekend)) existingCalls));
       holidayCalls := Z.of_nat (length (List.filter (fun a => bool_decide (ca_type a = Holiday)) existingCalls));
       nightCalls := Z.of_nat (length (List.filter (fun a => bool_decide (ca_type a = Night)) existingCalls));
       lastCallDate := getLastCallDate existingCalls;
       consecutiveDays := 0;
       callDates := map ca_date existingCalls;
       cs_points := fold_left (fun sum a => sum + points a) existingCalls 0 |}.

Definition initializeCallStats : Stats :=
    fold_left (fun st r => <[id r := initialStatsOf r]> st) (residents S) ∅.

Definition residentCount : Z := Z.of_nat (length (residents S)).

Definition getAverageCallCount (st : Stats) : Q :=
    if residentCount =? 0 then 0%Q
    else (inject_Z (map_fold (fun _ s acc => (acc + totalCalls s)%Z) 0%Z st) / inject_Z residentCount)%Q.

Definition getAveragePoints (st : Stats) : Q :=
    if residentCount =? 0 then 0%Q
    else (inject_Z (map_fold (fun _ s acc => (acc + cs_points s)%Z) 0%Z st) / inject_Z residentCount)%Q.

Definition Qmax0 (q : Q) : Q := if Qle_bool q 0 then 0%Q else q.

Definition Qltb (a b : Q) : bool := negb (Qle_bool b a).

  (** [Math.round]: halves round towards +infinity. *)
Definition js_round (q : Q) : Z := Qfloor (q + (1 # 2))%Q.

Definition getTeamCallBalance (st : Stats) (t : Team) : Z :=
    let acc := fold_left (fun '(teamCalls, teamMembers) r =>
      let rotation := match getCurrentBlock S (mkDate (year S) (month S) 15) with
                      | Some b => findRotation b (id r) | None => None end in
      match rotation with
      | Some rot => if bool_decide (team rot = Some t)
                    then (teamCalls + totalCalls (getStats st (id r)), teamMembers + 1)
                    else (teamCalls, teamMembers)
      | None => (teamCalls, teamMembers)
      end) (residents S) (0, 0) in
    let '(teamCalls, teamMembers) := acc in
    if teamMembers =? 0 then 0
    else
      let teamAverage := (inject_Z teamCalls / inject_Z teamMembers)%Q in
      js_round ((getAverageCallCount st - teamAverage) * 5)%Q.

Definition scoreResident (st : Stats) (resident : Resident) (date : Z) (callType : CallType) : Q :=
    let stats := getStats st (id resident) in
    let avgCalls := getAverageCallCount st in
    let fairnessScore := Qmax0 (30 - (inject_Z (totalCalls stats) - avgCalls) * 10)%Q in
    let restScore := match lastCallDate stats with
                     | Some last => Z.min (getDaysBetween last date * 3) 30
                     | None => 30 end in
    let seniorityScore := match callType with
                          | Weekend | Holiday => pgyLevel resident * 2
                          | _ => 0 end in
    let avgPoints := getAveragePoints st in
    let pointScore := Qmax0 (20 - (inject_Z (cs_points stats) - avgPoints))%Q in
    let teamBalance := match getCurrentBlock S date with
                       | Some b => match findRotation b (id resident) with
                                   | Some rot => match team rot with
                                                 | Some t => getTeamCallBalance st t
                                                 | None => 0 end
                                   | None => 0 end
                       | None => 0 end in
    let penalty := if hasRequestedTimeOff S (id resident) date then 50 else 0 in
    Qmax0 (100 + fairnessScore + inject_Z restScore + inject_Z seniorityScore
           + pointScore + inject_Z teamBalance - inject_Z penalty)%Q.

Definition eligibleResidents (st : Stats) (date : Z) (staffingLevel : StaffingLevel)
      (excludeIds : list string) : list Resident :=
    List.filter (fun r => negb (bool_decide (id r ∈ excludeIds)) &&
                     isEligibleForCall S st r date staffingLevel) (residents S).

  (** [scoredResidents.sort((a, b) => b.score - a.score)]. *)
Definition sortScored (scored : list (Resident * Q)) : list (Resident * Q) :=
    sort_by (fun y x => Qltb (snd y) (snd x)) scored.

Definition selectBestResident (st : Stats) (date : Z) (callType : CallType)
      (staffingLevel : StaffingLevel) (excludeIds : list string) : option Resident :=
    match eligibleResidents st date staffingLevel excludeIds with
    | [] => None
    | eligible =>
        let scored := map (fun r => (r, scoreResident st r date callType)) eligible in
        match sortScored scored with
        | [] => None
        | best :: _ => Some (fst best)
        end
    end.
End MonthlyScheduler.

(* ================================================================= *)
(** ** MonthlyCallScheduler.generateSchedule (part_000, lines 702-773) *)

Record DayRequirements := mkDayRequirements {
  dr_date : Z;
  dayOfWeek : Z;
  dr_isWeekend : bool;
  dr_isHoliday : bool;
  dr_callType : CallType;
  requiredCoverage : Z;
  priority : Z
}.

Section Generate.
Variable S : Scheduler.

Definition dayRequirementOf (day : Z) : DayRequirements :=
    let date := mkDate (year S) (month S) day in
    let dow := getDay date in
    let wk := isWeekend S date in
    let hol := isHoliday S date in
    let '(callType, prio) :=
      if hol then (Holiday, 3)
      else if wk then (Weekend, 2)
      else if (1 <=? dow) && (dow <=? 4) then (Night, 1)
      else (NoCall, 0) in
    {| dr_date := date; dayOfWeek := dow; dr_isWeekend := wk; dr_isHoliday := hol;
       dr_callType := callType; requiredCoverage := getRequiredResidentCount callType;
       priority := prio |}.

Definition calculateDayRequirements (daysInMonth : Z) : list DayRequirements :=
    map dayRequirementOf (range_incl 1 daysInMonth).

  (** [dayRequirements.sort((a, b) => b.priority - a.priority)]. *)
Definition sortByPriority (reqs : list DayRequirements) : list DayRequirements :=
    sort_by (fun y x => priority y <? priority x) reqs.

Definition createCallAssignment (resident : Resident) (date : Z) (callType : CallType)
      (isHol : bool) : CallAssignment :=
    {| ca_id := ("call-" ++ Z_to_string (year S) ++ "-" ++ padStart2 (month S + 1) ++ "-"
                 ++ Z_to_string (getDate date) ++ "-" ++ id resident)%string;
       ca_residentId := id resident;
       residentName := name resident;
       ca_date := date;
       ca_type := callType;
       points := calculateCallPoints callType;
       ca_isHoliday := isHol;
       ca_team := getResidentTeam S (id resident) date;
       createdBy := "system";
       ca_status := Scheduled |}.

Definition createPostCallAssignments (callAssignment : CallAssignment) (callType : CallType)
      : list CallAssignment :=
    if negb (requiresPostCall callType) then []
    else
      let postCallDate := ca_date callAssignment + 1 in
      if negb (getMonth postCallDate =? month S) then []
      else [{| ca_id := ("postcall-" ++ ca_id callAssignment)%string;
               ca_residentId := ca_residentId callAssignment;
               residentName := residentName callAssignment;
               ca_date := postCallDate;
               ca_type := PostCall;
               points := 0;
               ca_isHoliday := ca_isHoliday callAssignment;
               ca_team := ca_team callAssignment;
               createdBy := createdBy callAssignment;
               ca_status := PostCallStatus |}].

Definition updateResidentStats (st : Stats) (rid : string) (dayReq : DayRequirements) : Stats :=
    let s := getStats st rid in
    <[rid := {| totalCalls := totalCalls s + 1;
                weekendCalls := if dr_isWeekend dayReq then weekendCalls s + 1 else weekendCalls s;
                holidayCalls := if dr_isHoliday dayReq then holidayCalls s + 1 else holidayCalls s;
                nightCalls := if bool_decide (dr_callType dayReq = Night)
                              then nightCalls s + 1 else nightCalls s;
                lastCallDate := Some (dr_date dayReq);
                consecutiveDays := consecutiveDays s;
                callDates := callDates s ++ [dr_date dayReq];
                cs_points := cs_points s + calculateCallPoints (dr_callType dayReq) |}]> st.

  (** One iteration of the inner [for (let i = 0; i < requiredResidents; i++)]
      loop; the state is (callStats, selectedResidents, assignments). *)
Definition fillPosition (staffingLevel : StaffingLevel) (dayReq : DayRequirements)
      (acc : Stats * list Resident * list CallAssignment) : Stats * list Resident * list CallAssignment :=
    let '(st, selected, out) := acc in
    match selectBestResident S st (dr_date dayReq) (dr_callType dayReq) staffingLevel
            (map id selected) with
    | None => acc
    | Some best =>
        let assignment := createCallAssignment best (dr_date dayReq) (dr_callType dayReq)
                            (dr_isHoliday dayReq) in
        let st' := updateResidentStats st (id best) dayReq in
        (st', selected ++ [best],
         out ++ [assignment] ++ createPostCallAssignments assignment (dr_callType dayReq))
    end.

Definition processDay (staffingLevel : StaffingLevel)
      (acc : Stats * list CallAssignment) (dayReq : DayRequirements) : Stats * list CallAssignment :=
    let '(st, out) := acc in
    if bool_decide (dr_callType dayReq = NoCall) then acc
    else
      let requiredResidents := getRequiredResidentCount (dr_callType dayReq) in
      let '(st', _, out') :=
        fold_left (fun a _ => fillPosition staffingLevel dayReq a)
                  (seq 0 (Z.to_nat requiredResidents)) (st, [], out) in
      (st', out').

Definition generateSchedule (staffingLevel : StaffingLevel) : list CallAssignment :=
    let daysInMonth := daysInMonth (year S) (month S) in
    let dayRequirements := sortByPriority (calculateDayRequirements daysInMonth) in
    snd (fold_left (processDay staffingLevel) dayRequirements (initializeCallStats S, [])).
End Generate.

(* ================================================================= *)
(** ** YearlyScheduleEngine (part_001) *)

Module Yearly.

Definition BLOCKS_PER_YEAR : Z := 13.
Definition DAYS_PER_BLOCK : Z := 28.

  (** [this.schedule]: a 13 x N grid of optional rotation assignments. *)
Abbreviation Grid := (list (list (option RotationAssignment))).

Definition initialGrid (nResidents : nat) : Grid :=
    repeat (repeat None nResidents) (Z.to_nat BLOCKS_PER_YEAR).

  (** [academicYearId.split('-').map(Number)[0]] for a decimal first
      component; any other first component gives [NaN], an invalid start
      date, modelled as [None]. *)
Fixpoint leadingNumber (s : string) (acc : option Z) : option Z :=
    match s with
    | EmptyString => acc
    | String c rest =>
        if Ascii.eqb c "-"%char then acc
        else
          let n := Z.of_nat (Ascii.nat_of_ascii c) in
          if (48 <=? n) && (n <=? 57)
          then leadingNumber rest (option_map (fun v => v * 10 + (n - 48)) acc)
          else None
    end.

Definition startYearOf (academicYearId : string) : option Z :=
    leadingNumber academicYearId (Some 0).

  (** [generateBlockDates]: block [i] runs from July 1 + 28 i for 28 days. *)
Definition blockDates (startYear : Z) (i : Z) : Z * Z :=
    let start := mkDate startYear 6 1 + DAYS_PER_BLOCK * i in
    (start, start + DAYS_PER_BLOCK - 1).

  (** [isSlotEmpty]: [this.schedule[block]] is [undefined] outside 0..12,
      and reading an index of it throws a [TypeError] ([None]). *)
Definition isSlotEmpty (g : Grid) (block : Z) (resIndex : nat) : option bool :=
    if block <? 0 then None
    else match g !! Z.to_nat block with
         | None => None
         | Some row => Some (match row !! resIndex with Some None => true | _ => false end)
         end.

Definition assign (residents : list Resident) (g : Grid) (block : Z) (resIndex : nat)
      (rotName : string) (rotType : RotationType) (hol : option HolidayType)
      (req : option bool) : option Grid :=
    match isSlotEmpty g block resIndex with
    | None => None
    | Some false => Some g
    | Some true =>
        let rid := match residents !! resIndex with Some r => id r | None => "" end in
        let cell := {| ra_residentId := rid; rotationName := rotName; rotationType := rotType;
                       team := None; holidayType := hol; required := req |} in
        let b := Z.to_nat block in
        Some (<[b := <[resIndex := Some cell]> (default [] (g !! b))]> g)
    end.

  (** Option-monadic [forEach]. *)
Fixpoint foldM {A B} (f : B -> A -> option B) (l : list A) (b : B) : option B :=
    match l with
    | [] => Some b
    | x :: xs => match f b x with Some b' => foldM f xs b' | None => None end
    end.

Definition indexed {A} (l : list A) : list (A * nat) := zip l (seq 0 (length l)).

  (** Phases 1 and 2 share their shape. *)
Definition assignRuleRotations (residents : list Resident) (rules : list RotationRule)
      (rotType : RotationType) (g : Grid) : option Grid :=
    foldM (fun g rule =>
      foldM (fun g '(resident, resIndex) =>
        if bool_decide (pgyLevel resident ∈ pgyLevels rule)
        then assign residents g (rule_blockNumber rule - 1) resIndex
               (rule_rotationName rule) rotType None (Some true)
        else Some g) (indexed residents) g) rules g.

Definition phase1_AssignMandatoryRotations (residents : list Resident)
      (config : AppConfiguration) (g : Grid) : option Grid :=
    let rules := match yearlySchedulerConfig config with
                 | Some y => default [] (mandatoryRotations y) | None => [] end in
    assignRuleRotations residents rules MANDATORY_OFF_SERVICE g.

Definition phase2_AssignExamBlocks (residents : list Resident)
      (config : AppConfiguration) (g : Grid) : option Grid :=
    let rules := match yearlySchedulerConfig config with
                 | Some y => default [] (examLeave y) | None => [] end in
    assignRuleRotations residents rules EXAM_LEAVE g.

Definition phase3_AssignHolidayBlocks (residents : list Resident) (g : Grid) : option Grid :=
    let seniors := sort_by (fun y x => pgyLevel (fst y) <? pgyLevel (fst x))
                     (List.filter (fun p => 4 <=? pgyLevel (fst p)) (indexed residents)) in
    foldM (fun g '((_, resIndex), idx) =>
      let blockToAssign := if Nat.even idx then 6 else 7 in
      match isSlotEmpty g (blockToAssign - 1) resIndex with
      | None => None
      | Some false => Some g
      | Some true =>
          assign residents g (blockToAssign - 1) resIndex "Holiday Leave" HOLIDAY_LEAVE
            (Some (if blockToAssign =? 6 then Christmas else NewYear)) None
      end) (indexed seniors) g.

Definition phase4_AssignCoreNeurosurgeryRotations (residents : list Resident) (g : Grid)
      : option Grid :=
    foldM (fun g block =>
      foldM (fun g resIndex =>
        match isSlotEmpty g (Z.of_nat block) resIndex with
        | None => None
        | Some false => Some g
        | Some true => assign residents g (Z.of_nat block) resIndex
                         "Neurosurgery - Core" CORE_NSX None None
        end) (seq 0 (length residents)) g) (seq 0 (Z.to_nat BLOCKS_PER_YEAR)) g.

Definition isCoreNsx (a : option RotationAssignment) : bool :=
    match a with Some ra => bool_decide (rotationType ra = CORE_NSX) | None => false end.

Definition hasTeam (t : Team) (a : option RotationAssignment) : bool :=
    isCoreNsx a && match a with Some ra => bool_decide (team ra = Some t) | None => false end.

Definition countTeam (t : Team) (row : list (option RotationAssignment)) : Z :=
    Z.of_nat (length (List.filter (hasTeam t) row)).

  (** Second pass of phase 6 over one block, from the running counts. *)
Fixpoint balancePass (red blue : Z) (row : list (option RotationAssignment))
      : list (option RotationAssignment) :=
    match row with
    | [] => []
    | Some ra :: rest =>
        if bool_decide (rotationType ra = CORE_NSX) && bool_decide (team ra = None) then
          if red <=? blue
          then Some {| ra_residentId := ra_residentId ra; rotationName := rotationName ra;
                       rotationType := rotationType ra; team := Some Red;
                       holidayType := holidayType ra; required := required ra |}
               :: balancePass (red + 1) blue rest
          else Some {| ra_residentId := ra_residentId ra; rotationName := rotationName ra;
                       rotationType := rotationType ra; team := Some Blue;
                       holidayType := holidayType ra; required := required ra |}
               :: balancePass red (blue + 1) rest
        else Some ra :: balancePass red blue rest
    | None :: rest => None :: balancePass red blue rest
    end.

Definition balanceBlock (row : list (option RotationAssignment)) : list (option RotationAssignment) :=
    balancePass (countTeam Red row) (countTeam Blue row) row.

Definition phase6_BalanceTeams (g : Grid) : Grid := map balanceBlock g.

Definition formatScheduleForFirestore (academicYearId : string) (startYear : Z) (g : Grid)
      : AcademicYear :=
    {| ay_id := academicYearId;
       blocks := map (fun '(row, blockNum) =>
         let '(s, e) := blockDates startYear (Z.of_nat blockNum) in
         {| blockNumber := Z.of_nat blockNum + 1; startDate := s; endDate := e;
            assignments := omap (fun a => a) row |}) (indexed g) |}.

  (** [generateSchedule]: phases 0, 5 and 7 write nothing (phase 7 only
      reports coverage violations on the console). *)
Definition generateYearlySchedule (residents : list Resident) (config : AppConfiguration)
      (academicYearId : string) : option AcademicYear :=
    match startYearOf academicYearId with
    | None => None
    | Some startYear =>
      let g0 := initialGrid (length residents) in
      match phase1_AssignMandatoryRotations residents config g0 with
      | None => None
      | Some g1 =>
      match phase2_AssignExamBlocks residents config g1 with
      | None => None
      | Some g2 =>
      match phase3_AssignHolidayBlocks residents g2 with
      | None => None
      | Some g3 =>
      match phase4_AssignCoreNeurosurgeryRotations residents g3 with
      | None => None
      | Some g4 => Some (formatScheduleForFirestore academicYearId startYear (phase6_BalanceTeams g4))
      end end end end
    end.

End Yearly.

(* ================================================================= *)
(** ** The duplicated scheduler ("Monthly Call Scheduler (Backend logic).ts")

    Its constructor takes the same inputs as [MonthlyCallScheduler] except
    [existingAssignments], which it never reads.  The direct access
    [weekendDefinition.map(...)] throws a [TypeError] when the field is
    undefined; a thrown run is [None]. *)

Module Backend.
  Section BackendScheduler.
Variable S : Scheduler.

Definition getMaxCalls (resident : Resident) (workingDays : Z)
        (staffingLevel : StaffingLevel) : Z :=
      if isChief resident && callExempt resident then 0
      else
        let paroRule := find_first
          (fun rule => (minDays rule <=? workingDays) && (workingDays <=? maxDays rule))
          (paroHardCaps (monthlySchedulerConfig (config S))) in
        let paroHardCap := match paroRule with Some rule => calls rule | None => 8 end in
        (* [callRatios[pgyLevel] || 99] *)
        let callRatio := match callRatios (monthlySchedulerConfig (config S)) !! pgyLevel resident with
                         | None | Some 0 => 99 | Some r => r end in
        let pgyTarget := workingDays / callRatio in
        match staffingLevel with
        | Normal => Z.min paroHardCap pgyTarget
        | Shortage => paroHardCap
        end.

Definition getWorkingDaysForBlock (block : option RotationBlock) : Z := 28.

Definition isAvailable (resident : Resident) (date : Z) (callCounts weekendCounts : gmap string Z)
        (staffingLevel : StaffingLevel) : option bool :=
      let block := getCurrentBlock S date in
      let rotation := match block with Some b => findRotation b (id resident) | None => None end in
      match rotation with
      | None => Some false
      | Some rot =>
        if negb (bool_decide (rotationType rot = CORE_NSX)) then Some false
        else if js_some (fun l => (lr_startDate l <=? date) && (date <=? lr_endDate l)
                                  && bool_decide (lr_residentId l = id resident)) (approvedLeave S)
        then Some false
        else
          let workingDays := getWorkingDaysForBlock block in
          let maxCalls := getMaxCalls resident workingDays staffingLevel in
          if maxCalls <=? default 0 (callCounts !! id resident) then Some false
          else match weekendDefinition (monthlySchedulerConfig (config S)) with
               | None => None
               | Some wd =>
                 if bool_decide (toLowerCase (weekdayName date) ∈ map toLowerCase wd)
                    && (maxWeekendsPerRotation (monthlySchedulerConfig (config S))
                          <=? default 0 (weekendCounts !! id resident))
                 then Some false else Some true
               end
      end.

    (** [residents.filter(isAvailable)], propagating a thrown error. *)
Definition filterAvailable (date : Z) (callCounts weekendCounts : gmap string Z)
        (staffingLevel : StaffingLevel) : option (list Resident) :=
      Yearly.foldM (fun acc r =>
        match isAvailable r date callCounts weekendCounts staffingLevel with
        | None => None
        | Some true => Some (acc ++ [r])
        | Some false => Some acc
        end) (residents S) [].

Definition generateSchedule (staffingLevel : StaffingLevel) : option (list CallAssignment) :=
      let assignments : list CallAssignment := [] in
      let daysInMonth := daysInMonth (year S) (month S) in
      let callCounts : gmap string Z :=
        fold_left (fun m r => <[id r := 0]> m) (residents S) ∅ in
      let weekendCounts : gmap string Z :=
        fold_left (fun m r => <[id r := 0]> m) (residents S) ∅ in
      (* Main loop: eligible residents are computed and then unused. *)
      let loop := Yearly.foldM (fun (_ : unit) day =>
        let currentDate := mkDate (year S) (month S) day in
        match filterAvailable currentDate callCounts weekendCounts staffingLevel with
        | None => None
        | Some _eligibleResidents => Some tt
        end) (range_incl 1 daysInMonth) tt in
      match loop with
      | None => None
      | Some _ => Some assignments
      end.
  End BackendScheduler.
End Backend.

(* ================================================================= *)
(** ** Leave-request analyzer (vacation-analyzer_Version3.ts)

    The Firestore collections the analyzer queries are passed in as lists;
    a query is a filter over its collection. *)

Module Analyzer.

Inductive RiskLevel := Low | Medium | High.
Inductive Recommendation := Approve | FlaggedForReviewRec | Deny.
Inductive Severity := SevHigh | SevMedium.

#[global] Instance RiskLevel_eq_dec : EqDecision RiskLevel.
  Proof. solve_decision. Defined.
#[global] Instance Recommendation_eq_dec : EqDecision Recommendation.
  Proof. solve_decision. Defined.
#[global] Instance Severity_eq_dec : EqDecision Severity.
  Proof. solve_decision. Defined.

Record CoverageAnalysis := mkCoverageAnalysis {
    riskLevel : RiskLevel;
    availableResidents : Z;
    totalResidents : Z;
    overlappingLeaveCount : Z;
    coverageRatio : Q;
    criticalDates : list Z
  }.

Record ScheduleConflict := mkScheduleConflict {
    conflictType : string;
    conflictDate : Z;
    severity : Severity
  }.

Record FairnessAnalysis := mkFairnessAnalysis { fairness_score : Z }.

Record PolicyCompliance := mkPolicyCompliance {
    isCompliant : bool;
    violations : list string
  }.

  (** [analyzeCoverageImpact] (lines 310-365).  [coverageRatio] is the
      float quotient, here exact in [Q]; with no resident the JS quotient
      is negative or NaN and the rational one is 0, both below 0.6. *)
Definition analyzeCoverageImpact (residentsColl : list Resident)
      (leaveColl : list LeaveRequest) (request : LeaveRequest) : CoverageAnalysis :=
    let total := Z.of_nat (length (List.filter (fun r =>
                   onService r && bool_decide (specialty r = "Neurosurgery"%string)) residentsColl)) in
    let overlappingSnapshot := List.filter (fun l =>
          bool_decide (lr_status l = Approved) && (lr_startDate request <=? lr_endDate l)) leaveColl in
    let overlappingLeave := List.filter (fun l =>
          (lr_startDate l <=? lr_endDate request) &&
          negb (bool_decide (lr_residentId l = lr_residentId request))) overlappingSnapshot in
    let overlappingCount := Z.of_nat (length overlappingLeave) in
    let available := total - overlappingCount - 1 in
    let ratio := (inject_Z available / inject_Z total)%Q in
    let critical := List.filter (fun d => (getDay d =? 0) || (getDay d =? 6))
                      (range_incl (lr_startDate request) (lr_endDate request)) in
    let base := if Qle_bool (8 # 10) ratio then Low
                else if Qle_bool (6 # 10) ratio then Medium
                else High in
    let risk :=
      if (2 <? Z.of_nat (length critical)) && bool_decide (base = Low) then Medium
      else if 4 <? Z.of_nat (length critical) then High
      else base in
    {| riskLevel := risk; availableResidents := available; totalResidents := total;
       overlappingLeaveCount := overlappingCount; coverageRatio := ratio;
       criticalDates := critical |}.

  (** [generateRecommendation] (lines 508-575), its [decision]; the reason
      and note texts are not modelled. *)
Definition generateRecommendation (fairness : FairnessAnalysis) (coverage : CoverageAnalysis)
      (conflicts : list ScheduleConflict) (policyCompliance : PolicyCompliance) : Recommendation :=
    let criticalConflicts := List.filter (fun c => bool_decide (severity c = SevHigh)) conflicts in
    if negb (bool_decide (criticalConflicts = [])) then Deny
    else if negb (isCompliant policyCompliance) && (1 <? Z.of_nat (length (violations policyCompliance)))
    then Deny
    else if bool_decide (riskLevel coverage = High) && negb (Qle_bool (1 # 2) (coverageRatio coverage))
    then Deny
    else
      let concerns :=
        (if bool_decide (riskLevel coverage = Medium) then ["medium coverage risk"%string] else []) ++
        (if fairness_score fairness <? 40 then ["low fairness score"%string] else []) ++
        (if negb (bool_decide (conflicts = [])) then ["minor conflicts"%string] else []) ++
        (if negb (isCompliant policyCompliance) then ["policy concerns"%string] else []) in
      if (2 <=? length concerns)%nat then FlaggedForReviewRec
      else if (length concerns =? 1)%nat then FlaggedForReviewRec
      else Approve.

  (** Outcome of [performComprehensiveAnalysis] and of the report
      transaction: a recommendation, or a thrown error. *)
Inductive AnalysisOutcome := AnalysisOk (rec : Recommendation) | AnalysisThrew.

  (** The [onCreate] handler (lines 38-130): [None] when the request is
      skipped, otherwise the request as updated. *)
Definition analyzeLeaveRequest (leaveRequest : LeaveRequest) (outcome : AnalysisOutcome)
      : option LeaveRequest :=
    if negb (bool_decide (lr_status leaveRequest = PendingAnalysis)) then None
    else
      let newStatus := match outcome with
                       | AnalysisOk rec => if bool_decide (rec = Deny) then Denied else PendingApproval
                       | AnalysisThrew => AnalysisFailed
                       end in
      Some {| lr_id := lr_id leaveRequest; lr_residentId := lr_residentId leaveRequest;
              lr_type := lr_type leaveRequest; lr_status := newStatus;
              lr_startDate := lr_startDate leaveRequest; lr_endDate := lr_endDate leaveRequest |}.

End Analyzer.

(* ================================================================= *)
(** ** The per-resident call cap in the words of the specification (4.1.1) *)

Definition maxCalls_spec (config : AppConfiguration) (r : Resident) (W : Z)
    (m : StaffingLevel) : Z :=
  if isChief r && callExempt r then 0
  else
    let paroCap := match List.find (fun rule => (minDays rule <=? W) && (W <=? maxDays rule))
                           (paroHardCaps (monthlySchedulerConfig config)) with
                   | Some rule => calls rule | None => 8 end in
    match callRatios (monthlySchedulerConfig config) !! pgyLevel r with
    | None => paroCap
    | Some ratio => match m with
                    | Normal => Z.min paroCap (W / ratio)
                    | Shortage => paroCap
                    end
    end.

(* ================================================================= *)
(** ** MonthlyCallScheduler: schedule metrics (part_000, lines 1165-1210
       and 1410-1448) and the cloud function's validation (lines 497-527) *)

(** A JS [Map<string, number>] keeps its keys in insertion order; [set] on
    a present key updates its value in place. *)
Fixpoint map_set (k : string) (v : Z) (m : list (string * Z)) : list (string * Z) :=
  match m with
  | [] => [(k, v)]
  | (k', v') :: rest => if String.eqb k k' then (k, v) :: rest else (k', v') :: map_set k v rest
  end.

Definition map_get (k : string) (m : list (string * Z)) : option Z :=
  option_map snd (find_first (fun p => String.eqb (fst p) k) m).

(** The per-resident number of non-PostCall assignments, built the same way
    by [calculateScheduleMetrics] ([residentDistribution]) and
    [validateGeneratedSchedule] ([residentCallCounts]):
    [map.set(id, (map.get(id) || 0) + 1)]. *)
Definition countCallsByResident (assignments : list CallAssignment) : list (string * Z) :=
  fold_left (fun m a =>
    if negb (bool_decide (ca_type a = PostCall))
    then map_set (ca_residentId a) (default 0 (map_get (ca_residentId a) m) + 1) m
    else m) assignments [].

(** [sorted.reduce((acc, val, i) => { acc.push((acc[i - 1] || 0) + val); ... }, [])]:
    [acc[i - 1]] is the last element pushed so far. *)
Definition cumulativeSums (sorted : list Z) : list Z :=
  fold_left (fun acc v => acc ++ [List.last acc 0 + v]) sorted [].

(** [calculateGiniCoefficient] over the call counts, in exact rationals. *)
Definition calculateGiniCoefficient (values : list Z) : Q :=
  match values with
  | [] => 0%Q
  | _ :: _ =>
    (* [values.sort((a, b) => a - b)] *)
    let sorted := sort_by (fun y x => x <? y) values in
    let n := length sorted in
    let cumSum := cumulativeSums sorted in
    let totalSum := nth (n - 1) cumSum 0 in
    if totalSum =? 0 then 0%Q
    else
      let lorenzCurve := map (fun s => (inject_Z s / inject_Z totalSum)%Q) cumSum in
      let giniSum := fold_left (fun acc i =>
          (acc + (inject_Z (Z.of_nat i + 1) / inject_Z (Z.of_nat n) - nth i lorenzCurve 0))%Q)
          (seq 0 n) 0%Q in
      (giniSum / inject_Z (Z.of_nat n))%Q
  end.

Record ScheduleMetrics := mkScheduleMetrics {
  sm_totalCalls : Z;
  totalWeekendCalls : Z;
  totalNightCalls : Z;
  totalHolidayCalls : Z;
  coverageRate : Q;
  fairnessIndex : Q;
  sm_violations : list string;
  residentDistribution : list (string * Z)
}.

Section Metrics.
Variable S : Scheduler.

Definition countType (t : CallType) (assignments : list CallAssignment) : Z :=
  Z.of_nat (length (List.filter (fun a => bool_decide (ca_type a = t)) assignments)).

(** [calculateCoverageRate]: the share of the month's days holding a
    non-PostCall assignment ([toDateString] equality is equality of days). *)
Definition calculateCoverageRate (assignments : list CallAssignment) : Q :=
  let dim := daysInMonth (year S) (month S) in
  let coveredDays := Z.of_nat (length (List.filter (fun day =>
        js_some (fun a => negb (bool_decide (ca_type a = PostCall)) &&
                          (ca_date a =? mkDate (year S) (month S) day)) assignments)
        (range_incl 1 dim))) in
  (inject_Z coveredDays / inject_Z dim)%Q.

Definition calculateScheduleMetrics (assignments : list CallAssignment) : ScheduleMetrics :=
  let dist := countCallsByResident assignments in
  let violations := fold_left (fun vs resident =>
      let calls := default 0 (map_get (id resident) dist) in
      let block := getCurrentBlock S (mkDate (year S) (month S) 15) in
      let workingDays := getWorkingDaysForBlock S block in
      let maxCalls := getMaxCalls (config S) resident workingDays Normal in
      if maxCalls <? calls
      then vs ++ [(name resident ++ ": " ++ Z_to_string calls ++ " calls exceeds max "
                   ++ Z_to_string maxCalls)%string]
      else vs) (residents S) [] in
  {| sm_totalCalls := Z.of_nat (length (List.filter (fun a =>
                        negb (bool_decide (ca_type a = PostCall))) assignments));
     totalWeekendCalls := countType Weekend assignments;
     totalNightCalls := countType Night assignments;
     totalHolidayCalls := countType Holiday assignments;
     coverageRate := calculateCoverageRate assignments;
     fairnessIndex := calculateGiniCoefficient (map snd dist);
     sm_violations := violations;
     residentDistribution := dist |}.
End Metrics.

Record ValidationResult := mkValidationResult { isValid : bool; errors : list string }.

(** [validateGeneratedSchedule(assignments, residents, config)] of the
    [generateMonthlySchedule] cloud function; [datesWithCoverage] and
    [config] are computed or passed but never read. *)
Definition validateGeneratedSchedule (assignments : list CallAssignment)
    (residents : list Resident) : ValidationResult :=
  let residentCallCounts := countCallsByResident assignments in
  let errors := fold_left (fun es '(residentId, count) =>
      match find_first (fun r => String.eqb (id r) residentId) residents with
      | Some resident =>
          if 8 <? count
          then es ++ [("Resident " ++ name resident ++ " exceeds PARO limit with "
                       ++ Z_to_string count ++ " calls")%string]
          else es
      | None => es
      end) residentCallCounts [] in
  {| isValid := bool_decide (errors = []); errors := errors |}.

(* ================================================================= *)
(** ** Leave-request analyzer: fairness, policy and alternative dates
       (vacation-analyzer_Version3.ts, lines 375-506 and 580-631) *)

Module LeaveAnalyzer.

(** [Math.ceil((end.getTime() - start.getTime()) / (1000*60*60*24)) + 1]
    for two local-midnight dates. *)
Definition leaveDays (l : LeaveRequest) : Z := lr_endDate l - lr_startDate l + 1.

Record FairnessResult := mkFairnessResult {
  fr_score : Z;
  historicalRate : Q;
  recentDaysOff : Z;
  peerComparison : Q;
  fr_recommendations : list string
}.

(** [calculateFairness(request, historicalLeave, resident, peerData)];
    [peerData.averageDaysOff] is passed as [peerAverageDaysOff] ([None]
    when undefined). *)
Definition calculateFairness (request : LeaveRequest) (historicalLeave : list LeaveRequest)
    (resident : Resident) (peerAverageDaysOff : option Q) : FairnessResult :=
  let approvedLeave := List.filter (fun l => bool_decide (lr_status l = Approved)) historicalLeave in
  let recentDaysOff := fold_left (fun sum leave => sum + leaveDays leave) approvedLeave 0 in
  let samePeriodRequests := List.filter (fun l =>
        getMonth (lr_startDate l) =? getMonth (lr_startDate request)) historicalLeave in
  let approvedCount := Z.of_nat (length (List.filter (fun l =>
        bool_decide (lr_status l = Approved)) samePeriodRequests)) in
  let historicalRate :=
    if (0 <? length samePeriodRequests)%nat
    then (inject_Z approvedCount / inject_Z (Z.of_nat (length samePeriodRequests)))%Q
    else (1 # 2)%Q in
  (* [peerData.averageDaysOff || 10]: undefined and 0 are falsy *)
  let peerAverage := match peerAverageDaysOff with
                     | Some q => if Qeq_bool q 0 then 10%Q else q
                     | None => 10%Q end in
  let peerComparison := if Qltb 0 peerAverage
                        then (inject_Z recentDaysOff / peerAverage)%Q else 1%Q in
  let score0 := 100 in
  let score1 := if 15 <? recentDaysOff then score0 - 30
                else if 10 <? recentDaysOff then score0 - 20
                else if 5 <? recentDaysOff then score0 - 10
                else score0 in
  let score2 := if Qltb (3 # 2) peerComparison then score1 - 20
                else if Qltb (6 # 5) peerComparison then score1 - 10
                else if Qltb peerComparison (1 # 2) then score1 + 10
                else score1 in
  let score3 := score2 + pgyLevel resident * 2 in
  let score := Z.max 0 (Z.min 100 score3) in
  let recommendations :=
    (if Qltb peerAverage (inject_Z recentDaysOff)
     then ["Consider deferring to allow peers equal opportunity"%string] else []) ++
    (if Qltb historicalRate (3 # 10)
     then ["This period historically has low approval rates"%string] else []) in
  {| fr_score := score; historicalRate := historicalRate; recentDaysOff := recentDaysOff;
     peerComparison := peerComparison; fr_recommendations := recommendations |}.

(** [config.leavePolicy]; each field may be undefined. *)
Record LeavePolicy := mkLeavePolicy {
  minNoticeDays : option Z;
  maxConsecutiveDays : option Z;
  annualLimit : option Z
}.

Definition MS_PER_DAY : Z := 86400000.

(** [config.leavePolicy?.<field> || default]. *)
Definition policyValue (leavePolicy : option LeavePolicy) (field : LeavePolicy -> option Z)
    (dflt : Z) : Z :=
  match leavePolicy with
  | Some p => match field p with None | Some 0 => dflt | Some v => v end
  | None => dflt
  end.

(** [new Date().getFullYear()] at the instant [now] (milliseconds). *)
Definition currentYear (now : Z) : Z := let '(y, _, _) := civil_from_days (now / MS_PER_DAY) in y.

(** [checkPolicyCompliance(request, resident, historicalLeave, config)]
    at the instant [now] = [Date.now()]; [resident] is not read. *)
Definition checkPolicyCompliance (request : LeaveRequest) (historicalLeave : list LeaveRequest)
    (leavePolicy : option LeavePolicy) (now : Z) : Analyzer.PolicyCompliance :=
  (* [Math.ceil((start - now) / day)] *)
  let daysNotice := - ((now - lr_startDate request * MS_PER_DAY) / MS_PER_DAY) in
  let minNotice := policyValue leavePolicy minNoticeDays 30 in
  let v1 := if (daysNotice <? minNotice) && negb (String.eqb (lr_type request) "Compassionate")
            then [("Less than " ++ Z_to_string minNotice ++ " days notice provided")%string]
            else [] in
  let requestDays := leaveDays request in
  let maxConsecutive := policyValue leavePolicy maxConsecutiveDays 14 in
  let v2 := if maxConsecutive <? requestDays
            then [("Exceeds maximum " ++ Z_to_string maxConsecutive ++ " consecutive days")%string]
            else [] in
  let yearStart := mkDate (currentYear now) 0 1 in
  let yearLeave := List.filter (fun l =>
        bool_decide (lr_status l = Approved) && (yearStart <=? lr_startDate l)) historicalLeave in
  let yearDaysUsed := fold_left (fun sum leave => sum + leaveDays leave) yearLeave 0 in
  let limit := policyValue leavePolicy annualLimit 21 in
  let v3 := if limit <? yearDaysUsed + requestDays
            then [("Would exceed annual limit of " ++ Z_to_string limit ++ " days")%string]
            else [] in
  let violations := v1 ++ v2 ++ v3 in
  Analyzer.mkPolicyCompliance (bool_decide (violations = [])) violations.

Section Alternatives.
Variable residentsColl : list Resident.
Variable leaveColl : list LeaveRequest.
Variable request : LeaveRequest.
Variable currentCoverage : Analyzer.CoverageAnalysis.

(** The [for (let i = 0; i < 28; i++)] loop of [findAlternativeDates], from
    iteration [i] on, with the alternatives found so far. *)
Fixpoint alternativesLoop (searchStart duration : Z) (is : list Z) (alternatives : list Z)
    : list Z :=
  match is with
  | [] => alternatives
  | i :: rest =>
    let testStart := searchStart + i in
    let testEnd := testStart + duration - 1 in
    if (testStart <=? lr_endDate request) && (lr_startDate request <=? testEnd)
    then alternativesLoop searchStart duration rest alternatives
    else
      let testRequest := {| lr_id := lr_id request; lr_residentId := lr_residentId request;
                            lr_type := lr_type request; lr_status := lr_status request;
                            lr_startDate := testStart; lr_endDate := testEnd |} in
      let testCoverage := Analyzer.analyzeCoverageImpact residentsColl leaveColl testRequest in
      let alternatives' :=
        if bool_decide (Analyzer.riskLevel testCoverage = Analyzer.Low) &&
           Qltb (Analyzer.coverageRatio currentCoverage) (Analyzer.coverageRatio testCoverage)
        then alternatives ++ [testStart] else alternatives in
      if (3 <=? length alternatives')%nat then alternatives'
      else alternativesLoop searchStart duration rest alternatives'
  end.

Definition findAlternativeDates : list Z :=
  let duration := leaveDays request in
  let searchStart := lr_startDate request - 14 in
  alternativesLoop searchStart duration (range_incl 0 27) [].
End Alternatives.

End LeaveAnalyzer.

(* ================================================================= *)
(** ** Concrete inputs *)

Module Scenarios.
  Local Open Scope string_scope.

Definition core (rid : string) : RotationAssignment :=
    mkRotationAssignment rid "Neurosurgery - Core" CORE_NSX None None None.

Definition resA : Resident := mkResident "a" "Dr. A" 3 "Neurosurgery" true false false.
Definition resB : Resident := mkResident "b" "Dr. B" 3 "Neurosurgery" true false false.

  (** Blocks 8 and 9 of the 2024-2025 academic year, both residents on core service. *)
Definition ay2425 : AcademicYear :=
    mkAcademicYear "2024-2025"
      [mkRotationBlock 8 (mkDate 2025 0 20) (mkDate 2025 1 16) [core "a"; core "b"];
       mkRotationBlock 9 (mkDate 2025 1 17) (mkDate 2025 2 16) [core "a"; core "b"]].

Definition monthlyCfg (wd : option (list string)) : MonthlySchedulerConfig :=
    mkMonthlySchedulerConfig [] ∅ 2 wd.

Definition cfgDefault : AppConfiguration := mkAppConfiguration (monthlyCfg None) None None.
Definition cfgWeekends : AppConfiguration :=
    mkAppConfiguration (monthlyCfg (Some ["Friday"; "Saturday"; "Sunday"])) None None.

Definition leaveOn (d : Z) : LeaveRequest := mkLeaveRequest "l1" "a" "Personal" Approved d d.

  (** February 2025, resident "a" alone, on approved leave on Monday Feb 3. *)
Definition febLeaveMonday : Scheduler :=
    mkScheduler [resA] cfgDefault ay2425 [leaveOn (mkDate 2025 1 3)] 1 2025 [].

  (** February 2025, resident "a" alone, on approved leave on Sunday Feb 2. *)
Definition febLeaveSunday : Scheduler :=
    mkScheduler [resA] cfgDefault ay2425 [leaveOn (mkDate 2025 1 2)] 1 2025 [].

  (** February 2025, two interchangeable residents, in both orders. *)
Definition febAB : Scheduler := mkScheduler [resA; resB] cfgWeekends ay2425 [] 1 2025 [].
Definition febBA : Scheduler := mkScheduler [resB; resA] cfgWeekends ay2425 [] 1 2025 [].

  (** Configuration of scenario 2 of the specification: PARO cap 7, PGY-2 ratio 1:10. *)
Definition cfgRatios : AppConfiguration :=
    mkAppConfiguration (mkMonthlySchedulerConfig [mkParoRule 1 31 7] {[2 := 10]} 2 None) None None.
Definition pgy2 : Resident := mkResident "p2" "Dr. P" 2 "Neurosurgery" true false false.

  (** Ten on-service neurosurgery residents. *)
Definition tenResidents : list Resident :=
    map (fun k => mkResident (Z_to_string k) "Dr." 3 "Neurosurgery" true false false)
        (range_incl 1 10).

Definition leaveReq (s e : Z) : LeaveRequest :=
    mkLeaveRequest "req" "1" "Personal" PendingAnalysis s e.

  (** Saturday 2025-09-06 to Saturday 2025-09-20: five weekend days. *)
Definition septRequest : LeaveRequest := leaveReq (mkDate 2025 8 6) (mkDate 2025 8 20).
  (** A placeholder for [nth]. *)
Definition noAssignment : CallAssignment :=
    mkCallAssignment "" "" "" 0 NoCall 0 false None "" Scheduled.

  (** Three residents for the yearly engine; "c" is a PGY-5 senior, who
      receives the Christmas holiday block. *)
Definition resC : Resident := mkResident "c" "Dr. C" 5 "Neurosurgery" true false false.
Definition yearlyResidents : list Resident := [resA; resB; resC].
Definition emptyYear : AcademicYear := mkAcademicYear "" [].
Definition year2526 : AcademicYear :=
    default emptyYear (Yearly.generateYearlySchedule yearlyResidents cfgDefault "2025-2026").

  (** February 2025, resident "a" and a call-exempt chief resident "b". *)
Definition chiefB : Resident := mkResident "b" "Dr. B" 5 "Neurosurgery" true true true.
Definition febChief : Scheduler := mkScheduler [resA; chiefB] cfgWeekends ay2425 [] 1 2025 [].

  (** February 2025 with a Saturday-Sunday weekend definition. *)
Definition cfgSatSun : AppConfiguration :=
    mkAppConfiguration (monthlyCfg (Some ["Saturday"; "Sunday"])) None None.
Definition febSatSun : Scheduler := mkScheduler [resA; resB] cfgSatSun ay2425 [] 1 2025 [].
  (** A mandatory plastics rotation in block 3 for PGY-3 residents and an
      exam block 10 for PGY-5 residents. *)
Definition cfgMandatory : AppConfiguration :=
    mkAppConfiguration (monthlyCfg None)
      (Some (mkYearlySchedulerConfig (Some [mkRotationRule 3 [3] "Plastics"])
                                     (Some [mkRotationRule 10 [5] "Board exam"]))) None.
Definition yearMandatory : AcademicYear :=
    default emptyYear (Yearly.generateYearlySchedule yearlyResidents cfgMandatory "2025-2026").
End Scenarios.
Import Scenarios.

(* ================================================================= *)
(** ** Auxiliary definitions of the proofs *)

(** The running best of a left-to-right scan: a later candidate replaces
    the current one only with a strictly greater score. *)
Definition pickMax {A} (f : A -> Q) (best : option A) (x : A) : option A :=
  match best with
  | None => Some x
  | Some b => if Qltb (f b) (f x) then Some x else Some b
  end.

(** Every emitted assignment that is not a PostCall falls on a day its
    resident is not on approved leave. *)
Definition callsOffLeave (S : Scheduler) (out : list CallAssignment) : Prop :=
  forall a, In a out -> ca_type a <> PostCall ->
            isOnLeave S (ca_residentId a) (ca_date a) = false.

(** Rotation cells carrying no team tag. *)
Definition untaggedRow (row : list (option RotationAssignment)) : Prop :=
  Forall (fun c => match c with Some ra => team ra = None | None => True end) row.

(** Number of CORE_NSX rotations of a block tagged with team [t]. *)
Definition teamCount (t : Team) (l : list RotationAssignment) : Z :=
  Z.of_nat (length (List.filter (fun a =>
    bool_decide (rotationType a = CORE_NSX) && bool_decide (team a = Some t)) l)).

(** The non-PostCall assignments of resident [rid], as
    [initialStatsOf] selects them. *)
Definition callsOf (rid : string) (l : list CallAssignment) : list CallAssignment :=
  List.filter (fun a => bool_decide (ca_residentId a = rid) &&
                        negb (bool_decide (ca_type a = PostCall))) l.

(** The non-PostCall assignments of a list. *)
Definition nonPostCalls (l : list CallAssignment) : list CallAssignment :=
  List.filter (fun a => negb (bool_decide (ca_type a = PostCall))) l.

(** The PostCall marker [createPostCallAssignments] builds for a call. *)
Definition postCallOf (a : CallAssignment) : CallAssignment :=
  {| ca_id := ("postcall-" ++ ca_id a)%string; ca_residentId := ca_residentId a;
     residentName := residentName a; ca_date := ca_date a + 1; ca_type := PostCall;
     points := 0; ca_isHoliday := ca_isHoliday a; ca_team := ca_team a;
     createdBy := createdBy a; ca_status := PostCallStatus |}.

(* ================================================================= *)
(** ** Lemmas *)

Lemma find_first_find {A} (p : A -> bool) (l : list A) : find_first p l = List.find p l.
Proof. induction l as [|x l IH]; simpl; [done|]. by rewrite IH. Qed.

(* ================================================================= *)
(** ** Claims *)

(** C3: [getMaxCalls] returns 0 for a call-exempt chief; otherwise, with
    paroCap the calls of the first PARO rule whose day range contains W
    (8 if none), it returns paroCap when the PGY level has no call ratio,
    and otherwise min(paroCap, floor(W / ratio)) in Normal mode and
    paroCap in Shortage mode (for configured ratios, which are non-zero). *)
Theorem getMaxCalls_spec (config : AppConfiguration) (r : Resident) (W : Z) (m : StaffingLevel)
    (Hratio : forall ratio, callRatios (monthlySchedulerConfig config) !! pgyLevel r = Some ratio ->
                            ratio <> 0) :
  getMaxCalls config r W m = maxCalls_spec config r W m.
Proof.
  unfold getMaxCalls, maxCalls_spec. rewrite find_first_find.
  destruct (isChief r && callExempt r); [done|].
  destruct (callRatios (monthlySchedulerConfig config) !! pgyLevel r) as [ratio|] eqn:E; [|done].
  destruct ratio as [|p|p]; [by exfalso; apply (Hratio 0)|done|done].
Qed.

Lemma getMaxCalls_spec_witness :
  getMaxCalls cfgRatios pgy2 28 Normal = 2 /\ getMaxCalls cfgRatios pgy2 28 Normal = maxCalls_spec cfgRatios pgy2 28 Normal.
Proof.
  split; [vm_compute; reflexivity|].
  apply getMaxCalls_spec. intros ratio H. vm_compute in H. injection H as <-. discriminate.
Defined.

(** C8: for every resident and working-days count, the Shortage-mode cap
    is at least the Normal-mode cap. *)
Theorem getMaxCalls_shortage_ge_normal (config : AppConfiguration) (r : Resident) (W : Z) :
  getMaxCalls config r W Normal <= getMaxCalls config r W Shortage.
Proof.
  unfold getMaxCalls.
  destruct (isChief r && callExempt r); [lia|].
  destruct (callRatios (monthlySchedulerConfig config) !! pgyLevel r) as [[|p|p]|]; lia.
Qed.

(** C9: the PARO check fails exactly when the number of recorded calls in
    the window [d-28, d) plus one exceeds 7, and a resident eligible for a
    call on d has at most 6 such calls. *)
Theorem paro_window_rule (S : Scheduler) (st : Stats) (r : Resident) (d : Z) (m : StaffingLevel) :
  (checkPAROCompliance st (id r) d = false <-> recentCalls st (id r) d + 1 > 7) /\
  (isEligibleForCall S st r d m = true -> recentCalls st (id r) d + 1 <= 7).
Proof.
  assert (Hc : checkPAROCompliance st (id r) d = (recentCalls st (id r) d + 1 <=? 7)) by reflexivity.
  split.
  - rewrite Hc. rewrite Z.leb_gt. lia.
  - unfold isEligibleForCall.
    destruct (getCurrentBlock S d) as [b|]; [|discriminate].
    destruct (findRotation b (id r)) as [rot|]; [|discriminate].
    repeat match goal with
           | |- (if ?c then _ else _) = true -> _ => destruct c; [discriminate|]
           end.
    rewrite Hc. intros H. apply Z.leb_le in H. exact H.
Qed.

Lemma paro_window_rule_witness :
  isEligibleForCall febLeaveMonday (initializeCallStats febLeaveMonday) resA (mkDate 2025 1 1) Normal = true /\
  recentCalls (initializeCallStats febLeaveMonday) (id resA) (mkDate 2025 1 1) + 1 <= 7.
Proof.
  assert (H : isEligibleForCall febLeaveMonday (initializeCallStats febLeaveMonday) resA
                (mkDate 2025 1 1) Normal = true) by (vm_compute; reflexivity).
  split; [exact H|].
  exact (proj2 (paro_window_rule febLeaveMonday _ resA _ Normal) H).
Defined.

(** C5 (counterexample): a request whose analysis recommends Flagged for
    Review (a single concern: medium coverage risk) is written back with
    status Pending Approval, not Flagged for Review. *)
Lemma analyzer_flagged_counterexample :
  let coverage := Analyzer.mkCoverageAnalysis Analyzer.Medium 7 10 2 (7 # 10) [] in
  let rec := Analyzer.generateRecommendation (Analyzer.mkFairnessAnalysis 80) coverage []
               (Analyzer.mkPolicyCompliance true []) in
  rec = Analyzer.FlaggedForReviewRec /\
  option_map lr_status (Analyzer.analyzeLeaveRequest septRequest (Analyzer.AnalysisOk rec))
    = Some PendingApproval /\
  option_map lr_status (Analyzer.analyzeLeaveRequest septRequest (Analyzer.AnalysisOk rec))
    <> Some FlaggedForReview.
Proof. vm_compute. split; [reflexivity|]. split; [reflexivity|]. discriminate. Qed.

(** C5 (amended): for a request in Pending Analysis whose analysis
    completes, the written status is Denied when the recommendation is Deny
    and Pending Approval otherwise (Approve and Flagged for Review alike). *)
Theorem analyzer_status_after_analysis (req : LeaveRequest) (rec : Analyzer.Recommendation)
    (Hpending : lr_status req = PendingAnalysis) :
  option_map lr_status (Analyzer.analyzeLeaveRequest req (Analyzer.AnalysisOk rec)) =
  Some (match rec with Analyzer.Deny => Denied | _ => PendingApproval end).
Proof.
  unfold Analyzer.analyzeLeaveRequest. rewrite Hpending.
  rewrite (bool_decide_eq_true_2 (PendingAnalysis = PendingAnalysis)) by reflexivity.
  simpl. by destruct rec.
Qed.

Lemma analyzer_status_after_analysis_witness :
  lr_status septRequest = PendingAnalysis /\
  option_map lr_status (Analyzer.analyzeLeaveRequest septRequest
                          (Analyzer.AnalysisOk Analyzer.FlaggedForReviewRec)) = Some PendingApproval.
Proof.
  split; [reflexivity|].
  exact (analyzer_status_after_analysis septRequest Analyzer.FlaggedForReviewRec eq_refl).
Defined.

(** C6 (failing input): ten on-service residents, no other leave, and a
    request from Saturday 2025-09-06 to Saturday 2025-09-20.  The ratio is
    9/10 (base Low) and the range holds five weekend days, yet the risk
    level computed is Medium, not High. *)
Theorem coverage_five_weekend_days_not_high :
  let c := Analyzer.analyzeCoverageImpact tenResidents [] septRequest in
  length (Analyzer.criticalDates c) = 5%nat /\
  Analyzer.coverageRatio c = (9 # 10)%Q /\
  Analyzer.riskLevel c = Analyzer.Medium.
Proof. vm_compute. repeat split. Qed.

(** C10: the duplicated backend [generateSchedule] never emits an
    assignment: it yields the empty list on every run that completes, and
    every run completes when the configuration defines its weekend days;
    on such an input the full scheduler emits assignments. *)
Theorem backend_generateSchedule_empty :
  (forall (S : Scheduler) (lvl : StaffingLevel),
     Backend.generateSchedule S lvl = None \/ Backend.generateSchedule S lvl = Some []) /\
  (forall (S : Scheduler) (lvl : StaffingLevel) (wd : list string),
     weekendDefinition (monthlySchedulerConfig (config S)) = Some wd ->
     Backend.generateSchedule S lvl = Some []) /\
  Backend.generateSchedule febAB Normal = Some [] /\
  generateSchedule febAB Normal <> [].
Proof.
  assert (Hfold : forall (A B : Type) (f : B -> A -> option B) l b,
             (forall b x, f b x <> None) -> Yearly.foldM f l b <> None).
  { intros A B f l. induction l as [|x l IH]; intros b Hf; simpl; [discriminate|].
    destruct (f b x) as [b'|] eqn:E; [by apply IH|]. by exfalso; apply (Hf b x). }
  assert (Hall : forall (S : Scheduler) (lvl : StaffingLevel) (wd : list string),
     weekendDefinition (monthlySchedulerConfig (config S)) = Some wd ->
     Backend.generateSchedule S lvl = Some []).
  { intros S lvl wd Hwd. unfold Backend.generateSchedule.
    match goal with |- match ?e with _ => _ end = _ => destruct e as [u|] eqn:E end;
      [reflexivity|].
    exfalso. revert E. apply Hfold. intros [] day.
    unfold Backend.filterAvailable.
    match goal with |- match ?e with _ => _ end <> None => destruct e eqn:E2 end;
      [discriminate|].
    exfalso. revert E2. refine (Hfold _ _ _ _ _ _). intros acc r.
    unfold Backend.isAvailable. rewrite Hwd.
    repeat match goal with
           | |- match (match ?e with _ => _ end) with _ => _ end <> None => destruct e
           | |- match (if ?c then _ else _) with _ => _ end <> None => destruct c
           | |- match ?e with _ => _ end <> None => destruct e
           end; discriminate. }
  split; [|split; [exact Hall|split]].
  - intros S lvl. unfold Backend.generateSchedule.
    match goal with |- context [match ?e with _ => _ end] => destruct e end; auto.
  - by apply (Hall febAB Normal ["Friday"; "Saturday"; "Sunday"]%string).
  - vm_compute. discriminate.
Qed.

(** C1 (failing input): February 2025, one resident on core service, on
    approved leave on Monday Feb 3.  Weekend days are scheduled first (Sat
    Feb 1, Fri Feb 7); the Night days follow in calendar order, and the
    post-call check only compares with the last call processed (Tue Feb 4),
    so the resident also gets the Night call of Thu Feb 6, the day before
    the Weekend call of Fri Feb 7. *)
Theorem postcall_rest_violated :
  exists a1 a2,
    In a1 (generateSchedule febLeaveMonday Normal) /\
    In a2 (generateSchedule febLeaveMonday Normal) /\
    ca_residentId a1 = ca_residentId a2 /\
    ca_type a1 = Night /\ ca_type a2 = Weekend /\
    ca_date a1 = mkDate 2025 1 6 /\ ca_date a2 = ca_date a1 + 1.
Proof.
  set (out := generateSchedule febLeaveMonday Normal).
  assert (Hlen : (6 < length out)%nat) by (vm_compute; lia).
  exists (nth 6 out noAssignment), (nth 2 out noAssignment).
  split; [apply nth_In; lia|]. split; [apply nth_In; lia|].
  subst out. vm_compute. repeat split.
Qed.

(** C2 (counterexample): February 2025, one resident on approved leave on
    Sunday Feb 2.  The Weekend call of Saturday Feb 1 is followed by a
    PostCall assignment of the same resident on Feb 2, inside the leave. *)
Lemma postcall_on_leave_counterexample :
  exists a l,
    In a (generateSchedule febLeaveSunday Normal) /\
    In l (approvedLeave febLeaveSunday) /\
    lr_status l = Approved /\ lr_residentId l = ca_residentId a /\
    lr_startDate l <= ca_date a <= lr_endDate l /\
    ca_type a = PostCall.
Proof.
  set (out := generateSchedule febLeaveSunday Normal).
  assert (Hlen : (1 < length out)%nat) by (vm_compute; lia).
  exists (nth 1 out noAssignment), (leaveOn (mkDate 2025 1 2)).
  split; [apply nth_In; lia|]. split; [left; reflexivity|].
  subst out. vm_compute. repeat split; discriminate.
Qed.

(** C4 (counterexample): two residents with equal scores and equal call
    counts; listed as [b; a], the selection picks "b" although "a" has the
    smaller id, and the schedules generated from the two orderings of the
    same residents differ. *)
Lemma tie_break_counterexample :
  let st := initializeCallStats febBA in
  let d := mkDate 2025 1 1 in
  scoreResident febBA st resA d Weekend = scoreResident febBA st resB d Weekend /\
  totalCalls (getStats st (id resA)) = totalCalls (getStats st (id resB)) /\
  String.compare (id resA) (id resB) = Lt /\
  selectBestResident febBA st d Weekend Normal [] = Some resB /\
  Permutation (residents febAB) (residents febBA) /\
  generateSchedule febAB Normal <> generateSchedule febBA Normal.
Proof.
  vm_compute. split; [reflexivity|]. split; [reflexivity|]. split; [reflexivity|].
  split; [reflexivity|]. split; [constructor|]. discriminate.
Qed.

(* ================================================================= *)
(** ** Selection: the sorted candidates and their head *)

Section SortHead.
  Context {A : Type} (f : A -> Q).

Let after (y x : A) : bool := Qltb (f y) (f x).

Lemma Qltb_lt (a b : Q) : Qltb a b = true -> (a < b)%Q.
  Proof.
    unfold Qltb. intros H. apply Qnot_le_lt. intros Hle.
    apply Qle_bool_iff in Hle. rewrite Hle in H. discriminate.
  Qed.

Lemma Qltb_false_le (a b : Q) : Qltb a b = false -> (b <= a)%Q.
  Proof. unfold Qltb. intros H. apply Qle_bool_iff. by destruct (Qle_bool b a). Qed.

Lemma insert_by_In (x y : A) (l : list A) : In x (insert_by after y l) <-> y = x \/ In x l.
  Proof.
    induction l as [|z l IH]; simpl; [tauto|].
    destruct (after z y); simpl; [tauto|]. rewrite IH. tauto.
  Qed.

Lemma fold_insert_In (x : A) (l acc : list A) :
    In x (fold_left (fun acc y => insert_by after y acc) l acc) <-> In x l \/ In x acc.
  Proof.
    revert acc. induction l as [|y l IH]; intros acc; simpl; [tauto|].
    rewrite IH, insert_by_In. tauto.
  Qed.

Lemma head_insert_by (x : A) (l : list A) :
    hd_error (insert_by after x l) = pickMax f (hd_error l) x.
  Proof. destruct l as [|y l]; simpl; [done|]. unfold after. by destruct (Qltb (f y) (f x)). Qed.

Lemma head_fold_insert (l acc : list A) :
    hd_error (fold_left (fun acc y => insert_by after y acc) l acc) =
    fold_left (pickMax f) l (hd_error acc).
  Proof.
    revert acc. induction l as [|y l IH]; intros acc; simpl; [done|].
    by rewrite IH, head_insert_by.
  Qed.

Lemma fold_pickMax_some (l : list A) (b : A) : fold_left (pickMax f) l (Some b) <> None.
  Proof.
    revert b. induction l as [|y l IH]; intros b; simpl; [discriminate|].
    destruct (Qltb (f b) (f y)); apply IH.
  Qed.

Lemma fold_pickMax_decomp (l : list A) (best : A) :
    fold_left (pickMax f) l None = Some best ->
    exists pre post, l = pre ++ best :: post /\
      Forall (fun p => (f p < f best)%Q) pre /\ Forall (fun p => (f p <= f best)%Q) post.
  Proof.
    revert best. induction l as [|x l IH] using rev_ind; intros best H; [discriminate|].
    rewrite fold_left_app in H. simpl in H.
    destruct (fold_left (pickMax f) l None) as [b|] eqn:Hb.
    - destruct (IH b eq_refl) as (pre & post & -> & Hpre & Hpost). simpl in H.
      destruct (Qltb (f b) (f x)) eqn:Hlt; injection H as <-.
      + apply Qltb_lt in Hlt. exists (pre ++ b :: post), []. split; [done|]. split; [|constructor].
        apply Forall_app. split.
        * eapply Forall_impl; [exact Hpre|]. intros p Hp. exact (Qlt_trans _ _ _ Hp Hlt).
        * constructor; [exact Hlt|]. eapply Forall_impl; [exact Hpost|].
          intros p Hp. exact (Qle_lt_trans _ _ _ Hp Hlt).
      + apply Qltb_false_le in Hlt. exists pre, (post ++ [x]).
        split; [by rewrite <- app_assoc|]. split; [done|].
        apply Forall_app. split; [done|]. by constructor.
    - destruct l as [|y l]; [|by exfalso; apply (fold_pickMax_some l y)].
      simpl in H. injection H as <-. exists [], []. simpl. auto.
  Qed.
End SortHead.

Lemma sortScored_In (p : Resident * Q) (l : list (Resident * Q)) :
  In p (sortScored l) -> In p l.
Proof. unfold sortScored, sort_by. intros H. apply fold_insert_In in H. simpl in H. tauto. Qed.

Lemma sortScored_head (l : list (Resident * Q)) :
  hd_error (sortScored l) = fold_left (pickMax snd) l None.
Proof. unfold sortScored, sort_by. apply (head_fold_insert snd l []). Qed.

Lemma selectBestResident_eligible (S : Scheduler) (st : Stats) (d : Z) (ct : CallType)
    (lvl : StaffingLevel) (ex : list string) (best : Resident) :
  selectBestResident S st d ct lvl ex = Some best ->
  In best (eligibleResidents S st d lvl ex).
Proof.
  unfold selectBestResident.
  destruct (eligibleResidents S st d lvl ex) as [|e0 es] eqn:HE; [discriminate|].
  destruct (sortScored _) as [|p ps] eqn:Hs; [discriminate|].
  intros H. injection H as <-.
  assert (Hin : In p (sortScored (map (fun r => (r, scoreResident S st r d ct)) (e0 :: es))))
    by (rewrite Hs; left; done).
  apply sortScored_In, in_map_iff in Hin as (r & <- & Hr). exact Hr.
Qed.

Lemma eligibleResidents_spec (S : Scheduler) (st : Stats) (d : Z) (lvl : StaffingLevel)
    (ex : list string) (r : Resident) :
  In r (eligibleResidents S st d lvl ex) -> isEligibleForCall S st r d lvl = true.
Proof.
  unfold eligibleResidents. rewrite filter_In. intros [_ H].
  apply andb_true_iff in H. tauto.
Qed.

Lemma isEligibleForCall_not_on_leave (S : Scheduler) (st : Stats) (r : Resident) (d : Z)
    (lvl : StaffingLevel) :
  isEligibleForCall S st r d lvl = true -> isOnLeave S (id r) d = false.
Proof.
  unfold isEligibleForCall.
  destruct (getCurrentBlock S d) as [b|]; [|discriminate].
  destruct (findRotation b (id r)) as [rot|]; [|discriminate].
  destruct (negb _); [discriminate|].
  by destruct (isOnLeave S (id r) d).
Qed.

(* ================================================================= *)
(** ** The generation loop: emitted calls avoid approved leave *)

Section LeaveInvariant.
Variable S : Scheduler.
Variable lvl : StaffingLevel.

Lemma createPostCallAssignments_type (x : CallAssignment) (ct : CallType) (a : CallAssignment) :
    In a (createPostCallAssignments S x ct) -> ca_type a = PostCall.
  Proof.
    unfold createPostCallAssignments.
    destruct (negb (requiresPostCall ct)); [simpl; tauto|].
    destruct (negb _); simpl; [tauto|]. intros [<-|[]]. reflexivity.
  Qed.

Lemma fillPosition_inv (dr : DayRequirements) (acc : Stats * list Resident * list CallAssignment) :
    callsOffLeave S (snd acc) -> callsOffLeave S (snd (fillPosition S lvl dr acc)).
  Proof.
    destruct acc as [[st sel] out]. simpl. intros Hinv.
    destruct (selectBestResident S st (dr_date dr) (dr_callType dr) lvl (map id sel))
      as [best|] eqn:Hsel; [|exact Hinv].
    simpl. intros a Ha Hty. apply in_app_or in Ha as [Ha|Ha]; [by apply Hinv|].
    simpl in Ha. destruct Ha as [<-|Ha].
    - simpl. apply selectBestResident_eligible, eligibleResidents_spec in Hsel.
      exact (isEligibleForCall_not_on_leave _ _ _ _ _ Hsel).
    - by apply createPostCallAssignments_type in Ha.
  Qed.

Lemma processDay_inv (acc : Stats * list CallAssignment) (dr : DayRequirements) :
    callsOffLeave S (snd acc) -> callsOffLeave S (snd (processDay S lvl acc dr)).
  Proof.
    destruct acc as [st out]. unfold processDay. intros Hinv.
    destruct (bool_decide (dr_callType dr = NoCall)); [exact Hinv|].
    assert (Hfold : forall (l : list nat) a0, callsOffLeave S (snd a0) ->
              callsOffLeave S (snd (fold_left (fun a _ => fillPosition S lvl dr a) l a0))).
    { induction l as [|k l IH]; intros a0 H0; simpl; [exact H0|].
      apply IH. by apply fillPosition_inv. }
    specialize (Hfold (seq 0 (Z.to_nat (getRequiredResidentCount (dr_callType dr)))) (st, [], out) Hinv).
    destruct (fold_left _ _ _) as [[st' sel'] out']. exact Hfold.
  Qed.

Lemma generateSchedule_calls_off_leave : callsOffLeave S (generateSchedule S lvl).
  Proof.
    unfold generateSchedule.
    assert (Hfold : forall (l : list DayRequirements) a0, callsOffLeave S (snd a0) ->
              callsOffLeave S (snd (fold_left (processDay S lvl) l a0))).
    { induction l as [|dr l IH]; intros a0 H0; simpl; [exact H0|].
      apply IH. by apply processDay_inv. }
    apply Hfold. intros a [].
  Qed.
End LeaveInvariant.

(** C2 (amended): no call (Night, Weekend or Holiday) is emitted for a
    resident on a day inside one of their approved leaves; only the
    PostCall marker of the day after a call may fall on a leave day. *)
Theorem no_call_during_approved_leave (S : Scheduler) (lvl : StaffingLevel)
    (a : CallAssignment) (l : LeaveRequest)
    (Ha : In a (generateSchedule S lvl)) (Hty : ca_type a <> PostCall)
    (Hl : In l (approvedLeave S)) (Happ : lr_status l = Approved)
    (Hres : lr_residentId l = ca_residentId a) :
  ~ (lr_startDate l <= ca_date a <= lr_endDate l).
Proof.
  pose proof (generateSchedule_calls_off_leave S lvl a Ha Hty) as Hoff.
  intros [Hs He]. unfold isOnLeave, js_some in Hoff.
  assert (Hex : existsb (fun leave =>
      bool_decide (lr_residentId leave = ca_residentId a) &&
      bool_decide (lr_status leave = Approved) &&
      (lr_startDate leave <=? ca_date a) && (ca_date a <=? lr_endDate leave))
      (approvedLeave S) = true).
  { apply existsb_exists. exists l. split; [exact Hl|].
    rewrite Hres, Happ, !bool_decide_eq_true_2 by reflexivity.
    apply andb_true_iff; split; [apply andb_true_iff; split|]; [done| |]; by apply Z.leb_le. }
  rewrite Hoff in Hex. discriminate.
Qed.

Lemma no_call_during_approved_leave_witness :
  ca_type (nth 0 (generateSchedule febLeaveSunday Normal) noAssignment) = Weekend /\
  ~ (lr_startDate (leaveOn (mkDate 2025 1 2))
       <= ca_date (nth 0 (generateSchedule febLeaveSunday Normal) noAssignment)
       <= lr_endDate (leaveOn (mkDate 2025 1 2))).
Proof.
  split; [vm_compute; reflexivity|].
  apply (no_call_during_approved_leave febLeaveSunday Normal
           (nth 0 (generateSchedule febLeaveSunday Normal) noAssignment) (leaveOn (mkDate 2025 1 2))).
  - apply nth_In. vm_compute. lia.
  - vm_compute. discriminate.
  - left. reflexivity.
  - reflexivity.
  - vm_compute. reflexivity.
Defined.

(** C4 (amended): the selected resident is eligible and has a maximal
    score; among equal scores the resident listed first in the residents
    list wins: every eligible resident listed before it scores strictly
    less, every one listed after it scores no more. *)
Theorem selectBestResident_first_max (S : Scheduler) (st : Stats) (d : Z) (ct : CallType)
    (lvl : StaffingLevel) (ex : list string) (best : Resident)
    (Hsel : selectBestResident S st d ct lvl ex = Some best) :
  exists pre post,
    eligibleResidents S st d lvl ex = pre ++ best :: post /\
    Forall (fun r => (scoreResident S st r d ct < scoreResident S st best d ct)%Q) pre /\
    Forall (fun r => (scoreResident S st r d ct <= scoreResident S st best d ct)%Q) post.
Proof.
  revert Hsel. unfold selectBestResident.
  destruct (eligibleResidents S st d lvl ex) as [|e0 es] eqn:HE; [discriminate|].
  set (g := fun r => (r, scoreResident S st r d ct)).
  destruct (sortScored (map g (e0 :: es))) as [|p ps] eqn:Hs; [discriminate|].
  intros H. injection H as Hp.
  pose proof (sortScored_head (map g (e0 :: es))) as Hh. rewrite Hs in Hh.
  change (hd_error (p :: ps)) with (Some p) in Hh.
  symmetry in Hh. apply fold_pickMax_decomp in Hh as (preP & postP & Hsplit & Hpre & Hpost).
  apply map_eq_app in Hsplit as (E1 & E2 & HE12 & HE1 & HE2).
  apply map_eq_cons in HE2 as (r & E3 & -> & Hr & HE3).
  assert (Hrb : r = best) by (rewrite <- Hp, <- Hr; reflexivity). subst r.
  exists E1, E3. split; [exact HE12|].
  subst preP postP.
  assert (Hg : forall r, snd (g r) = scoreResident S st r d ct) by reflexivity.
  split; apply List.Forall_forall; intros x Hx.
  - pose proof (proj1 (List.Forall_forall _ _) Hpre (g x) (in_map g E1 x Hx)) as Hq.
    rewrite <- Hr in Hq. cbv beta in Hq. rewrite !Hg in Hq. exact Hq.
  - pose proof (proj1 (List.Forall_forall _ _) Hpost (g x) (in_map g E3 x Hx)) as Hq.
    rewrite <- Hr in Hq. cbv beta in Hq. rewrite !Hg in Hq. exact Hq.
Qed.

Lemma selectBestResident_first_max_witness :
  selectBestResident febBA (initializeCallStats febBA) (mkDate 2025 1 1) Weekend Normal [] = Some resB /\
  exists pre post,
    eligibleResidents febBA (initializeCallStats febBA) (mkDate 2025 1 1) Normal [] = pre ++ resB :: post /\
    Forall (fun r => (scoreResident febBA (initializeCallStats febBA) r (mkDate 2025 1 1) Weekend
                      < scoreResident febBA (initializeCallStats febBA) resB (mkDate 2025 1 1) Weekend)%Q) pre /\
    Forall (fun r => (scoreResident febBA (initializeCallStats febBA) r (mkDate 2025 1 1) Weekend
                      <= scoreResident febBA (initializeCallStats febBA) resB (mkDate 2025 1 1) Weekend)%Q) post.
Proof.
  assert (H : selectBestResident febBA (initializeCallStats febBA) (mkDate 2025 1 1) Weekend Normal []
              = Some resB) by (vm_compute; reflexivity).
  split; [exact H|].
  exact (selectBestResident_first_max febBA (initializeCallStats febBA) (mkDate 2025 1 1) Weekend
           Normal [] resB H).
Defined.

(* ================================================================= *)
(** ** Yearly engine: team balance *)

Section YearlyTeams.
Variable residents : list Resident.

Lemma foldM_inv {A B} (P : B -> Prop) (f : B -> A -> option B) (l : list A) (b b' : B) :
    (forall b0 x b1, P b0 -> f b0 x = Some b1 -> P b1) ->
    P b -> Yearly.foldM f l b = Some b' -> P b'.
  Proof.
    intros Hf. revert b. induction l as [|x l IH]; intros b Hb; simpl.
    - by intros [= <-].
    - destruct (f b x) as [b1|] eqn:E; [|discriminate]. apply IH. exact (Hf _ _ _ Hb E).
  Qed.

Lemma assign_untagged (g g' : Yearly.Grid) (block : Z) (resIndex : nat) (rn : string)
      (rt : RotationType) (hol : option HolidayType) (req : option bool) :
    Forall untaggedRow g -> Yearly.assign residents g block resIndex rn rt hol req = Some g' ->
    Forall untaggedRow g'.
  Proof.
    unfold Yearly.assign. intros Hg.
    destruct (Yearly.isSlotEmpty g block resIndex) as [[|]|]; [|by intros [= <-]|discriminate].
    intros [= <-]. apply Forall_insert; [exact Hg|]. unfold untaggedRow.
    apply Forall_insert; [|reflexivity].
    destruct (g !! Z.to_nat block) as [row|] eqn:E; simpl; [|constructor].
    exact (Forall_lookup_1 _ _ _ _ Hg E).
  Qed.

  (** Phases 1 to 4 write the grid only through [assign]: any property of
      the grid that [assign] keeps, they keep. *)
Lemma phases_1_to_4_preserve (P : Yearly.Grid -> Prop) (config : AppConfiguration)
      (g0 g1 g2 g3 g4 : Yearly.Grid) :
    (forall g g' block resIndex rn rt hol req, P g ->
       Yearly.assign residents g block resIndex rn rt hol req = Some g' -> P g') ->
    P g0 ->
    Yearly.phase1_AssignMandatoryRotations residents config g0 = Some g1 ->
    Yearly.phase2_AssignExamBlocks residents config g1 = Some g2 ->
    Yearly.phase3_AssignHolidayBlocks residents g2 = Some g3 ->
    Yearly.phase4_AssignCoreNeurosurgeryRotations residents g3 = Some g4 ->
    P g4.
  Proof.
    intros Hassign.
    assert (Hrules : forall rules rt g g', P g ->
              Yearly.assignRuleRotations residents rules rt g = Some g' -> P g').
    { intros rules rt g g' Hg. apply foldM_inv; [|exact Hg]. intros h rule h' Hh.
      apply foldM_inv; [|exact Hh]. intros k [res idx] k' Hk.
      destruct (bool_decide _); [by apply Hassign|by intros [= <-]]. }
    intros H0 H1 H2 H3 H4.
    apply (Hrules _ _ _ _ H0) in H1. apply (Hrules _ _ _ _ H1) in H2.
    assert (H3' : P g3).
    { revert H3. unfold Yearly.phase3_AssignHolidayBlocks. apply foldM_inv; [|exact H2].
      intros h [[res idx] k] h' Hh.
      destruct (Yearly.isSlotEmpty _ _ _) as [[|]|];
        [by apply Hassign|by intros [= <-]|discriminate]. }
    revert H4. unfold Yearly.phase4_AssignCoreNeurosurgeryRotations.
    apply foldM_inv; [|exact H3']. intros h blk h' Hh. apply foldM_inv; [|exact Hh].
    intros k idx k' Hk.
    destruct (Yearly.isSlotEmpty _ _ _) as [[|]|];
      [by apply Hassign|by intros [= <-]|discriminate].
  Qed.

Lemma assign_length (g g' : Yearly.Grid) (block : Z) (resIndex : nat) (rn : string)
      (rt : RotationType) (hol : option HolidayType) (req : option bool) :
    length g = 13%nat -> Yearly.assign residents g block resIndex rn rt hol req = Some g' ->
    length g' = 13%nat.
  Proof.
    unfold Yearly.assign. intros Hg.
    destruct (Yearly.isSlotEmpty g block resIndex) as [[|]|]; [|by intros [= <-]|discriminate].
    intros [= <-]. by rewrite length_insert.
  Qed.
End YearlyTeams.

Lemma countTeam_cons (t : Team) (c : option RotationAssignment) (row : list (option RotationAssignment)) :
  Yearly.countTeam t (c :: row) = (if Yearly.hasTeam t c then 1 else 0) + Yearly.countTeam t row.
Proof. unfold Yearly.countTeam. simpl. destruct (Yearly.hasTeam t c); simpl; lia. Qed.

Lemma countTeam_untagged (t : Team) (row : list (option RotationAssignment)) :
  untaggedRow row -> Yearly.countTeam t row = 0.
Proof.
  induction 1 as [|[ra|] row Hra _ IH]; [reflexivity| |]; rewrite countTeam_cons, IH;
    [|reflexivity].
  unfold Yearly.hasTeam, Yearly.isCoreNsx. rewrite Hra.
  by destruct (bool_decide (rotationType ra = CORE_NSX)).
Qed.

(** The second pass of phase 6 keeps Red at most one ahead of Blue. *)
Lemma balancePass_counts (row : list (option RotationAssignment)) (r b : Z) :
  untaggedRow row -> r = b \/ r = b + 1 ->
  r + Yearly.countTeam Red (Yearly.balancePass r b row) =
    b + Yearly.countTeam Blue (Yearly.balancePass r b row) \/
  r + Yearly.countTeam Red (Yearly.balancePass r b row) =
    b + Yearly.countTeam Blue (Yearly.balancePass r b row) + 1.
Proof.
  intros Hrow. revert r b. induction Hrow as [|[ra|] row Hra _ IH]; intros r b Hrb; simpl.
  - unfold Yearly.countTeam. simpl. lia.
  - rewrite Hra. destruct (bool_decide (rotationType ra = CORE_NSX)) eqn:Hcore; simpl.
    + destruct (Z.leb_spec r b).
      * rewrite !countTeam_cons. unfold Yearly.hasTeam, Yearly.isCoreNsx. cbn -[Yearly.countTeam].
        rewrite Hcore. simpl. specialize (IH (r + 1) b ltac:(lia)). lia.
      * rewrite !countTeam_cons. unfold Yearly.hasTeam, Yearly.isCoreNsx. cbn -[Yearly.countTeam].
        rewrite Hcore. simpl. specialize (IH r (b + 1) ltac:(lia)). lia.
    + rewrite !countTeam_cons. unfold Yearly.hasTeam, Yearly.isCoreNsx. rewrite Hcore. simpl.
      exact (IH r b Hrb).
  - rewrite !countTeam_cons. simpl. exact (IH r b Hrb).
Qed.

Lemma teamCount_omap (t : Team) (row : list (option RotationAssignment)) :
  teamCount t (omap (fun a => a) row) = Yearly.countTeam t row.
Proof.
  induction row as [|[ra|] row IH]; [reflexivity| |]; rewrite countTeam_cons, <- IH;
    unfold teamCount; simpl; [|reflexivity].
  unfold Yearly.hasTeam, Yearly.isCoreNsx.
  destruct (bool_decide (rotationType ra = CORE_NSX) && bool_decide (team ra = Some t)); simpl;
    [rewrite Nat2Z.inj_succ, Z.add_comm|]; reflexivity.
Qed.

Lemma In_zip_l {A B} (x : A) (y : B) (l : list A) (l' : list B) : In (x, y) (zip l l') -> In x l.
Proof.
  revert l'. induction l as [|a l IH]; intros [|b l']; simpl; try tauto.
  intros [[= -> ->]|H]; [by left|right; exact (IH _ H)].
Qed.

Lemma untaggedRow_repeat (n : nat) : untaggedRow (repeat None n).
Proof. induction n as [|n IH]; constructor; [exact I|exact IH]. Qed.

Lemma balanceBlock_untagged (row : list (option RotationAssignment)) :
  untaggedRow row ->
  teamCount Red (omap (fun a => a) (Yearly.balanceBlock row)) =
    teamCount Blue (omap (fun a => a) (Yearly.balanceBlock row)) \/
  teamCount Red (omap (fun a => a) (Yearly.balanceBlock row)) =
    teamCount Blue (omap (fun a => a) (Yearly.balanceBlock row)) + 1.
Proof.
  intros Hrow. rewrite !teamCount_omap. unfold Yearly.balanceBlock.
  rewrite !(countTeam_untagged _ _ Hrow).
  destruct (balancePass_counts row 0 0 Hrow ltac:(lia)); lia.
Qed.

(** C7: in every academic year produced by the yearly rotation engine there
    are 13 blocks, and in each block the CORE_NSX assignments tagged Red
    and those tagged Blue differ by at most one, the surplus (on an odd
    count) going to Red. *)
Theorem yearly_team_balance (residents : list Resident) (config : AppConfiguration)
    (academicYearId : string) (ay : AcademicYear) :
  Yearly.generateYearlySchedule residents config academicYearId = Some ay ->
  length (blocks ay) = 13%nat /\
  forall b, In b (blocks ay) ->
    teamCount Red (assignments b) = teamCount Blue (assignments b) \/
    teamCount Red (assignments b) = teamCount Blue (assignments b) + 1.
Proof.
  unfold Yearly.generateYearlySchedule.
  destruct (Yearly.startYearOf academicYearId) as [sy|]; [|discriminate].
  destruct (Yearly.phase1_AssignMandatoryRotations _ _ _) as [g1|] eqn:E1; [|discriminate].
  destruct (Yearly.phase2_AssignExamBlocks _ _ _) as [g2|] eqn:E2; [|discriminate].
  destruct (Yearly.phase3_AssignHolidayBlocks _ _) as [g3|] eqn:E3; [|discriminate].
  destruct (Yearly.phase4_AssignCoreNeurosurgeryRotations _ _) as [g4|] eqn:E4; [|discriminate].
  intros [= <-].
  assert (Hu : Forall untaggedRow g4).
  { refine (phases_1_to_4_preserve residents (fun g => Forall untaggedRow g) config _ _ _ _ _ _ _ E1 E2 E3 E4).
    - intros g g' block resIndex rn rt hol req. apply assign_untagged.
    - unfold Yearly.initialGrid. apply List.Forall_forall. intros row Hin.
      apply repeat_spec in Hin. subst row. apply untaggedRow_repeat. }
  assert (Hl : length g4 = 13%nat).
  { refine (phases_1_to_4_preserve residents (fun g => length g = 13%nat) config _ _ _ _ _ _ _ E1 E2 E3 E4).
    - intros g g' block resIndex rn rt hol req. apply assign_length.
    - unfold Yearly.initialGrid. by rewrite repeat_length. }
  unfold Yearly.formatScheduleForFirestore, Yearly.phase6_BalanceTeams, Yearly.indexed. simpl.
  split.
  - rewrite length_map, length_zip, length_seq, length_map. lia.
  - intros b Hb. apply in_map_iff in Hb as [[row n] [<- Hin]].
    apply In_zip_l in Hin. apply in_map_iff in Hin as [row0 [<- Hin]].
    destruct (Yearly.blockDates sy (Z.of_nat n)) as [s e]. simpl.
    apply balanceBlock_untagged. exact (proj1 (List.Forall_forall _ _) Hu row0 Hin).
Qed.

Lemma yearly_team_balance_witness :
  Yearly.generateYearlySchedule yearlyResidents cfgDefault "2025-2026"%string = Some year2526 /\
  length (blocks year2526) = 13%nat /\
  (forall b, In b (blocks year2526) ->
    teamCount Red (assignments b) = teamCount Blue (assignments b) \/
    teamCount Red (assignments b) = teamCount Blue (assignments b) + 1).
Proof.
  assert (H : Yearly.generateYearlySchedule yearlyResidents cfgDefault "2025-2026"%string
              = Some year2526) by (vm_compute; reflexivity).
  split; [exact H|].
  exact (yearly_team_balance yearlyResidents cfgDefault "2025-2026"%string year2526 H).
Defined.

(* ================================================================= *)
(** ** Generic list facts *)

Lemma insert_by_perm {A} (after : A -> A -> bool) (x : A) (l : list A) :
  Permutation (insert_by after x l) (x :: l).
Proof.
  induction l as [|y l IH]; simpl; [done|].
  destruct (after y x); [done|].
  etransitivity; [apply perm_skip, IH|apply perm_swap].
Qed.

Lemma fold_insert_perm {A} (after : A -> A -> bool) (l acc : list A) :
  Permutation (fold_left (fun acc x => insert_by after x acc) l acc) (l ++ acc).
Proof.
  revert acc. induction l as [|x l IH]; intros acc; simpl; [done|].
  etransitivity; [apply IH|].
  etransitivity; [apply Permutation_app_head, insert_by_perm|].
  symmetry. apply Permutation_middle.
Qed.

Lemma sort_by_perm {A} (after : A -> A -> bool) (l : list A) : Permutation (sort_by after l) l.
Proof. unfold sort_by. rewrite <- (app_nil_r l) at 2. apply fold_insert_perm. Qed.

Lemma sort_by_In {A} (after : A -> A -> bool) (l : list A) (x : A) :
  In x (sort_by after l) <-> In x l.
Proof. split; apply Permutation_in; [|symmetry]; apply sort_by_perm. Qed.

Lemma find_first_Some {A} (p : A -> bool) (l : list A) (x : A) :
  find_first p l = Some x -> In x l /\ p x = true.
Proof.
  induction l as [|y l IH]; simpl; [discriminate|].
  destruct (p y) eqn:E; [intros [= <-]; auto|]. intros H. destruct (IH H); auto.
Qed.

Lemma range_incl_In (lo hi d : Z) : In d (range_incl lo hi) <-> lo <= d <= hi.
Proof.
  unfold range_incl. rewrite in_map_iff. split.
  - intros (k & <- & Hk). apply in_seq in Hk. lia.
  - intros Hd. exists (Z.to_nat (d - lo)). split; [lia|]. apply in_seq. lia.
Qed.

Lemma length_range_incl (lo hi : Z) : length (range_incl lo hi) = Z.to_nat (hi - lo + 1).
Proof. unfold range_incl. by rewrite length_map, length_seq. Qed.

Lemma NoDup_range_incl (lo hi : Z) : NoDup (range_incl lo hi).
Proof.
  unfold range_incl. apply (NoDup_fmap_2_strong (fun k : nat => lo + Z.of_nat k)); [intros x y _ _; lia|].
  apply NoDup_seq.
Qed.

(* ================================================================= *)
(** ** Monthly generation: day requirements, eligibility and statistics *)

Lemma calculateDayRequirements_In (S : Scheduler) (dim : Z) (dr : DayRequirements) :
  In dr (calculateDayRequirements S dim) <-> exists d, 1 <= d <= dim /\ dr = dayRequirementOf S d.
Proof.
  unfold calculateDayRequirements. rewrite in_map_iff. split.
  - intros (d & <- & Hd). apply range_incl_In in Hd. eauto.
  - intros (d & Hd & ->). exists d. split; [done|]. by apply range_incl_In.
Qed.

Lemma dayRequirementOf_fields (S : Scheduler) (d : Z) :
  let dr := dayRequirementOf S d in
  dr_date dr = mkDate (year S) (month S) d /\
  dr_isWeekend dr = isWeekend S (mkDate (year S) (month S) d) /\
  dr_isHoliday dr = isHoliday S (mkDate (year S) (month S) d) /\
  requiredCoverage dr = getRequiredResidentCount (dr_callType dr) /\
  dr_callType dr =
    (if isHoliday S (mkDate (year S) (month S) d) then Holiday
     else if isWeekend S (mkDate (year S) (month S) d) then Weekend
     else if (1 <=? getDay (mkDate (year S) (month S) d)) &&
             (getDay (mkDate (year S) (month S) d) <=? 4) then Night
     else NoCall).
Proof.
  unfold dayRequirementOf. cbv zeta. set (D := mkDate (year S) (month S) d).
  destruct (isHoliday S D), (isWeekend S D), ((1 <=? getDay D) && (getDay D <=? 4)); repeat split.
Qed.

Lemma dayRequirementOf_type (S : Scheduler) (d : Z) :
  dr_callType (dayRequirementOf S d) <> NoCall ->
  dr_callType (dayRequirementOf S d) = Night \/ dr_callType (dayRequirementOf S d) = Weekend \/
  dr_callType (dayRequirementOf S d) = Holiday.
Proof.
  destruct (dayRequirementOf_fields S d) as (_ & _ & _ & _ & ->).
  set (D := mkDate (year S) (month S) d).
  destruct (isHoliday S D), (isWeekend S D), ((1 <=? getDay D) && (getDay D <=? 4)); auto; by intros [].
Qed.

(** What [isEligibleForCall] checks, read off its branches. *)
Lemma isEligibleForCall_spec (S : Scheduler) (st : Stats) (r : Resident) (d : Z)
    (lvl : StaffingLevel) :
  isEligibleForCall S st r d lvl = true ->
  exists b rot, getCurrentBlock S d = Some b /\ findRotation b (id r) = Some rot /\
    rotationType rot = CORE_NSX /\ isOnLeave S (id r) d = false /\
    isPostCall st (id r) d = false /\
    totalCalls (getStats st (id r)) < getMaxCalls (config S) r (getWorkingDaysForBlock S (Some b)) lvl /\
    (isWeekend S d = true -> weekendCalls (getStats st (id r)) < maxWeekends S) /\
    checkPAROCompliance st (id r) d = true.
Proof.
  unfold isEligibleForCall. cbv zeta.
  destruct (getCurrentBlock S d) as [b|] eqn:Hb; [|discriminate].
  destruct (findRotation b (id r)) as [rot|] eqn:Hr; [|discriminate].
  destruct (bool_decide (rotationType rot = CORE_NSX)) eqn:Hc; [|discriminate]. cbn [negb].
  apply bool_decide_eq_true in Hc.
  destruct (isOnLeave S (id r) d); [discriminate|].
  destruct (isPostCall st (id r) d); [discriminate|].
  destruct (getMaxCalls (config S) r (getWorkingDaysForBlock S (Some b)) lvl <=?
            totalCalls (getStats st (id r))) eqn:Hm; [discriminate|].
  apply Z.leb_gt in Hm.
  destruct (isWeekend S d) eqn:Hw; cbn [andb].
  - destruct (maxWeekends S <=? weekendCalls (getStats st (id r))) eqn:Hwk; [discriminate|].
    apply Z.leb_gt in Hwk. intros Hp. exists b, rot. repeat split; auto.
  - intros Hp. exists b, rot. repeat split; auto. discriminate.
Qed.

Lemma selectBestResident_spec (S : Scheduler) (st : Stats) (d : Z) (ct : CallType)
    (lvl : StaffingLevel) (ex : list string) (best : Resident) :
  selectBestResident S st d ct lvl ex = Some best ->
  In best (residents S) /\ (id best ∉ ex) /\ isEligibleForCall S st best d lvl = true.
Proof.
  intros H. apply selectBestResident_eligible in H. unfold eligibleResidents in H.
  apply filter_In in H as [Hin H]. apply andb_true_iff in H as [Hx He].
  split; [done|]. split; [|done]. apply negb_true_iff, bool_decide_eq_false in Hx. exact Hx.
Qed.

Lemma getStats_update_eq (st : Stats) (rid : string) (dr : DayRequirements) :
  getStats (updateResidentStats st rid dr) rid =
    let s := getStats st rid in
    {| totalCalls := totalCalls s + 1;
       weekendCalls := if dr_isWeekend dr then weekendCalls s + 1 else weekendCalls s;
       holidayCalls := if dr_isHoliday dr then holidayCalls s + 1 else holidayCalls s;
       nightCalls := if bool_decide (dr_callType dr = Night) then nightCalls s + 1 else nightCalls s;
       lastCallDate := Some (dr_date dr);
       consecutiveDays := consecutiveDays s;
       callDates := callDates s ++ [dr_date dr];
       cs_points := cs_points s + calculateCallPoints (dr_callType dr) |}.
Proof. unfold getStats at 1, updateResidentStats. by rewrite lookup_insert_eq. Qed.

Lemma getStats_update_ne (st : Stats) (rid k : string) (dr : DayRequirements) :
  rid <> k -> getStats (updateResidentStats st rid dr) k = getStats st k.
Proof. intros Hne. unfold getStats at 1, updateResidentStats. by rewrite lookup_insert_ne. Qed.

Lemma initializeCallStats_lookup (S : Scheduler) (k : string) :
  (exists r, In r (residents S) /\ id r = k /\ initializeCallStats S !! k = Some (initialStatsOf S r)) \/
  (~ In k (map id (residents S)) /\ initializeCallStats S !! k = None).
Proof.
  unfold initializeCallStats.
  assert (Hgen : forall rs (m : Stats),
    (exists r, In r rs /\ id r = k /\
       fold_left (fun st r => <[id r := initialStatsOf S r]> st) rs m !! k = Some (initialStatsOf S r)) \/
    (~ In k (map id rs) /\ fold_left (fun st r => <[id r := initialStatsOf S r]> st) rs m !! k = m !! k)).
  { induction rs as [|x rs IH]; intros m; simpl; [right; split; [intros []|reflexivity]|].
    destruct (IH (<[id x := initialStatsOf S x]> m)) as [(r & Hr & Hk & E)|(Hn & E)].
    - left. exists r. auto.
    - destruct (decide (id x = k)) as [<-|Hne].
      + left. exists x. rewrite E, lookup_insert_eq. auto.
      + right. rewrite E, lookup_insert_ne by done. split; [|done]. intros [H|H]; auto. }
  destruct (Hgen (residents S) ∅) as [H|(Hn & E)]; [by left|right]. split; [done|].
  rewrite E. apply lookup_empty.
Qed.

(** The initial statistics count the resident's existing non-PostCall
    assignments; an unknown id has the zero statistics. *)
Lemma initializeCallStats_total (S : Scheduler) (k : string) :
  totalCalls (getStats (initializeCallStats S) k) =
    if bool_decide (k ∈ map id (residents S)) then Z.of_nat (length (callsOf k (existingAssignments S)))
    else 0.
Proof.
  unfold getStats. destruct (initializeCallStats_lookup S k) as [(r & Hr & <- & E)|(Hn & E)]; rewrite E.
  - rewrite bool_decide_eq_true_2 by (apply list_elem_of_In, in_map_iff; eauto). reflexivity.
  - rewrite bool_decide_eq_false_2; [reflexivity|]. by rewrite list_elem_of_In.
Qed.

Lemma initializeCallStats_weekend (S : Scheduler) (k : string) :
  weekendCalls (getStats (initializeCallStats S) k) =
    if bool_decide (k ∈ map id (residents S))
    then countType Weekend (callsOf k (existingAssignments S)) else 0.
Proof.
  unfold getStats. destruct (initializeCallStats_lookup S k) as [(r & Hr & <- & E)|(Hn & E)]; rewrite E.
  - rewrite bool_decide_eq_true_2 by (apply list_elem_of_In, in_map_iff; eauto). reflexivity.
  - rewrite bool_decide_eq_false_2; [reflexivity|]. by rewrite list_elem_of_In.
Qed.

Lemma initializeCallStats_nonneg (S : Scheduler) (k : string) :
  0 <= totalCalls (getStats (initializeCallStats S) k) /\
  0 <= weekendCalls (getStats (initializeCallStats S) k).
Proof.
  rewrite initializeCallStats_total, initializeCallStats_weekend. unfold countType.
  destruct (bool_decide _); lia.
Qed.

Lemma sortByPriority_In (L : list DayRequirements) (dr : DayRequirements) :
  In dr (sortByPriority L) <-> In dr L.
Proof. apply sort_by_In. Qed.

Lemma sortByPriority_perm (L : list DayRequirements) : Permutation (sortByPriority L) L.
Proof. apply sort_by_perm. Qed.

(** The generation loop as an invariant: a property of (statistics,
    assignments) that holds initially and survives one filled position
    holds of the result. *)
Section GenInv.
Variable S : Scheduler.
Variable lvl : StaffingLevel.
Variable I : Stats -> list CallAssignment -> Prop.

Hypothesis I_step : forall st sel out dr best,
  I st out ->
  In dr (calculateDayRequirements S (daysInMonth (year S) (month S))) ->
  dr_callType dr <> NoCall ->
  selectBestResident S st (dr_date dr) (dr_callType dr) lvl (map id sel) = Some best ->
  I (updateResidentStats st (id best) dr)
    (out ++ [createCallAssignment S best (dr_date dr) (dr_callType dr) (dr_isHoliday dr)] ++
     createPostCallAssignments S (createCallAssignment S best (dr_date dr) (dr_callType dr)
                                    (dr_isHoliday dr)) (dr_callType dr)).

Lemma gen_inv_fill (dr : DayRequirements) (l : list nat) (acc : Stats * list Resident * list CallAssignment) :
  In dr (calculateDayRequirements S (daysInMonth (year S) (month S))) -> dr_callType dr <> NoCall ->
  I (fst (fst acc)) (snd acc) ->
  I (fst (fst (fold_left (fun a _ => fillPosition S lvl dr a) l acc)))
    (snd (fold_left (fun a _ => fillPosition S lvl dr a) l acc)).
Proof.
  intros Hdr Hct. revert acc. induction l as [|k l IH]; intros [[st sel] out] H; cbn [fold_left]; [exact H|].
  apply IH. unfold fillPosition.
  destruct (selectBestResident S st (dr_date dr) (dr_callType dr) lvl (map id sel)) as [best|] eqn:Hsel;
    [|exact H].
  exact (I_step st sel out dr best H Hdr Hct Hsel).
Qed.

Lemma gen_inv_day (acc : Stats * list CallAssignment) (dr : DayRequirements) :
  In dr (calculateDayRequirements S (daysInMonth (year S) (month S))) ->
  I (fst acc) (snd acc) -> I (fst (processDay S lvl acc dr)) (snd (processDay S lvl acc dr)).
Proof.
  destruct acc as [st out]. intros Hdr H. unfold processDay.
  destruct (bool_decide (dr_callType dr = NoCall)) eqn:Hn; [exact H|].
  apply bool_decide_eq_false in Hn.
  pose proof (gen_inv_fill dr (seq 0 (Z.to_nat (getRequiredResidentCount (dr_callType dr))))
                (st, [], out) Hdr Hn H) as Hf.
  cbv zeta. destruct (fold_left _ _ _) as [[st' sel'] out']. exact Hf.
Qed.

Lemma gen_inv :
  I (initializeCallStats S) [] -> exists st, I st (generateSchedule S lvl).
Proof.
  intros H0. unfold generateSchedule. cbv zeta.
  assert (Hall : forall l acc,
    (forall dr, In dr l -> In dr (calculateDayRequirements S (daysInMonth (year S) (month S)))) ->
    I (fst acc) (snd acc) ->
    I (fst (fold_left (processDay S lvl) l acc)) (snd (fold_left (processDay S lvl) l acc))).
  { induction l as [|dr l IH]; intros acc Hl Hacc; simpl; [exact Hacc|].
    apply IH; [intros x Hx; apply Hl; by right|]. apply gen_inv_day; [apply Hl; by left|exact Hacc]. }
  eexists. apply Hall; [|exact H0]. intros dr Hdr. exact (proj1 (sortByPriority_In _ dr) Hdr).
Qed.
End GenInv.

Lemma NoDup_map_inj {A B} (f : A -> B) (l : list A) (x y : A) :
  NoDup (map f l) -> In x l -> In y l -> f x = f y -> x = y.
Proof.
  induction l as [|z l IH]; simpl; [tauto|]. intros Hnd. apply NoDup_cons in Hnd as [Hn Hnd].
  intros [<-|Hx] [<-|Hy] E; auto.
  - exfalso. apply Hn. rewrite E. apply list_elem_of_In, in_map. exact Hy.
  - exfalso. apply Hn. rewrite <- E. apply list_elem_of_In, in_map. exact Hx.
Qed.

Lemma In_nonPostCalls (a : CallAssignment) (l : list CallAssignment) :
  In a (nonPostCalls l) <-> In a l /\ ca_type a <> PostCall.
Proof.
  unfold nonPostCalls. rewrite filter_In, negb_true_iff.
  split; intros [H1 H2]; split; auto.
  - by apply bool_decide_eq_false in H2.
  - by apply bool_decide_eq_false_2.
Qed.

Lemma In_callsOf (rid : string) (a : CallAssignment) (l : list CallAssignment) :
  In a (callsOf rid l) <-> In a l /\ ca_residentId a = rid /\ ca_type a <> PostCall.
Proof.
  unfold callsOf. rewrite filter_In, andb_true_iff, negb_true_iff, bool_decide_eq_true.
  split; intros [H1 [H2 H3]]; repeat split; auto.
  - by apply bool_decide_eq_false in H3.
  - by apply bool_decide_eq_false_2.
Qed.

(** Every call (a non-PostCall assignment) of a generated schedule was
    created for a listed resident who was eligible, in the statistics of
    that moment, on a day of the month that requires a call. *)
Lemma generateSchedule_calls_made (S : Scheduler) (lvl : StaffingLevel) (a : CallAssignment) :
  In a (generateSchedule S lvl) -> ca_type a <> PostCall ->
  exists r d st, In r (residents S) /\ 1 <= d <= daysInMonth (year S) (month S) /\
    dr_callType (dayRequirementOf S d) <> NoCall /\
    isEligibleForCall S st r (mkDate (year S) (month S) d) lvl = true /\
    (forall k, 0 <= totalCalls (getStats st k)) /\
    a = createCallAssignment S r (mkDate (year S) (month S) d) (dr_callType (dayRequirementOf S d))
          (dr_isHoliday (dayRequirementOf S d)).
Proof.
  set (I := fun (st : Stats) (out : list CallAssignment) =>
    (forall k, 0 <= totalCalls (getStats st k)) /\
    forall a, In a out -> ca_type a <> PostCall ->
      exists r d st, In r (residents S) /\ 1 <= d <= daysInMonth (year S) (month S) /\
        dr_callType (dayRequirementOf S d) <> NoCall /\
        isEligibleForCall S st r (mkDate (year S) (month S) d) lvl = true /\
        (forall k, 0 <= totalCalls (getStats st k)) /\
        a = createCallAssignment S r (mkDate (year S) (month S) d) (dr_callType (dayRequirementOf S d))
              (dr_isHoliday (dayRequirementOf S d))).
  assert (Hg : exists st, I st (generateSchedule S lvl)).
  { apply gen_inv.
    - intros st sel out dr best [Hnn Hout] Hdr Hct Hsel. split.
      + intros k. destruct (decide (id best = k)) as [<-|Hne].
        * rewrite getStats_update_eq. cbv zeta. cbn [totalCalls]. specialize (Hnn (id best)). lia.
        * rewrite getStats_update_ne by done. apply Hnn.
      + intros x Hx Hxt. apply in_app_or in Hx as [Hx|[<-|Hx]].
        * by apply Hout.
        * apply calculateDayRequirements_In in Hdr as (d & Hd & ->).
          apply selectBestResident_spec in Hsel as (Hin & _ & Hel).
          destruct (dayRequirementOf_fields S d) as (Hdate & _).
          rewrite Hdate in Hel |- *. exists best, d, st.
          exact (conj Hin (conj Hd (conj Hct (conj Hel (conj Hnn eq_refl))))).
        * exfalso. exact (Hxt (createPostCallAssignments_type S _ _ x Hx)).
    - split; [intros k; apply initializeCallStats_nonneg|intros x []]. }
  destruct Hg as [st [_ Hout]]. apply Hout.
Qed.

Lemma getMaxCalls_chief_exempt (config : AppConfiguration) (r : Resident) (W : Z) (m : StaffingLevel) :
  isChief r && callExempt r = true -> getMaxCalls config r W m = 0.
Proof. unfold getMaxCalls. by intros ->. Qed.

(** Every call of a generated schedule goes to a listed resident, on a day
    of the scheduled month, with that day's call type (Night, Weekend or
    Holiday), the points of that type and the status Scheduled. *)
Theorem generateSchedule_call_shape (S : Scheduler) (lvl : StaffingLevel) :
  Forall (fun a => exists r d, In r (residents S) /\ ca_residentId a = id r /\
      residentName a = name r /\ 1 <= d <= daysInMonth (year S) (month S) /\
      ca_date a = mkDate (year S) (month S) d /\ ca_type a = dr_callType (dayRequirementOf S d) /\
      (ca_type a = Night \/ ca_type a = Weekend \/ ca_type a = Holiday) /\
      points a = calculateCallPoints (ca_type a) /\ ca_status a = Scheduled)
    (nonPostCalls (generateSchedule S lvl)).
Proof.
  apply List.Forall_forall. intros a Ha. apply In_nonPostCalls in Ha as [Ha Ht].
  destruct (generateSchedule_calls_made S lvl a Ha Ht) as (r & d & st & Hr & Hd & Hct & _ & _ & ->).
  exists r, d. cbn [createCallAssignment ca_residentId residentName ca_date ca_type points ca_status].
  refine (conj Hr (conj eq_refl (conj eq_refl (conj Hd (conj eq_refl (conj eq_refl (conj _ (conj eq_refl eq_refl)))))))).
  by apply dayRequirementOf_type.
Qed.

(** Every call of a generated schedule goes to a resident whose rotation
    in the block containing the call's date is core neurosurgery, and the
    call carries that rotation's team. *)
Theorem generateSchedule_call_rotation (S : Scheduler) (lvl : StaffingLevel) :
  Forall (fun a => exists b rot, getCurrentBlock S (ca_date a) = Some b /\
      findRotation b (ca_residentId a) = Some rot /\ rotationType rot = CORE_NSX /\
      ca_team a = team rot)
    (nonPostCalls (generateSchedule S lvl)).
Proof.
  apply List.Forall_forall. intros a Ha. apply In_nonPostCalls in Ha as [Ha Ht].
  destruct (generateSchedule_calls_made S lvl a Ha Ht) as (r & d & st & _ & _ & _ & Hel & _ & ->).
  apply isEligibleForCall_spec in Hel as (b & rot & Hb & Hrot & Hcore & _).
  exists b, rot. cbn [createCallAssignment ca_date ca_residentId ca_team]. unfold getResidentTeam.
  rewrite Hb, Hrot. exact (conj eq_refl (conj eq_refl (conj Hcore eq_refl))).
Qed.

(** A call-exempt chief resident is never given a call (when resident ids
    are distinct). *)
Theorem generateSchedule_exempt_chief (S : Scheduler) (lvl : StaffingLevel) (r : Resident)
    (Hids : NoDup (map id (residents S))) (Hr : In r (residents S))
    (Hexempt : isChief r && callExempt r = true) :
  callsOf (id r) (generateSchedule S lvl) = [].
Proof.
  destruct (callsOf (id r) (generateSchedule S lvl)) as [|a rest] eqn:E; [done|exfalso].
  assert (Ha : In a (callsOf (id r) (generateSchedule S lvl))) by (rewrite E; left; done).
  apply In_callsOf in Ha as (Ha & Hid & Ht).
  destruct (generateSchedule_calls_made S lvl a Ha Ht) as (r' & d & st & Hr' & _ & _ & Hel & Hnn & ->).
  cbn [createCallAssignment ca_residentId] in Hid. rewrite (NoDup_map_inj id (residents S) r' r Hids Hr' Hr Hid) in Hel.
  apply isEligibleForCall_spec in Hel as (b & rot & _ & _ & _ & _ & _ & Hmax & _).
  rewrite getMaxCalls_chief_exempt in Hmax by exact Hexempt. specialize (Hnn (id r)). lia.
Qed.

(** PostCall markers: each one is the marker of a call of the schedule, for
    the next day of the same month; conversely every call whose next day
    is still in the month has its marker in the schedule. *)
Theorem generateSchedule_postcalls (S : Scheduler) (lvl : StaffingLevel) :
  Forall (fun p => ca_type p = PostCall ->
      exists a, In a (generateSchedule S lvl) /\ ca_type a <> PostCall /\ p = postCallOf a /\
        getMonth (ca_date p) = month S) (generateSchedule S lvl) /\
  Forall (fun a => ca_type a <> PostCall -> getMonth (ca_date a + 1) = month S ->
      In (postCallOf a) (generateSchedule S lvl)) (generateSchedule S lvl).
Proof.
  set (I := fun (_ : Stats) (out : list CallAssignment) =>
    (forall p, In p out -> ca_type p = PostCall ->
      exists a, In a out /\ ca_type a <> PostCall /\ p = postCallOf a /\ getMonth (ca_date p) = month S) /\
    (forall a, In a out -> ca_type a <> PostCall -> getMonth (ca_date a + 1) = month S ->
      In (postCallOf a) out)).
  assert (Hg : exists st, I st (generateSchedule S lvl)).
  { apply gen_inv; [|split; intros ? []].
    intros st sel out dr best [H1 H2] Hdr Hct Hsel.
    apply calculateDayRequirements_In in Hdr as (d & Hd & ->).
    pose proof (dayRequirementOf_type S d Hct) as Hty.
    set (c := createCallAssignment S best _ _ _).
    assert (Hc : ca_type c <> PostCall)
      by (unfold c; cbn [createCallAssignment ca_type]; destruct Hty as [->|[->| ->]]; discriminate).
    assert (Hpc : createPostCallAssignments S c (dr_callType (dayRequirementOf S d)) =
                  if getMonth (ca_date c + 1) =? month S then [postCallOf c] else []).
    { unfold createPostCallAssignments.
      replace (requiresPostCall (dr_callType (dayRequirementOf S d))) with true
        by (destruct Hty as [->|[->| ->]]; reflexivity).
      cbn [negb]. by destruct (getMonth (ca_date c + 1) =? month S). }
    rewrite Hpc. split.
    - intros p Hp Hpt. apply in_app_or in Hp as [Hp|[<-|Hp]].
      + destruct (H1 p Hp Hpt) as (a & Ha & ?). exists a. split; [apply in_or_app; by left|done].
      + done.
      + destruct (getMonth (ca_date c + 1) =? month S) eqn:Em; [|done].
        destruct Hp as [<-|[]]. exists c. split; [apply in_or_app; right; by left|].
        split; [done|]. split; [done|]. by apply Z.eqb_eq in Em.
    - intros a Ha Hat Hm. apply in_app_or in Ha as [Ha|[<-|Ha]].
      + apply in_or_app. left. by apply H2.
      + apply in_or_app. right. right.
        destruct (getMonth (ca_date c + 1) =? month S) eqn:E; [left; reflexivity|].
        apply Z.eqb_neq in E. contradiction.
      + destruct (getMonth (ca_date c + 1) =? month S); [|done].
        destruct Ha as [<-|[]]. done. }
  destruct Hg as [st [H1 H2]]. split; apply List.Forall_forall; auto.
Qed.

(* ================================================================= *)
(** ** Monthly generation: per-resident counts *)

Lemma callsOf_app (k : string) (l1 l2 : list CallAssignment) :
  callsOf k (l1 ++ l2) = callsOf k l1 ++ callsOf k l2.
Proof. unfold callsOf. apply List.filter_app. Qed.

Lemma callsOf_postcalls (S : Scheduler) (k : string) (c : CallAssignment) (ct : CallType) :
  callsOf k (createPostCallAssignments S c ct) = [].
Proof.
  unfold callsOf. destruct (List.filter _ _) as [|x rest] eqn:E; [reflexivity|exfalso].
  assert (Hx : In x (List.filter (fun a => bool_decide (ca_residentId a = k) &&
                                          negb (bool_decide (ca_type a = PostCall)))
                       (createPostCallAssignments S c ct))) by (rewrite E; left; reflexivity).
  apply filter_In in Hx as [Hx Hf]. apply createPostCallAssignments_type in Hx.
  rewrite Hx in Hf. rewrite (bool_decide_eq_true_2 (PostCall = PostCall) eq_refl) in Hf.
  by rewrite andb_false_r in Hf.
Qed.

Lemma callsOf_one (k : string) (c : CallAssignment) :
  ca_type c <> PostCall ->
  callsOf k [c] = if bool_decide (ca_residentId c = k) then [c] else [].
Proof.
  intros Hc. unfold callsOf. cbn [List.filter]. rewrite (bool_decide_eq_false_2 _ Hc).
  cbn [negb]. rewrite andb_true_r. by destruct (bool_decide (ca_residentId c = k)).
Qed.

Lemma callsOf_step (S : Scheduler) (k : string) (out : list CallAssignment) (c : CallAssignment)
    (ct : CallType) :
  ca_type c <> PostCall ->
  callsOf k (out ++ [c] ++ createPostCallAssignments S c ct) =
    callsOf k out ++ (if bool_decide (ca_residentId c = k) then [c] else []).
Proof.
  intros Hc. rewrite !callsOf_app, callsOf_postcalls, callsOf_one by exact Hc.
  by rewrite app_nil_r.
Qed.

Lemma createCallAssignment_type_resident (S : Scheduler) (r : Resident) (d : Z) (ct : CallType)
    (h : bool) :
  ca_type (createCallAssignment S r d ct h) = ct /\ ca_residentId (createCallAssignment S r d ct h) = id r /\
  ca_date (createCallAssignment S r d ct h) = d.
Proof. repeat split. Qed.

Lemma dayRequirementOf_not_postcall (S : Scheduler) (d : Z) : dr_callType (dayRequirementOf S d) <> PostCall.
Proof.
  destruct (dayRequirementOf_fields S d) as (_ & _ & _ & _ & ->).
  set (D := mkDate (year S) (month S) d).
  destruct (isHoliday S D), (isWeekend S D), ((1 <=? getDay D) && (getDay D <=? 4)); discriminate.
Qed.

Lemma getMaxCalls_le (config : AppConfiguration) (r : Resident) (W K : Z) (m : StaffingLevel) :
  (forall rule, In rule (paroHardCaps (monthlySchedulerConfig config)) -> calls rule <= K) ->
  8 <= K -> getMaxCalls config r W m <= K.
Proof.
  intros Hcap HK. unfold getMaxCalls. cbv zeta.
  destruct (isChief r && callExempt r); [lia|].
  assert (Hp : match find_first (fun rule => (minDays rule <=? W) && (W <=? maxDays rule))
                       (paroHardCaps (monthlySchedulerConfig config)) with
               | Some rule => calls rule | None => 8 end <= K).
  { destruct (find_first _ _) as [rule|] eqn:E; [|exact HK].
    apply find_first_Some in E as [Hin _]. exact (Hcap rule Hin). }
  revert Hp. generalize (match find_first (fun rule => (minDays rule <=? W) && (W <=? maxDays rule))
                       (paroHardCaps (monthlySchedulerConfig config)) with
               | Some rule => calls rule | None => 8 end). intros cap Hp.
  destruct (callRatios (monthlySchedulerConfig config) !! pgyLevel r) as [[|p|p]|]; [lia| | |lia];
    destruct m; lia.
Qed.

(** The counting invariant of the loop: each resident's [totalCalls] is
    the initial count plus the calls emitted so far, and once a resident
    has a new call the count is within [K]. *)
Lemma generateSchedule_cap_aux (S : Scheduler) (lvl : StaffingLevel) (K : Z)
    (Hcap : forall rule, In rule (paroHardCaps (monthlySchedulerConfig (config S))) -> calls rule <= K)
    (HK : 8 <= K) (k : string) :
  callsOf k (generateSchedule S lvl) = [] \/
  totalCalls (getStats (initializeCallStats S) k) + Z.of_nat (length (callsOf k (generateSchedule S lvl))) <= K.
Proof.
  set (I := fun (st : Stats) (out : list CallAssignment) => forall k,
    totalCalls (getStats st k) =
      totalCalls (getStats (initializeCallStats S) k) + Z.of_nat (length (callsOf k out)) /\
    (callsOf k out = [] \/ totalCalls (getStats st k) <= K)).
  assert (Hg : exists st, I st (generateSchedule S lvl)).
  { apply gen_inv; [|intros k'; split; [cbn; lia|by left]].
    intros st sel out dr best Hinv Hdr Hct Hsel k'.
    apply calculateDayRequirements_In in Hdr as (d & Hd & ->).
    apply selectBestResident_spec in Hsel as (_ & _ & Hel).
    apply isEligibleForCall_spec in Hel as (b & rot & _ & _ & _ & _ & _ & Hmax & _).
    pose proof (getMaxCalls_le (config S) best (getWorkingDaysForBlock S (Some b)) K lvl Hcap HK).
    rewrite callsOf_step by apply dayRequirementOf_not_postcall.
    cbn [createCallAssignment ca_residentId].
    destruct (Hinv k') as [Heq Hor].
    destruct (decide (id best = k')) as [<-|Hne].
    - rewrite bool_decide_eq_true_2 by reflexivity. rewrite getStats_update_eq. cbv zeta. cbn [totalCalls].
      rewrite length_app. cbn [length]. split; [lia|right; lia].
    - rewrite bool_decide_eq_false_2 by exact Hne. rewrite getStats_update_ne by exact Hne.
      rewrite app_nil_r. split; [exact Heq|exact Hor]. }
  destruct Hg as [st Hst]. destruct (Hst k) as [Heq [Hor|Hor]]; [by left|right; lia].
Qed.

(** Per-resident cap: when every PARO cap is at most [K] (and [K] is at
    least the default cap 8), a resident who receives calls ends with at
    most [K] calls, counting the existing non-PostCall assignments given to
    the scheduler. *)
Theorem generateSchedule_resident_cap (S : Scheduler) (lvl : StaffingLevel) (K : Z) (r : Resident)
    (Hcap : forall rule, In rule (paroHardCaps (monthlySchedulerConfig (config S))) -> calls rule <= K)
    (HK : 8 <= K) (Hr : In r (residents S)) :
  callsOf (id r) (generateSchedule S lvl) = [] \/
  Z.of_nat (length (callsOf (id r) (generateSchedule S lvl))) +
    Z.of_nat (length (callsOf (id r) (existingAssignments S))) <= K.
Proof.
  destruct (generateSchedule_cap_aux S lvl K Hcap HK (id r)) as [H|H]; [by left|right].
  rewrite initializeCallStats_total, bool_decide_eq_true_2 in H; [lia|].
  apply list_elem_of_In, in_map. exact Hr.
Qed.

(** Weekend cap: a resident who receives calls on weekend days (by the
    configured weekend definition) ends with at most [maxWeekends] of
    them, counting the existing Weekend-type assignments. *)
Theorem generateSchedule_weekend_cap (S : Scheduler) (lvl : StaffingLevel) (r : Resident)
    (Hr : In r (residents S)) :
  let wk := List.filter (fun a => isWeekend S (ca_date a)) (callsOf (id r) (generateSchedule S lvl)) in
  wk = [] \/
  Z.of_nat (length wk) + countType Weekend (callsOf (id r) (existingAssignments S)) <= maxWeekends S.
Proof.
  set (wkOf := fun k (out : list CallAssignment) =>
         List.filter (fun a => isWeekend S (ca_date a)) (callsOf k out)).
  set (I := fun (st : Stats) (out : list CallAssignment) => forall k,
    weekendCalls (getStats st k) =
      weekendCalls (getStats (initializeCallStats S) k) + Z.of_nat (length (wkOf k out)) /\
    (wkOf k out = [] \/ weekendCalls (getStats st k) <= maxWeekends S)).
  assert (Hg : exists st, I st (generateSchedule S lvl)).
  { apply gen_inv; [|intros k'; split; [cbn; lia|by left]].
    intros st sel out dr best Hinv Hdr Hct Hsel k'.
    apply calculateDayRequirements_In in Hdr as (d & Hd & ->).
    destruct (dayRequirementOf_fields S d) as (Hdate & Hwk & _).
    apply selectBestResident_spec in Hsel as (_ & _ & Hel).
    apply isEligibleForCall_spec in Hel as (b & rot & _ & _ & _ & _ & _ & _ & Hcapw & _).
    unfold wkOf. rewrite callsOf_step by apply dayRequirementOf_not_postcall.
    cbn [createCallAssignment ca_residentId ca_date]. rewrite List.filter_app.
    destruct (Hinv k') as [Heq Hor]. unfold wkOf in Heq, Hor.
    destruct (decide (id best = k')) as [<-|Hne].
    - rewrite bool_decide_eq_true_2 by reflexivity. rewrite getStats_update_eq. cbv zeta. cbn [weekendCalls].
      cbn [List.filter]. cbn [createCallAssignment ca_date]. rewrite Hwk, <- Hdate.
      destruct (isWeekend S (dr_date (dayRequirementOf S d))) eqn:Ew.
      + specialize (Hcapw eq_refl). rewrite length_app. cbn [length]. split; [lia|right; lia].
      + rewrite app_nil_r. split; [exact Heq|exact Hor].
    - rewrite bool_decide_eq_false_2 by exact Hne. rewrite getStats_update_ne by exact Hne.
      cbn [List.filter]. rewrite app_nil_r. split; [exact Heq|exact Hor]. }
  destruct Hg as [st Hst]. cbv zeta. destruct (Hst (id r)) as [Heq [Hor|Hor]]; [by left|right].
  rewrite initializeCallStats_weekend, bool_decide_eq_true_2 in Heq;
    [|apply list_elem_of_In, in_map; exact Hr].
  unfold wkOf in Heq. lia.
Qed.

(* ================================================================= *)
(** ** The per-resident count map of metrics and validation *)

Lemma map_get_Some (k : string) (m : list (string * Z)) (v : Z) :
  map_get k m = Some v -> In (k, v) m.
Proof.
  unfold map_get. destruct (find_first _ m) as [[k' v']|] eqn:E; cbn [option_map]; [|discriminate].
  intros [= <-]. apply find_first_Some in E as [Hin Hp]. cbn [fst] in Hp.
  apply String.eqb_eq in Hp. subst k'. exact Hin.
Qed.

Lemma map_get_None (k : string) (m : list (string * Z)) :
  map_get k m = None -> ~ In k (map fst m).
Proof.
  unfold map_get. induction m as [|[k' v'] m IH]; cbn [find_first map fst]; [tauto|].
  destruct (String.eqb k' k) eqn:E; cbn [option_map]; [discriminate|].
  intros Hn [->|Hin]; [by rewrite String.eqb_refl in E|exact (IH Hn Hin)].
Qed.

Lemma map_get_In (k : string) (m : list (string * Z)) (v : Z) :
  NoDup (map fst m) -> In (k, v) m -> map_get k m = Some v.
Proof.
  unfold map_get. induction m as [|[k' v'] m IH]; cbn [find_first map fst In]; [tauto|].
  intros Hnd. apply NoDup_cons in Hnd as [Hn Hnd].
  intros [[= -> ->]|Hin]; [by rewrite String.eqb_refl|].
  destruct (String.eqb k' k) eqn:E.
  - apply String.eqb_eq in E. subst k'. exfalso. apply Hn, list_elem_of_In.
    apply (in_map fst) in Hin. exact Hin.
  - exact (IH Hnd Hin).
Qed.

Lemma map_set_keys_in (k : string) (v : Z) (m : list (string * Z)) :
  In k (map fst m) -> map fst (map_set k v m) = map fst m.
Proof.
  induction m as [|[k' v'] m IH]; cbn [map_set map fst In]; [tauto|].
  destruct (String.eqb k k') eqn:E.
  - apply String.eqb_eq in E. subst k'. reflexivity.
  - apply String.eqb_neq in E. intros [->|Hin]; [congruence|]. cbn [map fst]. by rewrite IH.
Qed.

Lemma map_set_keys_notin (k : string) (v : Z) (m : list (string * Z)) :
  ~ In k (map fst m) -> map fst (map_set k v m) = map fst m ++ [k].
Proof.
  induction m as [|[k' v'] m IH]; cbn [map_set map fst In]; [reflexivity|].
  intros Hn. destruct (String.eqb k k') eqn:E.
  - apply String.eqb_eq in E. subst k'. tauto.
  - cbn [map fst app]. rewrite IH by tauto. reflexivity.
Qed.

Lemma map_set_In (k k' : string) (v v' : Z) (m : list (string * Z)) :
  NoDup (map fst m) -> In (k', v') (map_set k v m) ->
  (k' = k /\ v' = v) \/ (k' <> k /\ In (k', v') m).
Proof.
  induction m as [|[k0 v0] m IH]; cbn [map_set map fst In].
  - intros _ [[= -> ->]|[]]. by left.
  - intros Hnd. apply NoDup_cons in Hnd as [Hn Hnd].
    destruct (String.eqb k k0) eqn:E; cbn [In].
    + apply String.eqb_eq in E. subst k0. intros [[= -> ->]|Hin]; [by left|right].
      split; [|by right]. intros ->. apply Hn, list_elem_of_In. apply (in_map fst) in Hin. exact Hin.
    + apply String.eqb_neq in E. intros [[= -> ->]|Hin]; [right; split; [exact (fun H => E (eq_sym H))|by left]|].
      destruct (IH Hnd Hin) as [H|[H1 H2]]; [by left|right; split; [exact H1|by right]].
Qed.

Lemma sum_map_set_incr (k : string) (m : list (string * Z)) :
  fold_right Z.add 0 (map snd (map_set k (default 0 (map_get k m) + 1) m)) =
  fold_right Z.add 0 (map snd m) + 1.
Proof.
  unfold map_get. induction m as [|[k' v'] m IH]; cbn [map_set find_first map fst snd fold_right].
  - cbn. reflexivity.
  - rewrite (String.eqb_sym k' k). destruct (String.eqb k k'); cbn [option_map default map snd fold_right].
    + cbv [Datatypes.id]. lia.
    + rewrite IH. lia.
Qed.

(** The invariant of the count map over a prefix of the assignments. *)
Definition count_map_ok (m : list (string * Z)) (pre : list CallAssignment) : Prop :=
  NoDup (map fst m) /\
  (forall k v, In (k, v) m -> v = Z.of_nat (length (callsOf k pre))) /\
  (forall k, In k (map fst m) <-> callsOf k pre <> []).

Lemma callsOf_snoc (k : string) (pre : list CallAssignment) (a : CallAssignment) :
  callsOf k (pre ++ [a]) =
    callsOf k pre ++ (if bool_decide (ca_residentId a = k) && negb (bool_decide (ca_type a = PostCall))
                      then [a] else []).
Proof. unfold callsOf. rewrite List.filter_app. reflexivity. Qed.

Lemma count_map_ok_step (m : list (string * Z)) (pre : list CallAssignment) (a : CallAssignment) :
  count_map_ok m pre ->
  count_map_ok (if negb (bool_decide (ca_type a = PostCall))
                then map_set (ca_residentId a) (default 0 (map_get (ca_residentId a) m) + 1) m
                else m) (pre ++ [a]).
Proof.
  intros (Hnd & Hval & Hkey).
  destruct (bool_decide (ca_type a = PostCall)) eqn:Ep; cbn [negb].
  - assert (Hs : forall k, callsOf k (pre ++ [a]) = callsOf k pre).
    { intros k. rewrite callsOf_snoc, Ep, andb_false_r. apply app_nil_r. }
    split; [exact Hnd|split]; intros k; rewrite Hs; [exact (Hval k)|exact (Hkey k)].
  - set (k0 := ca_residentId a).
    assert (Hs : forall k, callsOf k (pre ++ [a]) =
                   callsOf k pre ++ (if bool_decide (k0 = k) then [a] else [])).
    { intros k. rewrite callsOf_snoc, Ep, andb_true_r. reflexivity. }
    assert (Hvnew : default 0 (map_get k0 m) + 1 = Z.of_nat (length (callsOf k0 (pre ++ [a])))).
    { rewrite Hs, bool_decide_eq_true_2 by reflexivity. rewrite length_app. cbn [length].
      destruct (map_get k0 m) as [v0|] eqn:Eg; cbn [default]; cbv [Datatypes.id].
      - rewrite (Hval k0 v0 (map_get_Some _ _ _ Eg)). lia.
      - assert (Hc : callsOf k0 pre = []).
        { destruct (callsOf k0 pre) eqn:Ec; [reflexivity|exfalso].
          apply (map_get_None _ _ Eg), Hkey. rewrite Ec. discriminate. }
        rewrite Hc. reflexivity. }
    split; [|split].
    + destruct (in_dec String.string_dec k0 (map fst m)) as [Hin|Hin].
      * rewrite map_set_keys_in by exact Hin. exact Hnd.
      * rewrite map_set_keys_notin by exact Hin. apply NoDup_app. split; [exact Hnd|split].
        -- intros x Hx1 Hx2. apply list_elem_of_In in Hx1. apply list_elem_of_In in Hx2.
           destruct Hx2 as [<-|[]]. exact (Hin Hx1).
        -- apply NoDup_singleton.
    + intros k v Hin. destruct (map_set_In _ _ _ _ _ Hnd Hin) as [[-> ->]|[Hne Hin']].
      * exact Hvnew.
      * rewrite Hs, bool_decide_eq_false_2 by (intros E; exact (Hne (eq_sym E))).
        rewrite app_nil_r. exact (Hval k v Hin').
    + intros k. destruct (decide (k0 = k)) as [<-|Hne].
      * rewrite Hs, bool_decide_eq_true_2 by reflexivity. split; [intros _|intros _].
        -- destruct (callsOf k0 pre); discriminate.
        -- destruct (in_dec String.string_dec k0 (map fst m)) as [Hin|Hin].
           ++ rewrite map_set_keys_in by exact Hin. exact Hin.
           ++ rewrite map_set_keys_notin by exact Hin. apply in_or_app. right. left. reflexivity.
      * rewrite Hs, bool_decide_eq_false_2 by exact Hne. rewrite app_nil_r, <- Hkey.
        destruct (in_dec String.string_dec k0 (map fst m)) as [Hin|Hin].
        -- rewrite map_set_keys_in by exact Hin. reflexivity.
        -- rewrite map_set_keys_notin by exact Hin. rewrite in_app_iff. cbn [In].
           split; [intros [H|[H|[]]]; [exact H|congruence]|intros H; left; exact H].
Qed.

Lemma countCallsByResident_ok (l : list CallAssignment) : count_map_ok (countCallsByResident l) l.
Proof.
  unfold countCallsByResident.
  assert (Hgen : forall pre m, count_map_ok m pre ->
            count_map_ok (fold_left (fun m a =>
              if negb (bool_decide (ca_type a = PostCall))
              then map_set (ca_residentId a) (default 0 (map_get (ca_residentId a) m) + 1) m
              else m) l m) (pre ++ l)).
  { induction l as [|a l IH]; intros pre m Hm; cbn [fold_left]; [by rewrite app_nil_r|].
    replace (pre ++ a :: l) with ((pre ++ [a]) ++ l) by (rewrite <- app_assoc; reflexivity).
    apply IH, count_map_ok_step, Hm. }
  apply (Hgen []). split; [constructor|split]; [intros k v []|intros k; split; [intros []|]].
  intros H. exfalso. apply H. reflexivity.
Qed.

Lemma countCallsByResident_sum (l : list CallAssignment) :
  fold_right Z.add 0 (map snd (countCallsByResident l)) = Z.of_nat (length (nonPostCalls l)).
Proof.
  unfold countCallsByResident, nonPostCalls.
  assert (Hgen : forall m pre, fold_right Z.add 0 (map snd m) = Z.of_nat (length (List.filter
                   (fun a => negb (bool_decide (ca_type a = PostCall))) pre)) ->
            fold_right Z.add 0 (map snd (fold_left (fun m a =>
              if negb (bool_decide (ca_type a = PostCall))
              then map_set (ca_residentId a) (default 0 (map_get (ca_residentId a) m) + 1) m
              else m) l m)) = Z.of_nat (length (List.filter
                   (fun a => negb (bool_decide (ca_type a = PostCall))) (pre ++ l)))).
  { induction l as [|a l IH]; intros m pre Hm; cbn [fold_left]; [by rewrite app_nil_r|].
    replace (pre ++ a :: l) with ((pre ++ [a]) ++ l) by (rewrite <- app_assoc; reflexivity).
    apply IH. rewrite List.filter_app, length_app. cbn [List.filter].
    destruct (negb (bool_decide (ca_type a = PostCall))); cbn [length].
    - rewrite sum_map_set_incr, Hm. lia.
    - rewrite Hm. lia. }
  apply (Hgen [] []). reflexivity.
Qed.

Lemma fold_left_nil_stable {A B} (f : list B -> A -> list B) (l : list A) :
  (forall x, In x l -> f [] x = []) -> fold_left f l [] = [].
Proof.
  induction l as [|x l IH]; intros H; cbn [fold_left]; [reflexivity|].
  rewrite (H x (or_introl eq_refl)). apply IH. intros y Hy. exact (H y (or_intror Hy)).
Qed.

(** [residentDistribution] of the metrics lists each resident at most once,
    exactly the residents holding a non-PostCall assignment, each with its
    number of non-PostCall assignments. *)
Theorem metrics_distribution_exact (S : Scheduler) (l : list CallAssignment) :
  let dist := residentDistribution (calculateScheduleMetrics S l) in
  NoDup (map fst dist) /\
  (forall rid v, In (rid, v) dist -> v = Z.of_nat (length (callsOf rid l))) /\
  (forall rid, In rid (map fst dist) <-> callsOf rid l <> []).
Proof. exact (countCallsByResident_ok l). Qed.

(** The values of [residentDistribution] add up to [totalCalls], the
    number of non-PostCall assignments. *)
Theorem metrics_distribution_sum (S : Scheduler) (l : list CallAssignment) :
  fold_right Z.add 0 (map snd (residentDistribution (calculateScheduleMetrics S l))) =
  sm_totalCalls (calculateScheduleMetrics S l).
Proof. exact (countCallsByResident_sum l). Qed.

(** The cloud function's validation accepts every schedule the monthly
    scheduler generates when no PARO cap of the configuration exceeds the
    validator's hard-coded limit of 8. *)
Theorem generateSchedule_passes_validation (S : Scheduler) (lvl : StaffingLevel)
    (Hcap : forall rule, In rule (paroHardCaps (monthlySchedulerConfig (config S))) -> calls rule <= 8) :
  validateGeneratedSchedule (generateSchedule S lvl) (residents S) = mkValidationResult true [].
Proof.
  unfold validateGeneratedSchedule. cbv zeta.
  rewrite fold_left_nil_stable; [reflexivity|].
  intros [rid count] Hin.
  destruct (find_first (fun r => String.eqb (id r) rid) (residents S)) as [r|] eqn:Ef; [|reflexivity].
  apply find_first_Some in Ef as [Hr Hid]. apply String.eqb_eq in Hid. subst rid.
  destruct (countCallsByResident_ok (generateSchedule S lvl)) as (_ & Hval & _).
  rewrite (Hval _ _ Hin).
  destruct (generateSchedule_cap_aux S lvl 8 Hcap (Z.le_refl 8) (id r)) as [H|H].
  - rewrite H. reflexivity.
  - pose proof (proj1 (initializeCallStats_nonneg S (id r))).
    destruct (8 <? Z.of_nat (length (callsOf (id r) (generateSchedule S lvl)))) eqn:E;
      [apply Z.ltb_lt in E; lia|reflexivity].
Qed.

Lemma fold_left_append {A B} (f : list B -> A -> list B) (g : A -> list B) (l : list A) (es : list B) :
  (forall es x, f es x = es ++ g x) -> fold_left f l es = es ++ flat_map g l.
Proof.
  intros Hf. revert es. induction l as [|x l IH]; intros es; cbn [fold_left flat_map].
  - symmetry. apply app_nil_r.
  - rewrite IH, Hf. symmetry. apply app_assoc.
Qed.

Lemma flat_map_nil_iff {A B} (g : A -> list B) (l : list A) :
  flat_map g l = [] <-> forall x, In x l -> g x = [].
Proof.
  induction l as [|x l IH]; cbn [flat_map]; [split; [intros _ y []|reflexivity]|].
  rewrite app_nil, IH. split.
  - intros [Hx Hl] y [<-|Hy]; [exact Hx|exact (Hl y Hy)].
  - intros H. split; [exact (H x (or_introl eq_refl))|intros y Hy; exact (H y (or_intror Hy))].
Qed.

(** [validateGeneratedSchedule] accepts an assignment list exactly when
    no listed resident has more than 8 non-PostCall assignments in it. *)
Theorem validateGeneratedSchedule_valid_iff (assignments : list CallAssignment) (residents : list Resident) :
  isValid (validateGeneratedSchedule assignments residents) = true <->
  forall r, In r residents -> (length (callsOf (id r) assignments) <= 8)%nat.
Proof.
  unfold validateGeneratedSchedule. cbv zeta. cbn [isValid].
  rewrite (fold_left_append _ (fun '(residentId, count) =>
      match find_first (fun r => String.eqb (id r) residentId) residents with
      | Some resident =>
          if 8 <? count
          then [("Resident " ++ name resident ++ " exceeds PARO limit with "
                 ++ Z_to_string count ++ " calls")%string]
          else []
      | None => []
      end)); [|intros es [k v]; destruct (find_first _ _); [destruct (8 <? v)|];
               [reflexivity|symmetry; apply app_nil_r|symmetry; apply app_nil_r]].
  cbn [app]. rewrite bool_decide_eq_true, flat_map_nil_iff.
  destruct (countCallsByResident_ok assignments) as (_ & Hval & Hkeys).
  split.
  - intros H r Hr.
    destruct (callsOf (id r) assignments) as [|c cs] eqn:Ec; [cbn [length]; lia|].
    assert (Hk : In (id r) (map fst (countCallsByResident assignments)))
      by (apply Hkeys; rewrite Ec; discriminate).
    apply in_map_iff in Hk as [[k v] [Hk Hin]]. cbn [fst] in Hk. subst k.
    pose proof (Hval _ _ Hin) as Hv. rewrite Ec in Hv.
    specialize (H _ Hin). cbv beta iota in H.
    destruct (find_first _ residents) as [r'|] eqn:Ef.
    + destruct (Z.ltb_spec 8 v) as [Hlt|Hge]; [discriminate|lia].
    + rewrite find_first_find in Ef.
      pose proof (find_none _ _ Ef r Hr) as Hn. cbv beta in Hn. rewrite String.eqb_refl in Hn.
      discriminate.
  - intros H [k v] Hin. cbv beta iota.
    destruct (find_first _ residents) as [r|] eqn:Ef; [|reflexivity].
    apply find_first_Some in Ef as [Hr Hid]. apply String.eqb_eq in Hid. subst k.
    rewrite (Hval _ _ Hin). specialize (H r Hr).
    destruct (Z.ltb_spec 8 (Z.of_nat (length (callsOf (id r) assignments)))); [lia|reflexivity].
Qed.

(* ================================================================= *)
(** ** Monthly generation: day by day *)

Lemma nonPostCalls_step (S : Scheduler) (out : list CallAssignment) (c : CallAssignment) (ct : CallType) :
  ca_type c <> PostCall ->
  nonPostCalls (out ++ [c] ++ createPostCallAssignments S c ct) = nonPostCalls out ++ [c].
Proof.
  intros Hc. unfold nonPostCalls. rewrite !List.filter_app. cbn [List.filter].
  rewrite (bool_decide_eq_false_2 _ Hc). cbn [negb].
  destruct (List.filter _ (createPostCallAssignments S c ct)) as [|x rest] eqn:E; [reflexivity|exfalso].
  assert (Hx : In x (List.filter (fun a => negb (bool_decide (ca_type a = PostCall)))
                       (createPostCallAssignments S c ct))) by (rewrite E; left; reflexivity).
  apply filter_In in Hx as [Hx Hf]. apply createPostCallAssignments_type in Hx.
  rewrite Hx in Hf. rewrite (bool_decide_eq_true_2 (PostCall = PostCall) eq_refl) in Hf. discriminate.
Qed.

(** The assignment [createCallAssignment] makes for a resident on a day. *)
Definition callFor (S : Scheduler) (dr : DayRequirements) (r : Resident) : CallAssignment :=
  createCallAssignment S r (dr_date dr) (dr_callType dr) (dr_isHoliday dr).

Lemma fill_shape (S : Scheduler) (lvl : StaffingLevel) (dr : DayRequirements) (out0 : list CallAssignment)
    (l : list nat) (acc : Stats * list Resident * list CallAssignment) :
  dr_callType dr <> PostCall ->
  nonPostCalls (snd acc) = nonPostCalls out0 ++ map (callFor S dr) (snd (fst acc)) ->
  NoDup (map id (snd (fst acc))) ->
  nonPostCalls (snd (fold_left (fun a _ => fillPosition S lvl dr a) l acc)) =
    nonPostCalls out0 ++ map (callFor S dr) (snd (fst (fold_left (fun a _ => fillPosition S lvl dr a) l acc))) /\
  NoDup (map id (snd (fst (fold_left (fun a _ => fillPosition S lvl dr a) l acc)))) /\
  (length (snd (fst (fold_left (fun a _ => fillPosition S lvl dr a) l acc))) <=
     length (snd (fst acc)) + length l)%nat.
Proof.
  intros Hpc. revert acc. induction l as [|k l IH]; intros [[st sel] out] Hout Hnd; cbn [fold_left].
  - cbn [fst snd length] in *. split; [exact Hout|split; [exact Hnd|lia]].
  - cbn [length].
    destruct (fillPosition S lvl dr (st, sel, out)) as [[st1 sel1] out1] eqn:Ef.
    assert (Hstep : nonPostCalls out1 = nonPostCalls out0 ++ map (callFor S dr) sel1 /\
                    NoDup (map id sel1) /\ (length sel1 <= 1 + length sel)%nat).
    { cbn [fst snd] in Hout, Hnd. unfold fillPosition in Ef. cbv zeta in Ef.
      destruct (selectBestResident S st (dr_date dr) (dr_callType dr) lvl (map id sel)) as [best|] eqn:Hsel.
      - injection Ef as <- <- <-. apply selectBestResident_spec in Hsel as (_ & Hex & _).
        split; [|split].
        + change (out ++ ?c :: ?p) with (out ++ [c] ++ p).
          rewrite nonPostCalls_step by exact Hpc. rewrite Hout, map_app, app_assoc. reflexivity.
        + rewrite map_app. apply NoDup_app. split; [exact Hnd|split].
          * intros x Hx1 Hx2. apply list_elem_of_singleton in Hx2. subst x. exact (Hex Hx1).
          * apply NoDup_singleton.
        + rewrite length_app. cbn [length]. lia.
      - injection Ef as <- <- <-. split; [exact Hout|split; [exact Hnd|lia]]. }
    destruct Hstep as (Ho & Hn & Hl).
    destruct (IH (st1, sel1, out1) Ho Hn) as (H1 & H2 & H3).
    split; [exact H1|split; [exact H2|]]. cbn [fst snd] in H3 |- *. lia.
Qed.

Lemma processDay_shape (S : Scheduler) (lvl : StaffingLevel) (acc : Stats * list CallAssignment)
    (dr : DayRequirements) :
  dr_callType dr <> PostCall ->
  exists sel, nonPostCalls (snd (processDay S lvl acc dr)) = nonPostCalls (snd acc) ++ map (callFor S dr) sel /\
    NoDup (map id sel) /\ (length sel <= Z.to_nat (getRequiredResidentCount (dr_callType dr)))%nat.
Proof.
  destruct acc as [st out]. intros Hpc. unfold processDay.
  destruct (bool_decide (dr_callType dr = NoCall)).
  - exists []. cbn [snd map]. rewrite app_nil_r. split; [reflexivity|split; [constructor|cbn [length]; lia]].
  - destruct (fill_shape S lvl dr out (seq 0 (Z.to_nat (getRequiredResidentCount (dr_callType dr))))
                (st, [], out) Hpc) as (H1 & H2 & H3); [cbn [snd fst map]; by rewrite app_nil_r|constructor|].
    cbv zeta. revert H1 H2 H3.
    destruct (fold_left _ _ _) as [[st' sel'] out']. cbn [fst snd]. intros H1 H2 H3.
    exists sel'. rewrite length_seq in H3. cbn [length] in H3. split; [exact H1|split; [exact H2|lia]].
Qed.

(** The day-level invariant of the generation loop over the processed days [P]. *)
Definition days_ok (S : Scheduler) (out : list CallAssignment) (P : list DayRequirements) : Prop :=
  (forall a, In a (nonPostCalls out) -> In (ca_date a) (map dr_date P)) /\
  NoDup (map (fun a => (ca_residentId a, ca_date a)) (nonPostCalls out)) /\
  (forall dr, In dr P ->
     (length (List.filter (fun a => Z.eqb (ca_date a) (dr_date dr)) (nonPostCalls out)) <=
        Z.to_nat (getRequiredResidentCount (dr_callType dr)))%nat).

Lemma filter_date_nil (x : Z) (l : list CallAssignment) :
  (forall a, In a l -> ca_date a <> x) -> List.filter (fun a => ca_date a =? x) l = [].
Proof.
  induction l as [|a l IH]; intros H; cbn [List.filter]; [reflexivity|].
  destruct (ca_date a =? x) eqn:E; [apply Z.eqb_eq in E; exfalso; exact (H a (or_introl eq_refl) E)|].
  apply IH. intros b Hb. exact (H b (or_intror Hb)).
Qed.

Lemma filter_date_all (x : Z) (l : list CallAssignment) :
  (forall a, In a l -> ca_date a = x) -> List.filter (fun a => ca_date a =? x) l = l.
Proof.
  induction l as [|a l IH]; intros H; cbn [List.filter]; [reflexivity|].
  rewrite (H a (or_introl eq_refl)), Z.eqb_refl. f_equal. apply IH. intros b Hb. exact (H b (or_intror Hb)).
Qed.

Lemma days_ok_step (S : Scheduler) (lvl : StaffingLevel) (acc : Stats * list CallAssignment)
    (P : list DayRequirements) (dr : DayRequirements) :
  dr_callType dr <> PostCall -> ~ In (dr_date dr) (map dr_date P) ->
  days_ok S (snd acc) P -> days_ok S (snd (processDay S lvl acc dr)) (P ++ [dr]).
Proof.
  intros Hpc Hfresh (Hd & Hnd & Hc).
  destruct (processDay_shape S lvl acc dr Hpc) as (sel & Hout & Hsel & Hlen).
  assert (Hnew : forall a, In a (map (callFor S dr) sel) -> ca_date a = dr_date dr).
  { intros a Ha. apply in_map_iff in Ha as (r & <- & _). reflexivity. }
  assert (Hold : forall a, In a (nonPostCalls (snd acc)) -> ca_date a <> dr_date dr).
  { intros a Ha E. apply Hfresh. rewrite <- E. exact (Hd a Ha). }
  unfold days_ok. rewrite Hout. split; [|split].
  - intros a Ha. rewrite map_app. apply in_or_app. apply in_app_or in Ha as [Ha|Ha].
    + left. exact (Hd a Ha).
    + right. left. exact (eq_sym (Hnew a Ha)).
  - rewrite map_app. apply NoDup_app. split; [exact Hnd|split].
    + intros [rid x] H1 H2. apply list_elem_of_In, in_map_iff in H1 as (a & Ea & Ha).
      apply list_elem_of_In, in_map_iff in H2 as (b & Eb & Hb).
      apply (Hold a Ha). rewrite Hnew in Eb by exact Hb. injection Ea as _ Ea. injection Eb as _ Eb.
      congruence.
    + rewrite map_map. cbn [callFor createCallAssignment ca_residentId ca_date].
      apply (NoDup_fmap_2_strong (fun i => (i, dr_date dr)) (map id sel)) in Hsel;
        [|intros x y _ _ [= E]; exact E].
      rewrite <- (map_map id (fun i => (i, dr_date dr))). exact Hsel.
  - intros dr' Hdr'. rewrite List.filter_app, length_app.
    apply in_app_or in Hdr' as [Hdr'|[<-|[]]].
    + assert (Hne : dr_date dr' <> dr_date dr).
      { intros E. apply Hfresh. rewrite <- E. apply in_map. exact Hdr'. }
      rewrite (filter_date_nil (dr_date dr') (map (callFor S dr) sel)).
      * cbn [length]. pose proof (Hc dr' Hdr'). lia.
      * intros a Ha E. rewrite (Hnew a Ha) in E. exact (Hne (eq_sym E)).
    + rewrite (filter_date_nil (dr_date dr) (nonPostCalls (snd acc)) Hold).
      rewrite (filter_date_all (dr_date dr) _ Hnew), length_map. cbn [length]. exact Hlen.
Qed.

Lemma mkDate_inj (y m d1 d2 : Z) : mkDate y m d1 = mkDate y m d2 -> d1 = d2.
Proof. unfold mkDate. lia. Qed.

Lemma NoDup_map_strong {A B} (f : A -> B) (l : list A) :
  (forall x y, In x l -> In y l -> f x = f y -> x = y) -> NoDup l -> NoDup (map f l).
Proof.
  induction l as [|x l IH]; intros Hinj Hnd; cbn [map]; [constructor|].
  apply NoDup_cons in Hnd as [Hx Hnd]. apply NoDup_cons. split.
  - intros Hin. apply list_elem_of_In, in_map_iff in Hin as (y & E & Hy).
    apply Hx, list_elem_of_In. rewrite <- (Hinj y x (or_intror Hy) (or_introl eq_refl) E). exact Hy.
  - apply IH; [|exact Hnd]. intros u v Hu Hv. exact (Hinj u v (or_intror Hu) (or_intror Hv)).
Qed.

Lemma dayRequirement_dates_NoDup (S : Scheduler) :
  NoDup (map dr_date (sortByPriority (calculateDayRequirements S (daysInMonth (year S) (month S))))).
Proof.
  apply NoDup_ListNoDup. eapply Permutation_NoDup.
  - apply Permutation_map, Permutation_sym, sortByPriority_perm.
  - apply NoDup_ListNoDup. unfold calculateDayRequirements. rewrite map_map.
    apply (NoDup_map_strong (fun d => dr_date (dayRequirementOf S d))); [|apply NoDup_range_incl].
    intros x y _ _ E. rewrite (proj1 (dayRequirementOf_fields S x)), (proj1 (dayRequirementOf_fields S y)) in E.
    exact (mkDate_inj _ _ _ _ E).
Qed.

Lemma days_ok_fold (S : Scheduler) (lvl : StaffingLevel) (L P : list DayRequirements)
    (acc : Stats * list CallAssignment) :
  NoDup (map dr_date (P ++ L)) -> (forall dr, In dr L -> dr_callType dr <> PostCall) ->
  days_ok S (snd acc) P -> days_ok S (snd (fold_left (processDay S lvl) L acc)) (P ++ L).
Proof.
  revert P acc. induction L as [|dr L IH]; intros P acc Hnd Hpc H0; cbn [fold_left].
  - rewrite app_nil_r. exact H0.
  - replace (P ++ dr :: L) with ((P ++ [dr]) ++ L) in * by (rewrite <- app_assoc; reflexivity).
    apply IH; [exact Hnd|intros x Hx; apply Hpc; by right|].
    apply days_ok_step; [apply Hpc; by left| |exact H0].
    rewrite !map_app in Hnd. apply NoDup_app in Hnd as (Hnd & _ & _). apply NoDup_app in Hnd as (_ & Hdis & _).
    intros Hin. apply (Hdis (dr_date dr)); apply list_elem_of_In; [exact Hin|by left].
Qed.

Lemma sorted_day_In (S : Scheduler) (dr : DayRequirements) :
  In dr (sortByPriority (calculateDayRequirements S (daysInMonth (year S) (month S)))) ->
  exists d, 1 <= d <= daysInMonth (year S) (month S) /\ dr = dayRequirementOf S d.
Proof.
  intros H. apply calculateDayRequirements_In. exact (proj1 (sortByPriority_In _ dr) H).
Qed.

Lemma sorted_day_not_postcall (S : Scheduler) (dr : DayRequirements) :
  In dr (sortByPriority (calculateDayRequirements S (daysInMonth (year S) (month S)))) ->
  dr_callType dr <> PostCall.
Proof.
  intros Hdr. destruct (sorted_day_In S dr Hdr) as (d & _ & ->). apply dayRequirementOf_not_postcall.
Qed.

Lemma days_ok_from_init (S : Scheduler) (lvl : StaffingLevel) (L : list DayRequirements) :
  NoDup (map dr_date L) -> (forall dr, In dr L -> dr_callType dr <> PostCall) ->
  days_ok S (snd (fold_left (processDay S lvl) L (initializeCallStats S, []))) L.
Proof.
  intros Hnd Hpc.
  assert (H0 : days_ok S (snd (initializeCallStats S, @nil CallAssignment)) []).
  { split; [intros a []|split; [constructor|intros dr []]]. }
  exact (days_ok_fold S lvl L [] (initializeCallStats S, []) Hnd Hpc H0).
Qed.

Lemma generateSchedule_days_ok (S : Scheduler) (lvl : StaffingLevel) :
  days_ok S (generateSchedule S lvl) (sortByPriority (calculateDayRequirements S (daysInMonth (year S) (month S)))).
Proof.
  exact (days_ok_from_init S lvl _ (dayRequirement_dates_NoDup S) (sorted_day_not_postcall S)).
Qed.

(** No double booking: [generateSchedule] never gives one resident two
    Night, Weekend or Holiday assignments on the same date. *)
Theorem generateSchedule_no_double_booking (S : Scheduler) (lvl : StaffingLevel) :
  NoDup (map (fun a => (ca_residentId a, ca_date a)) (nonPostCalls (generateSchedule S lvl))).
Proof. exact (proj1 (proj2 (generateSchedule_days_ok S lvl))). Qed.

Lemma generateSchedule_date_count (S : Scheduler) (lvl : StaffingLevel) (d : Z) :
  (length (List.filter (fun a => Z.eqb (ca_date a) (mkDate (year S) (month S) d))
             (nonPostCalls (generateSchedule S lvl))) <=
     Z.to_nat (getRequiredResidentCount (dr_callType (dayRequirementOf S d))))%nat.
Proof.
  destruct (generateSchedule_days_ok S lvl) as (Hd & _ & Hc).
  destruct (Z.le_gt_cases 1 d) as [H1|H1]; [destruct (Z.le_gt_cases d (daysInMonth (year S) (month S))) as [H2|H2]|].
  - rewrite <- (proj1 (dayRequirementOf_fields S d)). apply Hc.
    apply (proj2 (sortByPriority_In _ _)), calculateDayRequirements_In. exists d. split; [lia|reflexivity].
  - rewrite filter_date_nil; [cbn [length]; lia|].
    intros a Ha E. specialize (Hd a Ha). apply in_map_iff in Hd as (dr & Edr & Hdr).
    destruct (sorted_day_In S dr Hdr) as (d' & Hd' & ->).
    rewrite (proj1 (dayRequirementOf_fields S d')), E in Edr. apply mkDate_inj in Edr. lia.
  - rewrite filter_date_nil; [cbn [length]; lia|].
    intros a Ha E. specialize (Hd a Ha). apply in_map_iff in Hd as (dr & Edr & Hdr).
    destruct (sorted_day_In S dr Hdr) as (d' & Hd' & ->).
    rewrite (proj1 (dayRequirementOf_fields S d')), E in Edr. apply mkDate_inj in Edr. lia.
Qed.

(** Per-date coverage bound: on any date [generateSchedule] emits at most
    [getRequiredResidentCount] of that day's call type non-PostCall
    assignments: at most 2 on a holiday, at most 1 on another day. *)
Theorem generateSchedule_date_coverage_bound (S : Scheduler) (lvl : StaffingLevel) (d : Z) :
  (length (List.filter (fun a => Z.eqb (ca_date a) (mkDate (year S) (month S) d))
             (nonPostCalls (generateSchedule S lvl))) <=
     Z.to_nat (getRequiredResidentCount (dr_callType (dayRequirementOf S d))))%nat.
Proof. exact (generateSchedule_date_count S lvl d). Qed.

(** A day that is neither a holiday nor a configured weekend day and falls
    on a Friday, Saturday or Sunday gets call type None and no assignment:
    e.g. with [weekendDefinition = ["Saturday", "Sunday"]] every ordinary
    Friday is left without call coverage. *)
Theorem generateSchedule_uncovered_day (S : Scheduler) (lvl : StaffingLevel) (d : Z)
    (Hh : isHoliday S (mkDate (year S) (month S) d) = false)
    (Hw : isWeekend S (mkDate (year S) (month S) d) = false)
    (Hday : getDay (mkDate (year S) (month S) d) = 0 \/ getDay (mkDate (year S) (month S) d) = 5 \/
            getDay (mkDate (year S) (month S) d) = 6) :
  List.filter (fun a => Z.eqb (ca_date a) (mkDate (year S) (month S) d))
    (nonPostCalls (generateSchedule S lvl)) = [].
Proof.
  pose proof (generateSchedule_date_count S lvl d) as H.
  destruct (dayRequirementOf_fields S d) as (_ & _ & _ & _ & Hct).
  rewrite Hct, Hh, Hw in H.
  assert (Hn : ((1 <=? getDay (mkDate (year S) (month S) d)) && (getDay (mkDate (year S) (month S) d) <=? 4))
               = false) by (apply andb_false_iff; destruct Hday as [E|[E|E]]; rewrite E; [left|right|right]; reflexivity).
  rewrite Hn in H. cbn in H. apply length_zero_iff_nil. lia.
Qed.

(** Without a [weekendDefinition] the weekend is Friday to Sunday, so every
    day of the month gets a call type: Holiday on a holiday, Night from
    Monday to Thursday, Weekend from Friday to Sunday. *)
Theorem default_weekend_day_types (S : Scheduler) (d : Z)
    (Hnone : weekendDefinition (monthlySchedulerConfig (config S)) = None) :
  dr_callType (dayRequirementOf S d) =
    if isHoliday S (mkDate (year S) (month S) d) then Holiday
    else if (1 <=? getDay (mkDate (year S) (month S) d)) && (getDay (mkDate (year S) (month S) d) <=? 4)
    then Night else Weekend.
Proof.
  destruct (dayRequirementOf_fields S d) as (_ & _ & _ & _ & ->).
  set (D := mkDate (year S) (month S) d).
  assert (Hw : isWeekend S D = negb ((1 <=? getDay D) && (getDay D <=? 4))).
  { unfold isWeekend, weekdayName. rewrite Hnone. cbn [default].
    assert (Hr : getDay D = 0 \/ getDay D = 1 \/ getDay D = 2 \/ getDay D = 3 \/ getDay D = 4 \/
                 getDay D = 5 \/ getDay D = 6) by (unfold getDay; pose proof (Z.mod_pos_bound (D + 4) 7); lia).
    destruct Hr as [E|[E|[E|[E|[E|[E|E]]]]]]; rewrite E; vm_compute; reflexivity. }
  rewrite Hw. destruct (isHoliday S D); [reflexivity|].
  destruct ((1 <=? getDay D) && (getDay D <=? 4)); reflexivity.
Qed.

(* ================================================================= *)
(** ** Schedule metrics *)

Lemma countTypes_split (l : list CallAssignment) :
  (forall a, In a l -> ca_type a <> NoCall) ->
  Z.of_nat (length (List.filter (fun a => negb (bool_decide (ca_type a = PostCall))) l)) =
    countType Night l + countType Weekend l + countType Holiday l.
Proof.
  unfold countType. induction l as [|a l IH]; intros H; [reflexivity|].
  cbn [List.filter]. specialize (IH (fun b Hb => H b (or_intror Hb))).
  pose proof (H a (or_introl eq_refl)) as Ha.
  repeat case_bool_decide; cbn [negb length]; try congruence; destruct (ca_type a); congruence || lia.
Qed.

Lemma generateSchedule_no_NoCall (S : Scheduler) (lvl : StaffingLevel) (a : CallAssignment) :
  In a (generateSchedule S lvl) -> ca_type a <> NoCall.
Proof.
  intros Ha. destruct (decide (ca_type a = PostCall)) as [->|Hpc]; [discriminate|].
  destruct (generateSchedule_calls_made S lvl a Ha Hpc) as (r & d & st & _ & _ & Hct & _ & _ & ->).
  exact Hct.
Qed.

(** On a generated schedule the metrics' [totalCalls] is the sum of the
    Night, Weekend and Holiday totals: every non-PostCall assignment has one
    of these three types. *)
Theorem generateSchedule_metrics_type_totals (S : Scheduler) (lvl : StaffingLevel) :
  let m := calculateScheduleMetrics S (generateSchedule S lvl) in
  sm_totalCalls m = totalNightCalls m + totalWeekendCalls m + totalHolidayCalls m.
Proof.
  cbv zeta. cbn [calculateScheduleMetrics sm_totalCalls totalNightCalls totalWeekendCalls totalHolidayCalls].
  apply countTypes_split, generateSchedule_no_NoCall.
Qed.

(** [calculateCoverageRate] is a fraction between 0 and 1 for any
    assignment list. *)
Theorem coverageRate_range (S : Scheduler) (l : list CallAssignment) :
  (0 <= calculateCoverageRate S l <= 1)%Q.
Proof.
  unfold calculateCoverageRate. cbv zeta.
  set (dim := daysInMonth (year S) (month S)).
  set (c := Z.of_nat (length (List.filter _ (range_incl 1 dim)))).
  assert (Hc : 0 <= c /\ (c <= dim \/ c = 0)).
  { split; [lia|]. pose proof (List.filter_length_le (fun day => js_some (fun a =>
        negb (bool_decide (ca_type a = PostCall)) && (ca_date a =? mkDate (year S) (month S) day)) l)
        (range_incl 1 dim)) as Hle.
    rewrite length_range_incl in Hle. unfold c. lia. }
  destruct (Z.le_gt_cases dim 0) as [Hd|Hd].
  - assert (c = 0) as -> by lia. unfold Qdiv. rewrite Qmult_0_l. split; [apply Qle_refl|discriminate].
  - assert (Hq : (0 < inject_Z dim)%Q) by (change 0%Q with (inject_Z 0); rewrite <- Zlt_Qlt; lia).
    split.
    + apply Qle_shift_div_l; [exact Hq|]. rewrite Qmult_0_l. change 0%Q with (inject_Z 0).
      rewrite <- Zle_Qle. lia.
    + apply Qle_shift_div_r; [exact Hq|]. rewrite Qmult_1_l. rewrite <- Zle_Qle. lia.
Qed.

(* ================================================================= *)
(** ** Leave-request analyzer: recommendation, coverage and alternatives *)

(** [generateRecommendation] approves exactly when there is no conflict at
    all, the policy check passed, the coverage risk is not Medium, the
    fairness score is at least 40, and a High risk comes with a coverage
    ratio of at least one half: a High-risk request with ratio >= 0.5 and
    no other concern is approved. *)
Theorem generateRecommendation_approve_iff (f : Analyzer.FairnessAnalysis) (c : Analyzer.CoverageAnalysis)
    (cs : list Analyzer.ScheduleConflict) (p : Analyzer.PolicyCompliance) :
  Analyzer.generateRecommendation f c cs p = Analyzer.Approve <->
  cs = [] /\ Analyzer.isCompliant p = true /\ Analyzer.riskLevel c <> Analyzer.Medium /\
  40 <= Analyzer.fairness_score f /\
  (Analyzer.riskLevel c = Analyzer.High -> (1 # 2 <= Analyzer.coverageRatio c)%Q).
Proof.
  unfold Analyzer.generateRecommendation. cbv zeta.
  destruct (Analyzer.riskLevel c), (Analyzer.isCompliant p),
    (Qle_bool (1 # 2) (Analyzer.coverageRatio c)) eqn:Eq,
    (Analyzer.fairness_score f <? 40) eqn:Ef, (1 <? Z.of_nat (length (Analyzer.violations p)));
    (destruct cs as [|x cs']; [|destruct (bool_decide (List.filter _ (x :: cs') = []))]); cbn;
    split; intros H; try discriminate H;
    try (destruct H as (H1 & H2 & H3 & H4 & H5)); try discriminate;
    try (exfalso; apply Z.ltb_lt in Ef; lia);
    try (exfalso; apply H3; reflexivity);
    try (exfalso; specialize (H5 eq_refl); apply Qle_bool_iff in H5; congruence);
    repeat split; try discriminate; try (apply Z.ltb_ge in Ef; exact Ef);
    try (intros _; apply Qle_bool_iff; exact Eq).
Qed.

Lemma filter_nil_iff {A} (f : A -> bool) (l : list A) :
  List.filter f l = [] <-> forall x, In x l -> f x = false.
Proof.
  induction l as [|a l IH]; cbn [List.filter In]; [split; [intros _ x []|reflexivity]|].
  destruct (f a) eqn:E; split.
  - discriminate.
  - intros H. rewrite (H a (or_introl eq_refl)) in E. discriminate.
  - intros H x [<-|Hx]; [exact E|]. exact (proj1 IH H x Hx).
  - intros H. apply IH. intros x Hx. exact (H x (or_intror Hx)).
Qed.

(** [generateRecommendation] denies exactly when there is a High-severity
    conflict, or more than one policy violation, or a High coverage risk
    with a ratio below one half. *)
Theorem generateRecommendation_deny_iff (f : Analyzer.FairnessAnalysis) (c : Analyzer.CoverageAnalysis)
    (cs : list Analyzer.ScheduleConflict) (p : Analyzer.PolicyCompliance) :
  Analyzer.generateRecommendation f c cs p = Analyzer.Deny <->
  (exists x, In x cs /\ Analyzer.severity x = Analyzer.SevHigh) \/
  (Analyzer.isCompliant p = false /\ (1 < length (Analyzer.violations p))%nat) \/
  (Analyzer.riskLevel c = Analyzer.High /\ (Analyzer.coverageRatio c < 1 # 2)%Q).
Proof.
  unfold Analyzer.generateRecommendation. cbv zeta.
  assert (Hcrit : List.filter (fun x => bool_decide (Analyzer.severity x = Analyzer.SevHigh)) cs = [] <->
                  ~ exists x, In x cs /\ Analyzer.severity x = Analyzer.SevHigh).
  { rewrite filter_nil_iff. split.
    - intros H (x & Hx & Hs). specialize (H x Hx). rewrite bool_decide_eq_true_2 in H by exact Hs. discriminate.
    - intros H x Hx. apply bool_decide_eq_false_2. intros Hs. apply H. exists x. split; assumption. }
  destruct (bool_decide (List.filter _ cs = [])) eqn:E1; cbn [negb].
  - apply bool_decide_eq_true in E1. apply Hcrit in E1.
    destruct (negb (Analyzer.isCompliant p) && (1 <? Z.of_nat (length (Analyzer.violations p)))) eqn:E2.
    + split; [intros _; right; left|reflexivity].
      apply andb_true_iff in E2 as [E2a E2b]. apply negb_true_iff in E2a. apply Z.ltb_lt in E2b.
      split; [exact E2a|lia].
    + destruct (bool_decide (Analyzer.riskLevel c = Analyzer.High) &&
                negb (Qle_bool (1 # 2) (Analyzer.coverageRatio c))) eqn:E4.
      * split; [intros _; right; right|reflexivity].
        apply andb_true_iff in E4 as [E4a E4b]. apply bool_decide_eq_true in E4a. apply negb_true_iff in E4b.
        split; [exact E4a|]. apply Qnot_le_lt. intros Hq. apply Qle_bool_iff in Hq. congruence.
      * match goal with |- (if ?x then _ else if ?y then _ else _) = _ <-> _ => destruct x, y end;
          (split; [intros H; discriminate H|]); intros [H|[[Ha Hb]|[Ha Hb]]].
        all: try (exfalso; exact (E1 H)).
        all: try (rewrite Ha in E2; cbn [negb andb] in E2; apply Z.ltb_ge in E2; lia).
        all: rewrite Ha, bool_decide_eq_true_2 in E4 by reflexivity; cbn [andb] in E4;
             apply negb_false_iff, Qle_bool_iff in E4; exfalso; exact (Qlt_not_le _ _ Hb E4).
  - split; [intros _; left|reflexivity].
    apply bool_decide_eq_false in E1.
    destruct (List.filter (fun x => bool_decide (Analyzer.severity x = Analyzer.SevHigh)) cs) as [|x rest] eqn:Ef;
      [exfalso; exact (E1 eq_refl)|].
    assert (Hx : In x (List.filter (fun x => bool_decide (Analyzer.severity x = Analyzer.SevHigh)) cs))
      by (rewrite Ef; left; reflexivity).
    apply filter_In in Hx as [Hx Hs]. apply bool_decide_eq_true in Hs. exists x. split; assumption.
Qed.

(** [analyzeCoverageImpact] reports Low risk exactly when the coverage
    ratio is at least 0.8 and the range holds at most two weekend days. *)
Theorem analyzeCoverageImpact_low_iff (rc : list Resident) (lc : list LeaveRequest) (req : LeaveRequest) :
  let a := Analyzer.analyzeCoverageImpact rc lc req in
  Analyzer.riskLevel a = Analyzer.Low <->
  (8 # 10 <= Analyzer.coverageRatio a)%Q /\ (length (Analyzer.criticalDates a) <= 2)%nat.
Proof.
  cbv zeta. unfold Analyzer.analyzeCoverageImpact. cbv zeta.
  cbn [Analyzer.riskLevel Analyzer.coverageRatio Analyzer.criticalDates].
  set (ratio := (inject_Z _ / inject_Z _)%Q).
  set (crit := List.filter _ _).
  destruct (Qle_bool (8 # 10) ratio) eqn:E1, (Qle_bool (6 # 10) ratio) eqn:E2,
    (2 <? Z.of_nat (length crit)) eqn:E3, (4 <? Z.of_nat (length crit)) eqn:E4; cbn;
    try (apply Z.ltb_lt in E3); try (apply Z.ltb_ge in E3);
    try (apply Z.ltb_lt in E4); try (apply Z.ltb_ge in E4);
    split; intros H; try discriminate;
    try (match type of H with _ /\ _ => destruct H as [Ha Hb] end);
    try (apply Qle_bool_iff in Ha; congruence); try lia.
  all: split; [apply Qle_bool_iff; exact E1|lia].
Qed.

(** The test request of [findAlternativeDates] for a start date. *)
Definition shiftedRequest (request : LeaveRequest) (testStart : Z) : LeaveRequest :=
  {| lr_id := lr_id request; lr_residentId := lr_residentId request;
     lr_type := lr_type request; lr_status := lr_status request;
     lr_startDate := testStart; lr_endDate := testStart + LeaveAnalyzer.leaveDays request - 1 |}.

Lemma alternativesLoop_spec (rc : list Resident) (lc : list LeaveRequest) (req : LeaveRequest)
    (cur : Analyzer.CoverageAnalysis) (ss : Z) (is alts : list Z) :
  (length alts <= 2)%nat ->
  let res := LeaveAnalyzer.alternativesLoop rc lc req cur ss (LeaveAnalyzer.leaveDays req) is alts in
  (length res <= 3)%nat /\
  forall s, In s res -> In s alts \/
    (exists i, In i is /\ s = ss + i) /\
    (lr_endDate req < s \/ s + LeaveAnalyzer.leaveDays req - 1 < lr_startDate req) /\
    Analyzer.riskLevel (Analyzer.analyzeCoverageImpact rc lc (shiftedRequest req s)) = Analyzer.Low /\
    (Analyzer.coverageRatio cur < Analyzer.coverageRatio (Analyzer.analyzeCoverageImpact rc lc (shiftedRequest req s)))%Q.
Proof.
  revert alts. induction is as [|i is IH]; intros alts Hlen; cbv zeta; cbn [LeaveAnalyzer.alternativesLoop].
  - split; [lia|intros s Hs; left; exact Hs].
  - destruct ((ss + i <=? lr_endDate req) && (lr_startDate req <=? ss + i + LeaveAnalyzer.leaveDays req - 1))
      eqn:Eov.
    + destruct (IH alts Hlen) as [H1 H2]. split; [exact H1|].
      intros s Hs. destruct (H2 s Hs) as [H|(Hi & H)]; [by left|right].
      split; [destruct Hi as (j & Hj & ->); exists j; split; [by right|reflexivity]|exact H].
    + cbv zeta.
      match goal with |- context [Analyzer.analyzeCoverageImpact rc lc ?t] =>
        change t with (shiftedRequest req (ss + i)) end.
      set (ok := bool_decide (Analyzer.riskLevel (Analyzer.analyzeCoverageImpact rc lc (shiftedRequest req (ss + i)))
                                = Analyzer.Low) &&
                 Qltb (Analyzer.coverageRatio cur)
                   (Analyzer.coverageRatio (Analyzer.analyzeCoverageImpact rc lc (shiftedRequest req (ss + i))))).
      assert (Hnew : forall s, In s (if ok then alts ++ [ss + i] else alts) -> In s alts \/
        (exists i', In i' (i :: is) /\ s = ss + i') /\
        (lr_endDate req < s \/ s + LeaveAnalyzer.leaveDays req - 1 < lr_startDate req) /\
        Analyzer.riskLevel (Analyzer.analyzeCoverageImpact rc lc (shiftedRequest req s)) = Analyzer.Low /\
        (Analyzer.coverageRatio cur <
           Analyzer.coverageRatio (Analyzer.analyzeCoverageImpact rc lc (shiftedRequest req s)))%Q).
      { intros s Hs. destruct ok eqn:Eok; [|by left].
        apply in_app_or in Hs as [Hs|[<-|[]]]; [by left|right].
        apply andb_true_iff in Eok as [Ek1 Ek2]. apply bool_decide_eq_true in Ek1.
        split; [exists i; split; [left; reflexivity|reflexivity]|].
        split; [apply andb_false_iff in Eov as [E|E]; [apply Z.leb_gt in E; left; lia|
                                                     apply Z.leb_gt in E; right; lia]|].
        split; [exact Ek1|exact (Qltb_lt _ _ Ek2)]. }
      assert (Hl : (length (if ok then alts ++ [(ss + i)%Z] else alts) <= 3)%nat)
        by (destruct ok; [rewrite length_app; cbn [length]; lia|lia]).
      destruct ((3 <=? length (if ok then alts ++ [(ss + i)%Z] else alts))%nat) eqn:E3.
      * split; [exact Hl|exact Hnew].
      * apply Nat.leb_gt in E3.
        destruct (IH (if ok then alts ++ [ss + i] else alts) ltac:(lia)) as [H1 H2].
        split; [exact H1|]. intros s Hs. destruct (H2 s Hs) as [H|(Hi & H)].
        -- exact (Hnew s H).
        -- right. split; [destruct Hi as (j & Hj & ->); exists j; split; [by right|reflexivity]|exact H].
Qed.

(** [findAlternativeDates] returns at most three start dates, each within
    14 days before to 13 days after the requested start, whose shifted
    window does not overlap the request and has Low risk and a strictly
    better coverage ratio than the current one. *)
Theorem findAlternativeDates_spec (rc : list Resident) (lc : list LeaveRequest) (req : LeaveRequest)
    (cur : Analyzer.CoverageAnalysis) :
  let alts := LeaveAnalyzer.findAlternativeDates rc lc req cur in
  (length alts <= 3)%nat /\
  forall s, In s alts ->
    lr_startDate req - 14 <= s <= lr_startDate req + 13 /\
    (lr_endDate req < s \/ s + LeaveAnalyzer.leaveDays req - 1 < lr_startDate req) /\
    Analyzer.riskLevel (Analyzer.analyzeCoverageImpact rc lc (shiftedRequest req s)) = Analyzer.Low /\
    (Analyzer.coverageRatio cur < Analyzer.coverageRatio (Analyzer.analyzeCoverageImpact rc lc (shiftedRequest req s)))%Q.
Proof.
  cbv zeta. unfold LeaveAnalyzer.findAlternativeDates. cbv zeta.
  destruct (alternativesLoop_spec rc lc req cur (lr_startDate req - 14) (range_incl 0 27) [] ltac:(cbn; lia))
    as [H1 H2].
  split; [exact H1|]. intros s Hs. destruct (H2 s Hs) as [[]|((i & Hi & ->) & H)].
  apply range_incl_In in Hi. split; [lia|exact H].
Qed.

Lemma alternativesLoop_skip (rc : list Resident) (lc : list LeaveRequest) (req : LeaveRequest)
    (cur : Analyzer.CoverageAnalysis) (ss dur : Z) (is alts : list Z) :
  (forall i, In i is -> ((ss + i <=? lr_endDate req) && (lr_startDate req <=? ss + i + dur - 1)) = true) ->
  LeaveAnalyzer.alternativesLoop rc lc req cur ss dur is alts = alts.
Proof.
  induction is as [|i is IH]; intros H; cbn [LeaveAnalyzer.alternativesLoop]; [reflexivity|].
  rewrite (H i (or_introl eq_refl)). apply IH. intros j Hj. exact (H j (or_intror Hj)).
Qed.

(** A request of 15 days or more never gets alternative dates: every
    window within the +/- 14 day search overlaps the request itself. *)
Theorem findAlternativeDates_long_request (rc : list Resident) (lc : list LeaveRequest) (req : LeaveRequest)
    (cur : Analyzer.CoverageAnalysis) (Hlong : 15 <= LeaveAnalyzer.leaveDays req) :
  LeaveAnalyzer.findAlternativeDates rc lc req cur = [].
Proof.
  unfold LeaveAnalyzer.findAlternativeDates. cbv zeta. apply alternativesLoop_skip.
  intros i Hi. apply range_incl_In in Hi. unfold LeaveAnalyzer.leaveDays in *.
  apply andb_true_iff. split; apply Z.leb_le; lia.
Qed.

(* ================================================================= *)
(** ** Leave-request analyzer: fairness and policy *)

Lemma peer_adjust_antitone (c1 c2 : Q) (s1 s2 : Z) :
  (c1 <= c2)%Q -> s2 <= s1 ->
  (if Qltb (3 # 2) c2 then s2 - 20 else if Qltb (6 # 5) c2 then s2 - 10
   else if Qltb c2 (1 # 2) then s2 + 10 else s2) <=
  (if Qltb (3 # 2) c1 then s1 - 20 else if Qltb (6 # 5) c1 then s1 - 10
   else if Qltb c1 (1 # 2) then s1 + 10 else s1).
Proof.
  intros Hc Hs.
  destruct (Qltb (3 # 2) c2) eqn:A2; [apply Qltb_lt in A2|apply Qltb_false_le in A2];
  destruct (Qltb (6 # 5) c2) eqn:B2; try (apply Qltb_lt in B2); try (apply Qltb_false_le in B2);
  destruct (Qltb c2 (1 # 2)) eqn:C2; try (apply Qltb_lt in C2); try (apply Qltb_false_le in C2);
  destruct (Qltb (3 # 2) c1) eqn:A1; try (apply Qltb_lt in A1); try (apply Qltb_false_le in A1);
  destruct (Qltb (6 # 5) c1) eqn:B1; try (apply Qltb_lt in B1); try (apply Qltb_false_le in B1);
  destruct (Qltb c1 (1 # 2)) eqn:C1; try (apply Qltb_lt in C1); try (apply Qltb_false_le in C1);
  try lia; exfalso; lra.
Qed.

Lemma fold_sum_shift {A} (g : A -> Z) (l : list A) (a : Z) :
  fold_left (fun s x => s + g x) l a = a + fold_left (fun s x => s + g x) l 0.
Proof.
  revert a. induction l as [|x l IH]; intros a; cbn [fold_left]; [lia|].
  rewrite (IH (a + g x)), (IH (0 + g x)). lia.
Qed.

(** Recording one more approved leave of non-negative length in the
    resident's history never raises the fairness score of a request. *)
Theorem calculateFairness_more_leave (request : LeaveRequest) (hist : list LeaveRequest) (res : Resident)
    (peer : option Q) (l : LeaveRequest)
    (Hl : lr_status l = Approved) (Hd : 0 <= LeaveAnalyzer.leaveDays l) :
  LeaveAnalyzer.fr_score (LeaveAnalyzer.calculateFairness request (l :: hist) res peer) <=
  LeaveAnalyzer.fr_score (LeaveAnalyzer.calculateFairness request hist res peer).
Proof.
  unfold LeaveAnalyzer.calculateFairness. cbv zeta. cbn [LeaveAnalyzer.fr_score].
  cbn [List.filter]. rewrite (bool_decide_eq_true_2 _ Hl). cbn [fold_left].
  rewrite (fold_sum_shift LeaveAnalyzer.leaveDays _ (0 + LeaveAnalyzer.leaveDays l)).
  set (R := fold_left (fun s x => s + LeaveAnalyzer.leaveDays x)
              (List.filter (fun l => bool_decide (lr_status l = Approved)) hist) 0).
  set (P := match peer with Some q => if Qeq_bool q 0 then 10%Q else q | None => 10%Q end).
  set (R2 := 0 + LeaveAnalyzer.leaveDays l + R).
  assert (HR : R <= R2) by (unfold R2; lia).
  set (c1 := if Qltb 0 P then (inject_Z R / P)%Q else 1%Q).
  set (c2 := if Qltb 0 P then (inject_Z R2 / P)%Q else 1%Q).
  assert (Hc : (c1 <= c2)%Q).
  { unfold c1, c2. destruct (Qltb 0 P) eqn:EP; [|apply Qle_refl].
    apply Qltb_lt in EP. unfold Qdiv. apply Qmult_le_compat_r.
    - rewrite <- Zle_Qle. exact HR.
    - apply Qinv_le_0_compat. apply Qlt_le_weak. exact EP. }
  set (s1 := if 15 <? R then 100 - 30 else if 10 <? R then 100 - 20 else if 5 <? R then 100 - 10 else 100).
  set (s2 := if 15 <? R2 then 100 - 30 else if 10 <? R2 then 100 - 20 else if 5 <? R2 then 100 - 10 else 100).
  assert (Hs : s2 <= s1).
  { unfold s1, s2. destruct (Z.ltb_spec 15 R), (Z.ltb_spec 10 R), (Z.ltb_spec 5 R),
      (Z.ltb_spec 15 R2), (Z.ltb_spec 10 R2), (Z.ltb_spec 5 R2); lia. }
  pose proof (peer_adjust_antitone c1 c2 s1 s2 Hc Hs). lia.
Qed.

Lemma fold_sum_nonneg {A} (g : A -> Z) (l : list A) (a : Z) :
  (forall x, In x l -> 0 <= g x) -> a <= fold_left (fun s x => s + g x) l a.
Proof.
  revert a. induction l as [|x l IH]; intros a H; cbn [fold_left]; [lia|].
  pose proof (H x (or_introl eq_refl)).
  pose proof (IH (a + g x) (fun y Hy => H y (or_intror Hy))). lia.
Qed.

Lemma recommendation_two_violations (f : Analyzer.FairnessAnalysis) (c : Analyzer.CoverageAnalysis)
    (cs : list Analyzer.ScheduleConflict) (vs : list string) :
  (2 <= length vs)%nat ->
  Analyzer.generateRecommendation f c cs (Analyzer.mkPolicyCompliance (bool_decide (vs = [])) vs) =
    Analyzer.Deny.
Proof.
  intros Hlen.
  assert (Hne : vs <> []) by (intros E; rewrite E in Hlen; cbn in Hlen; lia).
  unfold Analyzer.generateRecommendation. cbv zeta. cbn [Analyzer.isCompliant Analyzer.violations].
  rewrite (bool_decide_eq_false_2 _ Hne). cbn [negb andb].
  destruct (negb (bool_decide (List.filter _ cs = []))); [reflexivity|].
  replace (1 <? Z.of_nat (length vs)) with true by (symmetry; apply Z.ltb_lt; lia). reflexivity.
Qed.

(** A request longer than both the maximum consecutive days and the
    annual limit of the leave policy violates two rules and is denied,
    whatever the conflicts, coverage and fairness, provided the recorded
    leaves have non-negative length. *)
Theorem long_request_denied (f : Analyzer.FairnessAnalysis) (c : Analyzer.CoverageAnalysis)
    (cs : list Analyzer.ScheduleConflict) (request : LeaveRequest) (hist : list LeaveRequest)
    (pol : option LeaveAnalyzer.LeavePolicy) (now : Z)
    (Hhist : forall l, In l hist -> 0 <= LeaveAnalyzer.leaveDays l)
    (Hmax : LeaveAnalyzer.policyValue pol LeaveAnalyzer.maxConsecutiveDays 14 < LeaveAnalyzer.leaveDays request)
    (Hlim : LeaveAnalyzer.policyValue pol LeaveAnalyzer.annualLimit 21 < LeaveAnalyzer.leaveDays request) :
  Analyzer.generateRecommendation f c cs (LeaveAnalyzer.checkPolicyCompliance request hist pol now) =
    Analyzer.Deny.
Proof.
  unfold LeaveAnalyzer.checkPolicyCompliance. cbv zeta.
  set (used := fold_left (fun s l => s + LeaveAnalyzer.leaveDays l) (List.filter _ hist) 0).
  assert (Hused : 0 <= used).
  { apply fold_sum_nonneg. intros x Hx. apply filter_In in Hx as [Hx _]. exact (Hhist x Hx). }
  assert (E2 : (LeaveAnalyzer.policyValue pol LeaveAnalyzer.maxConsecutiveDays 14 <?
                LeaveAnalyzer.leaveDays request) = true) by (apply Z.ltb_lt; exact Hmax).
  assert (E3 : (LeaveAnalyzer.policyValue pol LeaveAnalyzer.annualLimit 21 <?
                used + LeaveAnalyzer.leaveDays request) = true) by (apply Z.ltb_lt; lia).
  rewrite E2, E3. apply recommendation_two_violations.
  rewrite !length_app. cbn [length]. lia.
Qed.

(** The coverage ratio of [analyzeCoverageImpact] is always below 1,
    the requester being counted as absent; with no on-service
    neurosurgery resident the risk is High. *)
Theorem analyzeCoverageImpact_ratio_edge (rc : list Resident) (lc : list LeaveRequest) (req : LeaveRequest) :
  let a := Analyzer.analyzeCoverageImpact rc lc req in
  (Analyzer.coverageRatio a < 1)%Q /\
  (Analyzer.totalResidents a = 0 -> Analyzer.riskLevel a = Analyzer.High).
Proof.
  cbv zeta. unfold Analyzer.analyzeCoverageImpact. cbv zeta.
  cbn [Analyzer.riskLevel Analyzer.coverageRatio Analyzer.totalResidents].
  set (T := Z.of_nat (length (List.filter _ rc))).
  set (O := Z.of_nat (length (List.filter _ _))).
  assert (HT : 0 <= T) by (unfold T; lia).
  assert (HO : 0 <= O) by (unfold O; lia).
  split.
  - destruct (Z.eq_dec T 0) as [E|E].
    + rewrite E. unfold Qdiv, Qinv. cbn [inject_Z Qnum]. rewrite Qmult_0_r. reflexivity.
    + apply Qlt_shift_div_r; [change 0%Q with (inject_Z 0); rewrite <- Zlt_Qlt; lia|].
      rewrite Qmult_1_l. rewrite <- Zlt_Qlt. lia.
  - intros E. rewrite E.
    assert (Hr : Qle_bool (8 # 10) (inject_Z (0 - O - 1) / inject_Z 0) = false /\
                 Qle_bool (6 # 10) (inject_Z (0 - O - 1) / inject_Z 0) = false).
    { unfold Qdiv, Qinv. cbn [inject_Z Qnum]. rewrite Qmult_0_r. split; reflexivity. }
    destruct Hr as [-> ->].
    destruct (_ <? _); cbn [andb]; [|destruct (_ <? _); reflexivity].
    rewrite (bool_decide_eq_false_2 (Analyzer.High = Analyzer.Low)) by discriminate.
    cbn [andb]. destruct (_ <? _); reflexivity.
Qed.

Lemma length_filter_le' {A} (p : A -> bool) (l : list A) : (length (List.filter p l) <= length l)%nat.
Proof. exact (List.filter_length_le p l). Qed.

(** The historical approval rate computed by [calculateFairness] is a
    rate: it lies between 0 and 1. *)
Theorem calculateFairness_historicalRate_range (request : LeaveRequest) (hist : list LeaveRequest)
    (res : Resident) (peer : option Q) :
  let f := LeaveAnalyzer.calculateFairness request hist res peer in
  (0 <= LeaveAnalyzer.historicalRate f <= 1)%Q.
Proof.
  cbv zeta. unfold LeaveAnalyzer.calculateFairness. cbv zeta. cbn [LeaveAnalyzer.historicalRate].
  set (same := List.filter _ hist).
  destruct (Nat.ltb_spec 0 (length same)) as [Hlt|Hge].
  - pose proof (length_filter_le' (fun l => bool_decide (lr_status l = Approved)) same) as Hle.
    set (k := length (List.filter _ same)) in *.
    assert (Hpos : (0 < inject_Z (Z.of_nat (length same)))%Q)
      by (change 0%Q with (inject_Z 0); rewrite <- Zlt_Qlt; lia).
    split.
    + apply Qle_shift_div_l; [exact Hpos|]. rewrite Qmult_0_l.
      change 0%Q with (inject_Z 0). rewrite <- Zle_Qle. lia.
    + apply Qle_shift_div_r; [exact Hpos|]. rewrite Qmult_1_l. rewrite <- Zle_Qle. lia.
  - split; discriminate.
Qed.

(* ================================================================= *)
(** ** Yearly engine: the cells of the grid *)

(** The cell of the resident at index [i] in block [b] of a yearly grid. *)
Definition cellAt (g : Yearly.Grid) (b i : nat) : option (option RotationAssignment) :=
  match g !! b with Some row => row !! i | None => None end.

Definition filled (g : Yearly.Grid) (b i : nat) : Prop := exists ra, cellAt g b i = Some (Some ra).

Definition rotKey (ra : RotationAssignment) : string * RotationType :=
  (ra_residentId ra, rotationType ra).

Lemma lookup_map_opt {A B} (f : A -> B) (l : list A) (i : nat) :
  map f l !! i = option_map f (l !! i).
Proof. revert i. induction l as [|x l IH]; intros [|i]; try reflexivity. exact (IH i). Qed.

Lemma lookup_indexed {A} (l : list A) (k : nat) :
  Yearly.indexed l !! k = option_map (fun x => (x, k)) (l !! k).
Proof.
  unfold Yearly.indexed. destruct (l !! k) as [x|] eqn:E; cbn [option_map].
  - apply lookup_zip_Some. split; [exact E|]. apply lookup_seq.
    split; [lia|exact (lookup_lt_Some _ _ _ E)].
  - apply lookup_zip_None. left. exact E.
Qed.

Lemma In_indexed {A} (l : list A) (x : A) (k : nat) :
  In (x, k) (Yearly.indexed l) <-> l !! k = Some x.
Proof.
  rewrite <- list_elem_of_In, list_elem_of_lookup. split.
  - intros [j Hj]. rewrite lookup_indexed in Hj.
    destruct (l !! j) as [y|] eqn:E; cbn [option_map] in Hj; [|discriminate].
    injection Hj as Hy Hjk. subst. exact E.
  - intros H. exists k. rewrite lookup_indexed, H. reflexivity.
Qed.

Lemma In_omap_lookup (row : list (option RotationAssignment)) (i : nat) (a : RotationAssignment) :
  row !! i = Some (Some a) -> In a (omap (fun a => a) row).
Proof.
  intros H. apply list_elem_of_In, list_elem_of_omap. exists (Some a).
  split; [exact (list_elem_of_lookup_2 _ _ _ H)|reflexivity].
Qed.

(** Phase 6 changes the team of a cell and nothing else. *)
Lemma balancePass_keys (x y : Z) (row : list (option RotationAssignment)) :
  map (option_map rotKey) (Yearly.balancePass x y row) = map (option_map rotKey) row.
Proof.
  revert x y. induction row as [|[ra|] row IH]; intros x y; cbn [Yearly.balancePass];
    [reflexivity| |cbn [map option_map]; f_equal; apply IH].
  destruct (bool_decide _ && bool_decide _); [destruct (x <=? y)|];
    cbn [map option_map]; f_equal; apply IH.
Qed.

Lemma foldM_inv_in {A B} (P : B -> Prop) (f : B -> A -> option B) (l : list A) (b b' : B) :
  (forall b0 x b1, In x l -> P b0 -> f b0 x = Some b1 -> P b1) ->
  P b -> Yearly.foldM f l b = Some b' -> P b'.
Proof.
  revert b. induction l as [|x l IH]; intros b Hf Hb; cbn [Yearly.foldM].
  - intros H. injection H as <-. exact Hb.
  - destruct (f b x) as [b1|] eqn:E; [|discriminate].
    apply IH; [intros b0 y b2 Hy; apply Hf; right; exact Hy|].
    exact (Hf _ _ _ (or_introl eq_refl) Hb E).
Qed.

(** A fold that keeps [Pre], keeps each [Q y] and establishes [Q x] at
    the step on [x] ends with [Q x] for every element [x]. *)
Lemma foldM_establish {A B} (Pre : B -> Prop) (Q : A -> B -> Prop) (f : B -> A -> option B)
    (l : list A) (b b' : B) :
  (forall b0 x b1, In x l -> Pre b0 -> f b0 x = Some b1 -> Pre b1) ->
  (forall b0 x b1 y, In x l -> Pre b0 -> Q y b0 -> f b0 x = Some b1 -> Q y b1) ->
  (forall b0 x b1, In x l -> Pre b0 -> f b0 x = Some b1 -> Q x b1) ->
  Pre b -> Yearly.foldM f l b = Some b' -> Pre b' /\ forall x, In x l -> Q x b'.
Proof.
  revert b. induction l as [|x l IH]; intros b Hp Hq Hnew Hb; cbn [Yearly.foldM].
  - intros H. injection H as <-. split; [exact Hb|intros x []].
  - destruct (f b x) as [b1|] eqn:E; [|discriminate]. intros H.
    assert (Hb1 : Pre b1) by exact (Hp _ _ _ (or_introl eq_refl) Hb E).
    destruct (IH b1 (fun b0 y b2 Hy => Hp b0 y b2 (or_intror Hy))
                 (fun b0 y b2 z Hy => Hq b0 y b2 z (or_intror Hy))
                 (fun b0 y b2 Hy => Hnew b0 y b2 (or_intror Hy)) Hb1 H) as [Hpre Hall].
    split; [exact Hpre|]. intros y [<-|Hy]; [|exact (Hall y Hy)].
    exact (proj2 (foldM_inv_in (fun c => Pre c /\ Q x c) f l b1 b'
      (fun c z c' Hz HH Ec => conj (Hp _ _ _ (or_intror Hz) (proj1 HH) Ec)
                                   (Hq _ _ _ _ (or_intror Hz) (proj1 HH) (proj2 HH) Ec))
      (conj Hb1 (Hnew _ _ _ (or_introl eq_refl) Hb E)) H)).
Qed.

Lemma slot_step_cases (residents : list Resident) (g g' : Yearly.Grid) (blk : Z) (i : nat)
    (rn : string) (rt : RotationType) (hol : option HolidayType) (req : option bool) :
  match Yearly.isSlotEmpty g blk i with
  | None => None
  | Some false => Some g
  | Some true => Yearly.assign residents g blk i rn rt hol req
  end = Some g' ->
  (g' = g /\ Yearly.isSlotEmpty g blk i = Some false) \/
  Yearly.assign residents g blk i rn rt hol req = Some g'.
Proof.
  destruct (Yearly.isSlotEmpty g blk i) as [[|]|]; intros H;
    [right; exact H|left; injection H as <-; split; reflexivity|discriminate].
Qed.

Section YearlyCells.
Variable residents : list Resident.

(** Thirteen rows, one cell per resident in each. *)
Definition gridShape (g : Yearly.Grid) : Prop :=
  length g = 13%nat /\ forall b row, g !! b = Some row -> length row = length residents.

Definition cellOk (i : nat) (ra : RotationAssignment) : Prop :=
  exists r, residents !! i = Some r /\ ra_residentId ra = id r /\
            (rotationType ra = HOLIDAY_LEAVE -> 4 <= pgyLevel r).

Definition cellsOk (g : Yearly.Grid) : Prop :=
  forall b i ra, cellAt g b i = Some (Some ra) -> cellOk i ra.

Definition mandOnly (g : Yearly.Grid) : Prop :=
  forall b i ra, cellAt g b i = Some (Some ra) -> rotationType ra = MANDATORY_OFF_SERVICE.

Lemma assign_cases (g g' : Yearly.Grid) (block : Z) (ri : nat) (rn : string) (rt : RotationType)
    (hol : option HolidayType) (req : option bool) :
  Yearly.assign residents g block ri rn rt hol req = Some g' ->
  g' = g \/
  (0 <= block /\ exists row, g !! Z.to_nat block = Some row /\ row !! ri = Some None /\
    g' = <[Z.to_nat block := <[ri := Some (mkRotationAssignment
            (match residents !! ri with Some r => id r | None => ""%string end)
            rn rt None hol req)]> row]> g).
Proof.
  unfold Yearly.assign, Yearly.isSlotEmpty.
  destruct (Z.ltb_spec block 0) as [Hneg|Hnn]; [discriminate|].
  destruct (g !! Z.to_nat block) as [row|] eqn:Eg; [|discriminate].
  destruct (row !! ri) as [[ra|]|] eqn:Er; intros H; cbv beta iota zeta in H;
    injection H as <-; [left; reflexivity| |left; reflexivity].
  right. split; [lia|]. exists row. split; [reflexivity|]. split; [exact Er|]. reflexivity.
Qed.

Lemma assign_shape (g g' : Yearly.Grid) (block : Z) (ri : nat) (rn : string) (rt : RotationType)
    (hol : option HolidayType) (req : option bool) :
  gridShape g -> Yearly.assign residents g block ri rn rt hol req = Some g' -> gridShape g'.
Proof.
  intros [Hl Hr] H. apply assign_cases in H as [->|[_ [row [Eg [_ ->]]]]]; [split; assumption|].
  split; [rewrite length_insert; exact Hl|].
  intros b row' Hb. apply list_lookup_insert_Some in Hb as [[<- [<- _]]|[_ Hb]].
  - rewrite length_insert. exact (Hr _ _ Eg).
  - exact (Hr _ _ Hb).
Qed.

(** [assign] never overwrites a filled cell. *)
Lemma assign_keep (g g' : Yearly.Grid) (block : Z) (ri : nat) (rn : string) (rt : RotationType)
    (hol : option HolidayType) (req : option bool) (b i : nat) (ra : RotationAssignment) :
  Yearly.assign residents g block ri rn rt hol req = Some g' ->
  cellAt g b i = Some (Some ra) -> cellAt g' b i = Some (Some ra).
Proof.
  intros H. apply assign_cases in H as [->|[_ [row [Eg [Er ->]]]]]; [exact (fun Hc => Hc)|].
  unfold cellAt. intros Hc.
  destruct (decide (b = Z.to_nat block)) as [->|Hb].
  - rewrite Eg in Hc. rewrite list_lookup_insert_eq by exact (lookup_lt_Some _ _ _ Eg).
    destruct (decide (i = ri)) as [->|Hi]; [congruence|].
    rewrite list_lookup_insert_ne by congruence. exact Hc.
  - rewrite list_lookup_insert_ne by congruence. exact Hc.
Qed.

Lemma filled_keep (g g' : Yearly.Grid) (block : Z) (ri : nat) (rn : string) (rt : RotationType)
    (hol : option HolidayType) (req : option bool) (b i : nat) :
  Yearly.assign residents g block ri rn rt hol req = Some g' -> filled g b i -> filled g' b i.
Proof. intros H [ra Hra]. exists ra. exact (assign_keep _ _ _ _ _ _ _ _ _ _ _ H Hra). Qed.

(** A cell [assign] leaves filled was filled before, or is the new cell
    of the resident at its index, with the rotation type asked for. *)
Lemma assign_cell (g g' : Yearly.Grid) (block : Z) (ri : nat) (rn : string) (rt : RotationType)
    (hol : option HolidayType) (req : option bool) (b i : nat) (ra : RotationAssignment) :
  gridShape g -> Yearly.assign residents g block ri rn rt hol req = Some g' ->
  cellAt g' b i = Some (Some ra) ->
  cellAt g b i = Some (Some ra) \/
  (i = ri /\ exists r, residents !! i = Some r /\ ra = mkRotationAssignment (id r) rn rt None hol req).
Proof.
  intros [_ Hr] Ha. apply assign_cases in Ha as [->|[_ [row [Eg [Er ->]]]]]; [intros Hc; left; exact Hc|].
  unfold cellAt. destruct (decide (b = Z.to_nat block)) as [->|Hb].
  - rewrite list_lookup_insert_eq by exact (lookup_lt_Some _ _ _ Eg). rewrite Eg.
    intros Hc. apply list_lookup_insert_Some in Hc as [[<- [Hx Hlt]]|[_ Hc]]; [right|left; exact Hc].
    pose proof (Hr _ _ Eg) as Hlen.
    destruct (residents !! ri) as [r|] eqn:Ei; [|apply lookup_ge_None in Ei; lia].
    split; [reflexivity|]. exists r. split; [reflexivity|]. injection Hx as <-. reflexivity.
  - rewrite list_lookup_insert_ne by congruence. intros Hc; left; exact Hc.
Qed.

Lemma assign_cellsOk (g g' : Yearly.Grid) (block : Z) (ri : nat) (rn : string) (rt : RotationType)
    (hol : option HolidayType) (req : option bool) :
  gridShape g -> cellsOk g ->
  (rt = HOLIDAY_LEAVE -> forall r, residents !! ri = Some r -> 4 <= pgyLevel r) ->
  Yearly.assign residents g block ri rn rt hol req = Some g' -> cellsOk g'.
Proof.
  intros Hs Hc Hh H b i ra Hra.
  destruct (assign_cell _ _ _ _ _ _ _ _ _ _ _ Hs H Hra) as [Ho|[-> [r [Er ->]]]];
    [exact (Hc _ _ _ Ho)|].
  exists r. split; [exact Er|]. split; [reflexivity|]. intros Ht. exact (Hh Ht r Er).
Qed.

Lemma assign_mandOnly (g g' : Yearly.Grid) (block : Z) (ri : nat) (rn : string)
    (hol : option HolidayType) (req : option bool) :
  gridShape g -> mandOnly g ->
  Yearly.assign residents g block ri rn MANDATORY_OFF_SERVICE hol req = Some g' -> mandOnly g'.
Proof.
  intros Hs Hm H b i ra Hra.
  destruct (assign_cell _ _ _ _ _ _ _ _ _ _ _ Hs H Hra) as [Ho|[_ [r [_ ->]]]];
    [exact (Hm _ _ _ Ho)|reflexivity].
Qed.

(** Writing into a cell that exists leaves it filled. *)
Lemma assign_fills (g g' : Yearly.Grid) (block : Z) (ri : nat) (rn : string) (rt : RotationType)
    (hol : option HolidayType) (req : option bool) :
  gridShape g -> 0 <= block < 13 -> (ri < length residents)%nat ->
  Yearly.assign residents g block ri rn rt hol req = Some g' -> filled g' (Z.to_nat block) ri.
Proof.
  intros [Hl Hr] Hb Hi. unfold Yearly.assign, Yearly.isSlotEmpty.
  destruct (Z.ltb_spec block 0) as [Hneg|Hnn]; [lia|].
  destruct (lookup_lt_is_Some_2 g (Z.to_nat block)) as [row Eg]; [lia|]. rewrite Eg.
  destruct (lookup_lt_is_Some_2 row ri) as [c Er]; [rewrite (Hr _ _ Eg); exact Hi|]. rewrite Er.
  destruct c as [ra|]; intros H; cbv beta iota zeta in H; injection H as <-.
  - exists ra. unfold cellAt. rewrite Eg. exact Er.
  - eexists. unfold cellAt. rewrite list_lookup_insert_eq by exact (lookup_lt_Some _ _ _ Eg).
    change (default [] (Some row)) with row.
    rewrite list_lookup_insert_eq by exact (lookup_lt_Some _ _ _ Er). reflexivity.
Qed.

Lemma slot_false_filled (g : Yearly.Grid) (b i : nat) :
  gridShape g -> (i < length residents)%nat ->
  Yearly.isSlotEmpty g (Z.of_nat b) i = Some false -> filled g b i.
Proof.
  intros [_ Hr] Hi. unfold Yearly.isSlotEmpty.
  destruct (Z.ltb_spec (Z.of_nat b) 0) as [Hneg|Hnn]; [lia|]. rewrite Nat2Z.id.
  destruct (g !! b) as [row|] eqn:Eg; [|discriminate].
  destruct (row !! i) as [[ra|]|] eqn:Er; intros H; cbv beta iota in H.
  - exists ra. unfold cellAt. rewrite Eg. exact Er.
  - discriminate.
  - apply lookup_ge_None in Er. rewrite (Hr _ _ Eg) in Er. lia.
Qed.

Lemma rules_preserve (P : Yearly.Grid -> Prop) (rules : list RotationRule) (rt : RotationType)
    (g g' : Yearly.Grid) :
  (forall h h' block ri rn hol req, P h ->
     Yearly.assign residents h block ri rn rt hol req = Some h' -> P h') ->
  P g -> Yearly.assignRuleRotations residents rules rt g = Some g' -> P g'.
Proof.
  intros Ha Hg. unfold Yearly.assignRuleRotations. apply foldM_inv; [|exact Hg].
  intros h rule h' Hh. apply foldM_inv; [|exact Hh]. intros k [res idx] k' Hk.
  destruct (bool_decide _); [intros E; exact (Ha _ _ _ _ _ _ _ Hk E)|].
  intros H. injection H as <-. exact Hk.
Qed.

Lemma phase3_preserve (P : Yearly.Grid -> Prop) (g g' : Yearly.Grid) :
  (forall h h' block ri r rn hol req, residents !! ri = Some r -> 4 <= pgyLevel r -> P h ->
     Yearly.assign residents h block ri rn HOLIDAY_LEAVE hol req = Some h' -> P h') ->
  P g -> Yearly.phase3_AssignHolidayBlocks residents g = Some g' -> P g'.
Proof.
  intros Ha Hg. unfold Yearly.phase3_AssignHolidayBlocks. apply foldM_inv_in; [|exact Hg].
  intros h [[r ri] k] h' Hin Hh. unfold Yearly.indexed at 1 in Hin. apply In_zip_l in Hin.
  apply (Permutation_in _ (sort_by_perm _ _)) in Hin. apply filter_In in Hin as [Hin Hp].
  apply In_indexed in Hin. cbn [fst] in Hp. apply Z.leb_le in Hp. cbv beta iota zeta.
  destruct (Yearly.isSlotEmpty _ _ _) as [[|]|];
    [intros E; exact (Ha _ _ _ _ _ _ _ _ Hin Hp Hh E)|intros H; injection H as <-; exact Hh|discriminate].
Qed.

Lemma phase4_preserve (P : Yearly.Grid -> Prop) (g g' : Yearly.Grid) :
  (forall h h' block ri, P h ->
     Yearly.assign residents h block ri "Neurosurgery - Core"%string CORE_NSX None None = Some h' -> P h') ->
  P g -> Yearly.phase4_AssignCoreNeurosurgeryRotations residents g = Some g' -> P g'.
Proof.
  intros Ha Hg. unfold Yearly.phase4_AssignCoreNeurosurgeryRotations. apply foldM_inv; [|exact Hg].
  intros h blk h' Hh. apply foldM_inv; [|exact Hh]. intros k idx k' Hk E.
  apply slot_step_cases in E as [[-> _]|E]; [exact Hk|exact (Ha _ _ _ _ Hk E)].
Qed.

Lemma initialGrid_shape : gridShape (Yearly.initialGrid (length residents)).
Proof.
  split; [unfold Yearly.initialGrid; rewrite repeat_length; reflexivity|].
  intros b row Hb. unfold Yearly.initialGrid in Hb.
  apply list_elem_of_lookup_2, list_elem_of_In, repeat_spec in Hb. subst row.
  apply repeat_length.
Qed.

Lemma initialGrid_empty (b i : nat) (c : option RotationAssignment) :
  cellAt (Yearly.initialGrid (length residents)) b i = Some c -> c = None.
Proof.
  unfold cellAt. destruct (_ !! b) as [row|] eqn:Eb; [|discriminate].
  apply list_elem_of_lookup_2, list_elem_of_In, repeat_spec in Eb. subst row.
  intros Hc. apply list_elem_of_lookup_2, list_elem_of_In, repeat_spec in Hc. exact Hc.
Qed.

(** Phases 1 to 4 keep the shape of the grid, and every cell they fill
    holds the resident of its index; only seniors get holiday leave. *)
Lemma phases_grid_ok (config : AppConfiguration) (g1 g2 g3 g4 : Yearly.Grid) :
  Yearly.phase1_AssignMandatoryRotations residents config (Yearly.initialGrid (length residents)) = Some g1 ->
  Yearly.phase2_AssignExamBlocks residents config g1 = Some g2 ->
  Yearly.phase3_AssignHolidayBlocks residents g2 = Some g3 ->
  Yearly.phase4_AssignCoreNeurosurgeryRotations residents g3 = Some g4 ->
  (gridShape g3 /\ cellsOk g3) /\ (gridShape g4 /\ cellsOk g4).
Proof.
  intros E1 E2 E3 E4.
  assert (Hrules : forall rules rt g g', rt <> HOLIDAY_LEAVE -> gridShape g /\ cellsOk g ->
            Yearly.assignRuleRotations residents rules rt g = Some g' -> gridShape g' /\ cellsOk g').
  { intros rules rt g g' Hrt. apply (rules_preserve (fun g => gridShape g /\ cellsOk g)).
    intros h h' block ri rn hol req [Hs Hc] E.
    split; [exact (assign_shape _ _ _ _ _ _ _ _ Hs E)|].
    apply (assign_cellsOk h h' block ri rn rt hol req Hs Hc); [intros Ht; contradiction|exact E]. }
  assert (H0 : gridShape (Yearly.initialGrid (length residents)) /\
               cellsOk (Yearly.initialGrid (length residents))).
  { split; [exact initialGrid_shape|]. intros b i ra Hc. apply initialGrid_empty in Hc. discriminate. }
  unfold Yearly.phase1_AssignMandatoryRotations in E1.
  pose proof (Hrules _ MANDATORY_OFF_SERVICE _ _ ltac:(discriminate) H0 E1) as H1.
  unfold Yearly.phase2_AssignExamBlocks in E2.
  pose proof (Hrules _ EXAM_LEAVE _ _ ltac:(discriminate) H1 E2) as H2.
  assert (H3 : gridShape g3 /\ cellsOk g3).
  { refine (phase3_preserve (fun g => gridShape g /\ cellsOk g) g2 g3 _ H2 E3).
    intros h h' block ri r rn hol req Er Hp [Hs Hc] E.
    split; [exact (assign_shape _ _ _ _ _ _ _ _ Hs E)|].
    apply (assign_cellsOk h h' block ri rn HOLIDAY_LEAVE hol req Hs Hc); [|exact E].
    intros _ r' Er'. rewrite Er in Er'. injection Er' as <-. exact Hp. }
  split; [exact H3|].
  refine (phase4_preserve (fun g => gridShape g /\ cellsOk g) g3 g4 _ H3 E4).
  intros h h' block ri [Hs Hc] E. split; [exact (assign_shape _ _ _ _ _ _ _ _ Hs E)|].
  apply (assign_cellsOk h h' block ri "Neurosurgery - Core"%string CORE_NSX None None Hs Hc);
    [intros Ht; discriminate|exact E].
Qed.

(** Phase 4 fills every cell of the grid. *)
Lemma phase4_fills (g g' : Yearly.Grid) :
  gridShape g -> Yearly.phase4_AssignCoreNeurosurgeryRotations residents g = Some g' ->
  forall b i, (b < 13)%nat -> (i < length residents)%nat -> filled g' b i.
Proof.
  intros Hs E b i Hb Hi.
  unfold Yearly.phase4_AssignCoreNeurosurgeryRotations in E.
  change (Z.to_nat Yearly.BLOCKS_PER_YEAR) with 13%nat in E.
  assert (Hall : gridShape g' /\ forall blk, In blk (seq 0 13) ->
                   (fun blk c => forall j, (j < length residents)%nat -> filled c blk j) blk g').
  { revert E. apply (foldM_establish gridShape (fun blk c => forall j, (j < length residents)%nat -> filled c blk j)).
    - intros h blk h' _ Hh E. revert E. apply (foldM_inv gridShape); [|exact Hh].
      intros k j k' Hk Ek. apply slot_step_cases in Ek as [[-> _]|Ek];
        [exact Hk|exact (assign_shape _ _ _ _ _ _ _ _ Hk Ek)].
    - intros h blk h' y _ Hh Hy E j Hj. revert E.
      apply (foldM_inv (fun c => filled c y j)); [|exact (Hy j Hj)].
      intros k m k' Hk Ek. apply slot_step_cases in Ek as [[-> _]|Ek];
        [exact Hk|exact (filled_keep _ _ _ _ _ _ _ _ _ _ Ek Hk)].
    - intros h blk h' Hblk Hh E j Hj. apply in_seq in Hblk.
      assert (Hin : gridShape h' /\ forall m, In m (seq 0 (length residents)) -> filled h' blk m).
      { revert E. apply (foldM_establish gridShape (fun m c => filled c blk m)).
        + intros k m k' _ Hk Ek. apply slot_step_cases in Ek as [[-> _]|Ek];
            [exact Hk|exact (assign_shape _ _ _ _ _ _ _ _ Hk Ek)].
        + intros k m k' y _ Hk Hy Ek. apply slot_step_cases in Ek as [[-> _]|Ek];
            [exact Hy|exact (filled_keep _ _ _ _ _ _ _ _ _ _ Ek Hy)].
        + intros k m k' Hm Hk Ek. apply in_seq in Hm.
          apply slot_step_cases in Ek as [[-> Hf]|Ek].
          * exact (slot_false_filled k blk m Hk ltac:(lia) Hf).
          * pose proof (assign_fills k k' (Z.of_nat blk) m _ _ _ _ Hk ltac:(lia) ltac:(lia) Ek) as Hfill.
            rewrite Nat2Z.id in Hfill. exact Hfill.
        + exact Hh. }
      apply (proj2 Hin). apply in_seq. lia.
    - exact Hs. }
  apply (proj2 Hall); [apply in_seq; lia|exact Hi].
Qed.

(** What [generateYearlySchedule] returns, in terms of its last grid. *)
Lemma generate_grid (config : AppConfiguration) (aid : string) (ay : AcademicYear) :
  Yearly.generateYearlySchedule residents config aid = Some ay ->
  exists sy g4, Yearly.startYearOf aid = Some sy /\ gridShape g4 /\ cellsOk g4 /\
    (forall b i, (b < 13)%nat -> (i < length residents)%nat -> filled g4 b i) /\
    ay = Yearly.formatScheduleForFirestore aid sy (Yearly.phase6_BalanceTeams g4).
Proof.
  unfold Yearly.generateYearlySchedule.
  destruct (Yearly.startYearOf aid) as [sy|]; [|discriminate].
  destruct (Yearly.phase1_AssignMandatoryRotations _ _ _) as [g1|] eqn:E1; [|discriminate].
  destruct (Yearly.phase2_AssignExamBlocks _ _ _) as [g2|] eqn:E2; [|discriminate].
  destruct (Yearly.phase3_AssignHolidayBlocks _ _) as [g3|] eqn:E3; [|discriminate].
  destruct (Yearly.phase4_AssignCoreNeurosurgeryRotations _ _) as [g4|] eqn:E4; [|discriminate].
  intros H. injection H as <-.
  destruct (phases_grid_ok config g1 g2 g3 g4 E1 E2 E3 E4) as [[Hs3 _] [Hs4 Hc4]].
  exists sy, g4. split; [reflexivity|]. split; [exact Hs4|]. split; [exact Hc4|].
  split; [exact (phase4_fills g3 g4 Hs3 E4)|reflexivity].
Qed.

Definition rowRel (c : option RotationAssignment) (r : Resident) : Prop :=
  exists ra, c = Some ra /\ ra_residentId ra = id r /\
             (rotationType ra = HOLIDAY_LEAVE -> 4 <= pgyLevel r).

Lemma grid_rows (g : Yearly.Grid) (k : nat) (row : list (option RotationAssignment)) :
  gridShape g -> cellsOk g ->
  (forall b i, (b < 13)%nat -> (i < length residents)%nat -> filled g b i) ->
  g !! k = Some row -> Forall2 rowRel row residents.
Proof.
  intros Hs Hc Hf Ek. apply Forall2_same_length_lookup_2; [exact (proj2 Hs _ _ Ek)|].
  intros i c r Ei Er.
  assert (Hk : (k < 13)%nat) by (rewrite <- (proj1 Hs); exact (lookup_lt_Some _ _ _ Ek)).
  assert (Hi : (i < length residents)%nat) by exact (lookup_lt_Some _ _ _ Er).
  destruct (Hf k i Hk Hi) as [ra Hra]. unfold cellAt in Hra. rewrite Ek, Ei in Hra.
  injection Hra as ->.
  destruct (Hc k i ra) as (r' & Er' & Hid & Hhol); [unfold cellAt; rewrite Ek; exact Ei|].
  rewrite Er in Er'. injection Er' as <-. exists ra. split; [reflexivity|]. split; assumption.
Qed.

(** After phase 1 every resident listed by a mandatory rule has a
    mandatory off-service cell in that rule's block. *)
Lemma phase1_mandatory (config : AppConfiguration) (y : YearlySchedulerConfig)
    (rules : list RotationRule) (rule : RotationRule) (i : nat) (r : Resident) (g1 : Yearly.Grid) :
  yearlySchedulerConfig config = Some y -> mandatoryRotations y = Some rules -> In rule rules ->
  1 <= rule_blockNumber rule <= 13 -> residents !! i = Some r -> In (pgyLevel r) (pgyLevels rule) ->
  Yearly.phase1_AssignMandatoryRotations residents config (Yearly.initialGrid (length residents)) = Some g1 ->
  exists ra, cellAt g1 (Z.to_nat (rule_blockNumber rule - 1)) i = Some (Some ra) /\
             rotationType ra = MANDATORY_OFF_SERVICE.
Proof.
  intros Hy Hm Hrule Hbn Hr Hp E1.
  unfold Yearly.phase1_AssignMandatoryRotations in E1. rewrite Hy, Hm in E1.
  change (default [] (Some rules)) with rules in E1. unfold Yearly.assignRuleRotations in E1.
  set (Pre := fun g => gridShape g /\ mandOnly g).
  set (Qr := fun ru g => forall j r', residents !! j = Some r' -> In (pgyLevel r') (pgyLevels ru) ->
               1 <= rule_blockNumber ru <= 13 -> filled g (Z.to_nat (rule_blockNumber ru - 1)) j).
  assert (Hpre_step : forall h h' block m rn hol req, Pre h ->
            Yearly.assign residents h block m rn MANDATORY_OFF_SERVICE hol req = Some h' -> Pre h').
  { intros h h' block m rn hol req [Hs Hmo] E. split;
      [exact (assign_shape _ _ _ _ _ _ _ _ Hs E)|exact (assign_mandOnly _ _ _ _ _ _ _ Hs Hmo E)]. }
  assert (Hpre_rule : forall ru h h', Pre h ->
            Yearly.foldM (fun g '(resident, resIndex) =>
              if bool_decide (pgyLevel resident ∈ pgyLevels ru)
              then Yearly.assign residents g (rule_blockNumber ru - 1) resIndex
                     (rule_rotationName ru) MANDATORY_OFF_SERVICE None (Some true)
              else Some g) (Yearly.indexed residents) h = Some h' -> Pre h').
  { intros ru h h' Hh. apply (foldM_inv Pre); [|exact Hh]. intros k [res m] k' Hk.
    destruct (bool_decide _); [exact (Hpre_step _ _ _ _ _ _ _ Hk)|intros H; injection H as <-; exact Hk]. }
  assert (Hfill_rule : forall ru h h' b j, filled h b j ->
            Yearly.foldM (fun g '(resident, resIndex) =>
              if bool_decide (pgyLevel resident ∈ pgyLevels ru)
              then Yearly.assign residents g (rule_blockNumber ru - 1) resIndex
                     (rule_rotationName ru) MANDATORY_OFF_SERVICE None (Some true)
              else Some g) (Yearly.indexed residents) h = Some h' -> filled h' b j).
  { intros ru h h' b j Hh. apply (foldM_inv (fun c => filled c b j)); [|exact Hh].
    intros k [res m] k' Hk.
    destruct (bool_decide _); [intros E; exact (filled_keep _ _ _ _ _ _ _ _ _ _ E Hk)|].
    intros H; injection H as <-; exact Hk. }
  assert (Hall : Pre g1 /\ forall ru, In ru rules -> Qr ru g1).
  { revert E1. apply (foldM_establish Pre Qr).
    - intros h ru h' _ Hh E. exact (Hpre_rule ru h h' Hh E).
    - intros h ru h' ru' _ Hh Hq E j r' Ej Hpj Hbj. exact (Hfill_rule ru h h' _ _ (Hq j r' Ej Hpj Hbj) E).
    - intros h ru h' _ Hh E j r' Ej Hpj Hbj.
      assert (Hin : Pre h' /\ forall x, In x (Yearly.indexed residents) ->
                 (fun x c => residents !! snd x = Some (fst x) -> In (pgyLevel (fst x)) (pgyLevels ru) ->
                    filled c (Z.to_nat (rule_blockNumber ru - 1)) (snd x)) x h').
      { revert E. apply (foldM_establish Pre (fun x c => residents !! snd x = Some (fst x) ->
                    In (pgyLevel (fst x)) (pgyLevels ru) -> filled c (Z.to_nat (rule_blockNumber ru - 1)) (snd x))).
        + intros k [res m] k' _ Hk. destruct (bool_decide _);
            [exact (Hpre_step _ _ _ _ _ _ _ Hk)|intros H; injection H as <-; exact Hk].
        + intros k [res m] k' [res' m'] _ Hk Hq Ek Er' Hp'. specialize (Hq Er' Hp').
          revert Ek. destruct (bool_decide _);
            [intros E; exact (filled_keep _ _ _ _ _ _ _ _ _ _ E Hq)|intros H; injection H as <-; exact Hq].
        + intros k [res m] k' _ [Hk _] Ek Er' Hp'. cbn [fst snd] in Er', Hp'.
          rewrite (bool_decide_eq_true_2 _ (proj2 (list_elem_of_In _ _) Hp')) in Ek.
          exact (assign_fills k k' (rule_blockNumber ru - 1) m _ _ _ _ Hk ltac:(lia)
                   (lookup_lt_Some _ _ _ Er') Ek).
        + exact Hh. }
      exact (proj2 Hin (r', j) (proj2 (In_indexed _ _ _) Ej) Ej Hpj).
    - split; [exact initialGrid_shape|].
      intros b' i' ra Hc. apply initialGrid_empty in Hc. discriminate. }
  destruct Hall as [[_ Hmo] Hq]. destruct (Hq rule Hrule i r Hr Hp Hbn) as [ra Hra].
  exists ra. split; [exact Hra|exact (Hmo _ _ _ Hra)].
Qed.
End YearlyCells.

Lemma format_blocks_lookup (aid : string) (sy : Z) (g : Yearly.Grid) (k : nat) :
  blocks (Yearly.formatScheduleForFirestore aid sy g) !! k =
  option_map (fun row => mkRotationBlock (Z.of_nat k + 1) (mkDate sy 6 1 + 28 * Z.of_nat k)
     (mkDate sy 6 1 + 28 * Z.of_nat k + 28 - 1) (omap (fun a => a) row)) (g !! k).
Proof.
  unfold Yearly.formatScheduleForFirestore. cbn [blocks].
  rewrite lookup_map_opt, lookup_indexed. destruct (g !! k); reflexivity.
Qed.

Lemma balancePass_rel (x y : Z) (row : list (option RotationAssignment)) (L : list Resident) :
  Forall2 rowRel row L -> Forall2 rowRel (Yearly.balancePass x y row) L.
Proof.
  intros H. revert x y. induction H as [|c r row L Hcr _ IH]; intros x y; [constructor|].
  destruct Hcr as (ra & -> & Hid & Hhol). cbn [Yearly.balancePass].
  destruct (_ && _); [destruct (x <=? y)|]; constructor; try apply IH;
    eexists; split; [reflexivity| |reflexivity| |reflexivity|]; exact (conj Hid Hhol).
Qed.

Lemma omap_rel_ids (row : list (option RotationAssignment)) (L : list Resident) :
  Forall2 rowRel row L -> map ra_residentId (omap (fun a => a) row) = map id L.
Proof.
  induction 1 as [|c r row L (ra & -> & Hid & _) _ IH]; [reflexivity|].
  change (omap (fun a => a) (Some ra :: row)) with (ra :: omap (fun a : option RotationAssignment => a) row).
  cbn [map]. rewrite Hid, IH. reflexivity.
Qed.

Lemma omap_rel_holiday (row : list (option RotationAssignment)) (L : list Resident)
    (a : RotationAssignment) :
  Forall2 rowRel row L -> In a (omap (fun a => a) row) -> rotationType a = HOLIDAY_LEAVE ->
  exists r, In r L /\ id r = ra_residentId a /\ 4 <= pgyLevel r.
Proof.
  induction 1 as [|c r row L (ra & -> & Hid & Hhol) _ IH]; [intros []|].
  change (omap (fun a => a) (Some ra :: row)) with (ra :: omap (fun a : option RotationAssignment => a) row).
  intros [<-|Hin] Ht.
  - exists r. split; [left; reflexivity|]. split; [symmetry; exact Hid|exact (Hhol Ht)].
  - destruct (IH Hin Ht) as (r' & Hr' & Hid' & Hp'). exists r'. split; [right; exact Hr'|auto].
Qed.

(** The academic year produced by the yearly engine carries its id and
    thirteen blocks, numbered 1 to 13, block [k + 1] running for 28 days
    from day [28 k] after July 1 of the first year of the id. *)
Theorem yearly_block_calendar (residents : list Resident) (config : AppConfiguration)
    (aid : string) (ay : AcademicYear) :
  Yearly.generateYearlySchedule residents config aid = Some ay ->
  ay_id ay = aid /\ exists sy, Yearly.startYearOf aid = Some sy /\ length (blocks ay) = 13%nat /\
  forall k b, blocks ay !! k = Some b ->
    blockNumber b = Z.of_nat k + 1 /\ startDate b = mkDate sy 6 1 + 28 * Z.of_nat k /\
    endDate b = startDate b + 27.
Proof.
  intros H. destruct (generate_grid residents config aid ay H) as (sy & g4 & Esy & [Hl _] & _ & _ & ->).
  split; [reflexivity|]. exists sy. split; [exact Esy|]. split.
  - unfold Yearly.formatScheduleForFirestore, Yearly.phase6_BalanceTeams, Yearly.indexed.
    cbn [blocks]. rewrite length_map, length_zip, length_seq, length_map. lia.
  - intros k b Hb. rewrite format_blocks_lookup in Hb.
    destruct (Yearly.phase6_BalanceTeams g4 !! k); cbn [option_map] in Hb; [|discriminate].
    injection Hb as <-. cbn [blockNumber startDate endDate]. lia.
Qed.

(** In every block of the academic year produced by the yearly engine,
    the assignments list each resident once, in the order of the
    residents list: every resident has exactly one rotation per block. *)
Theorem yearly_every_resident_every_block (residents : list Resident) (config : AppConfiguration)
    (aid : string) (ay : AcademicYear) :
  Yearly.generateYearlySchedule residents config aid = Some ay ->
  forall b, In b (blocks ay) -> map ra_residentId (assignments b) = map id residents.
Proof.
  intros H b Hb. destruct (generate_grid residents config aid ay H) as (sy & g4 & _ & Hs & Hc & Hf & ->).
  apply list_elem_of_In, list_elem_of_lookup in Hb as [k Hk].
  rewrite format_blocks_lookup in Hk. unfold Yearly.phase6_BalanceTeams in Hk.
  rewrite lookup_map_opt in Hk.
  destruct (g4 !! k) as [row|] eqn:Ek; cbn [option_map] in Hk; [|discriminate].
  injection Hk as <-. cbn [assignments]. apply omap_rel_ids. unfold Yearly.balanceBlock.
  apply balancePass_rel. exact (grid_rows residents g4 k row Hs Hc Hf Ek).
Qed.

(** Every holiday-leave assignment of the yearly engine belongs to a
    resident of PGY level 4 or more. *)
Theorem yearly_holiday_leave_seniors (residents : list Resident) (config : AppConfiguration)
    (aid : string) (ay : AcademicYear) :
  Yearly.generateYearlySchedule residents config aid = Some ay ->
  forall b a, In b (blocks ay) -> In a (assignments b) -> rotationType a = HOLIDAY_LEAVE ->
  exists r, In r residents /\ id r = ra_residentId a /\ 4 <= pgyLevel r.
Proof.
  intros H b a Hb Ha Ht.
  destruct (generate_grid residents config aid ay H) as (sy & g4 & _ & Hs & Hc & Hf & ->).
  apply list_elem_of_In, list_elem_of_lookup in Hb as [k Hk].
  rewrite format_blocks_lookup in Hk. unfold Yearly.phase6_BalanceTeams in Hk.
  rewrite lookup_map_opt in Hk.
  destruct (g4 !! k) as [row|] eqn:Ek; cbn [option_map] in Hk; [|discriminate].
  injection Hk as <-. cbn [assignments] in Ha. unfold Yearly.balanceBlock in Ha.
  exact (omap_rel_holiday _ _ a (balancePass_rel _ _ _ _ (grid_rows residents g4 k row Hs Hc Hf Ek)) Ha Ht).
Qed.

(** A mandatory rotation rule of the configuration for a block between 1
    and 13 gives every resident whose PGY level it lists a mandatory
    off-service assignment in that block of the yearly schedule. *)
Theorem yearly_mandatory_rotation (residents : list Resident) (config : AppConfiguration)
    (aid : string) (ay : AcademicYear) (y : YearlySchedulerConfig) (rules : list RotationRule)
    (rule : RotationRule) (i : nat) (r : Resident)
    (Hy : yearlySchedulerConfig config = Some y) (Hm : mandatoryRotations y = Some rules)
    (Hrule : In rule rules) (Hbn : 1 <= rule_blockNumber rule <= 13)
    (Hr : residents !! i = Some r) (Hp : In (pgyLevel r) (pgyLevels rule))
    (H : Yearly.generateYearlySchedule residents config aid = Some ay) :
  exists b a, blocks ay !! Z.to_nat (rule_blockNumber rule - 1) = Some b /\
    blockNumber b = rule_blockNumber rule /\ In a (assignments b) /\
    ra_residentId a = id r /\ rotationType a = MANDATORY_OFF_SERVICE.
Proof.
  revert H. unfold Yearly.generateYearlySchedule.
  destruct (Yearly.startYearOf aid) as [sy|]; [|discriminate].
  destruct (Yearly.phase1_AssignMandatoryRotations _ _ _) as [g1|] eqn:E1; [|discriminate].
  destruct (Yearly.phase2_AssignExamBlocks _ _ _) as [g2|] eqn:E2; [|discriminate].
  destruct (Yearly.phase3_AssignHolidayBlocks _ _) as [g3|] eqn:E3; [|discriminate].
  destruct (Yearly.phase4_AssignCoreNeurosurgeryRotations _ _) as [g4|] eqn:E4; [|discriminate].
  intros H. injection H as <-.
  destruct (phase1_mandatory residents config y rules rule i r g1 Hy Hm Hrule Hbn Hr Hp E1)
    as [ra [Hra Hmand]].
  set (bk := Z.to_nat (rule_blockNumber rule - 1)) in *.
  pose (P := fun g => cellAt g bk i = Some (Some ra)).
  assert (Hkeep : forall h h' block ri rn rt hol req, P h ->
            Yearly.assign residents h block ri rn rt hol req = Some h' -> P h').
  { intros h h' block ri rn rt hol req Hh E. exact (assign_keep _ _ _ _ _ _ _ _ _ _ _ _ E Hh). }
  unfold Yearly.phase2_AssignExamBlocks in E2.
  pose proof (rules_preserve residents P _ _ g1 g2 (fun h h' block ri rn hol req => Hkeep h h' block ri rn _ hol req) Hra E2) as H2.
  pose proof (phase3_preserve residents P g2 g3 (fun h h' block ri _ rn hol req _ _ => Hkeep h h' block ri rn _ hol req) H2 E3) as H3.
  pose proof (phase4_preserve residents P g3 g4 (fun h h' block ri => Hkeep h h' block ri _ _ _ _) H3 E4) as H4.
  destruct (phases_grid_ok residents config g1 g2 g3 g4 E1 E2 E3 E4) as [_ [_ Hc4]].
  destruct (Hc4 _ _ _ H4) as (r' & Er' & Hid & _). rewrite Hr in Er'. injection Er' as <-.
  unfold P, cellAt in H4. destruct (g4 !! bk) as [row|] eqn:Ek; [|discriminate].
  pose proof (f_equal (fun l => l !! i) (balancePass_keys (Yearly.countTeam Red row)
                (Yearly.countTeam Blue row) row)) as Hkey.
  cbv beta in Hkey. rewrite !lookup_map_opt, H4 in Hkey.
  destruct (Yearly.balancePass _ _ row !! i) as [[ra'|]|] eqn:Eb; cbn [option_map] in Hkey;
    try discriminate.
  unfold rotKey in Hkey. injection Hkey as Hid' Ht'.
  exists (mkRotationBlock (Z.of_nat bk + 1) (mkDate sy 6 1 + 28 * Z.of_nat bk)
            (mkDate sy 6 1 + 28 * Z.of_nat bk + 28 - 1)
            (omap (fun a => a) (Yearly.balanceBlock row))), ra'.
  split; [rewrite format_blocks_lookup; unfold Yearly.phase6_BalanceTeams;
          rewrite lookup_map_opt, Ek; reflexivity|].
  split; [cbn [blockNumber]; unfold bk; lia|].
  split; [exact (In_omap_lookup _ i ra' Eb)|].
  split; [rewrite Hid'; exact Hid|rewrite Ht'; exact Hmand].
Qed.

Lemma balancePass_tags (x y : Z) (row : list (option RotationAssignment)) (a : RotationAssignment) :
  untaggedRow row -> In a (omap (fun a => a) (Yearly.balancePass x y row)) ->
  (team a <> None <-> rotationType a = CORE_NSX).
Proof.
  intros Hrow. revert x y. induction Hrow as [|[ra|] row Hra _ IH]; intros x y; cbn [Yearly.balancePass].
  - intros [].
  - rewrite Hra, (bool_decide_eq_true_2 (None = None) eq_refl), andb_true_r.
    destruct (bool_decide (rotationType ra = CORE_NSX)) eqn:Ecore; [destruct (x <=? y)|].
    + change (omap (fun a => a) (Some {| ra_residentId := ra_residentId ra; rotationName := rotationName ra;
               rotationType := rotationType ra; team := Some Red; holidayType := holidayType ra;
               required := required ra |} :: Yearly.balancePass (x + 1) y row)) with
        ({| ra_residentId := ra_residentId ra; rotationName := rotationName ra;
            rotationType := rotationType ra; team := Some Red; holidayType := holidayType ra;
            required := required ra |} :: omap (fun a : option RotationAssignment => a)
                                            (Yearly.balancePass (x + 1) y row)).
      intros [<-|Hin]; [|exact (IH _ _ Hin)].
      apply bool_decide_eq_true_1 in Ecore. cbn [team rotationType]. split; [intros _; exact Ecore|discriminate].
    + change (omap (fun a => a) (Some {| ra_residentId := ra_residentId ra; rotationName := rotationName ra;
               rotationType := rotationType ra; team := Some Blue; holidayType := holidayType ra;
               required := required ra |} :: Yearly.balancePass x (y + 1) row)) with
        ({| ra_residentId := ra_residentId ra; rotationName := rotationName ra;
            rotationType := rotationType ra; team := Some Blue; holidayType := holidayType ra;
            required := required ra |} :: omap (fun a : option RotationAssignment => a)
                                            (Yearly.balancePass x (y + 1) row)).
      intros [<-|Hin]; [|exact (IH _ _ Hin)].
      apply bool_decide_eq_true_1 in Ecore. cbn [team rotationType]. split; [intros _; exact Ecore|discriminate].
    + change (omap (fun a => a) (Some ra :: Yearly.balancePass x y row)) with
        (ra :: omap (fun a : option RotationAssignment => a) (Yearly.balancePass x y row)).
      intros [<-|Hin]; [|exact (IH _ _ Hin)].
      apply bool_decide_eq_false_1 in Ecore. rewrite Hra. split; [intros H; contradiction|intros H; contradiction].
  - exact (IH x y).
Qed.

(** In a yearly schedule an assignment carries a team exactly when it is
    a CORE_NSX rotation: phase 6 tags every core rotation and nothing
    else. *)
Theorem yearly_team_tags (residents : list Resident) (config : AppConfiguration)
    (aid : string) (ay : AcademicYear) :
  Yearly.generateYearlySchedule residents config aid = Some ay ->
  forall b a, In b (blocks ay) -> In a (assignments b) ->
  (team a <> None <-> rotationType a = CORE_NSX).
Proof.
  unfold Yearly.generateYearlySchedule.
  destruct (Yearly.startYearOf aid) as [sy|]; [|discriminate].
  destruct (Yearly.phase1_AssignMandatoryRotations _ _ _) as [g1|] eqn:E1; [|discriminate].
  destruct (Yearly.phase2_AssignExamBlocks _ _ _) as [g2|] eqn:E2; [|discriminate].
  destruct (Yearly.phase3_AssignHolidayBlocks _ _) as [g3|] eqn:E3; [|discriminate].
  destruct (Yearly.phase4_AssignCoreNeurosurgeryRotations _ _) as [g4|] eqn:E4; [|discriminate].
  intros H. injection H as <-. intros b a Hb Ha.
  assert (Hu : Forall untaggedRow g4).
  { refine (phases_1_to_4_preserve residents (fun g => Forall untaggedRow g) config _ _ _ _ _ _ _ E1 E2 E3 E4).
    - intros g g' block resIndex rn rt hol req. apply assign_untagged.
    - unfold Yearly.initialGrid. apply List.Forall_forall. intros row Hin.
      apply repeat_spec in Hin. subst row. apply untaggedRow_repeat. }
  apply list_elem_of_In, list_elem_of_lookup in Hb as [k Hk].
  rewrite format_blocks_lookup in Hk. unfold Yearly.phase6_BalanceTeams in Hk.
  rewrite lookup_map_opt in Hk.
  destruct (g4 !! k) as [row|] eqn:Ek; cbn [option_map] in Hk; [|discriminate].
  injection Hk as <-. cbn [assignments] in Ha. unfold Yearly.balanceBlock in Ha.
  exact (balancePass_tags _ _ row a (Forall_lookup_1 _ _ _ _ Hu Ek) Ha).
Qed.

(* ================================================================= *)
(** ** Witnesses of the monthly-generation properties *)

Lemma generateSchedule_exempt_chief_witness :
  NoDup (map id (residents febChief)) /\ In chiefB (residents febChief) /\
  (isChief chiefB && callExempt chiefB) = true /\
  callsOf (id chiefB) (generateSchedule febChief Normal) = [].
Proof.
  assert (Hids : NoDup (map id (residents febChief))).
  { apply (bool_decide_unpack _). vm_compute. reflexivity. }
  assert (Hr : In chiefB (residents febChief)) by (right; left; reflexivity).
  assert (He : (isChief chiefB && callExempt chiefB) = true) by reflexivity.
  exact (conj Hids (conj Hr (conj He (generateSchedule_exempt_chief febChief Normal chiefB Hids Hr He)))).
Defined.

Lemma generateSchedule_resident_cap_witness :
  (forall rule, In rule (paroHardCaps (monthlySchedulerConfig (config febAB))) -> calls rule <= 8) /\
  8 <= 8 /\ In resA (residents febAB) /\
  (callsOf (id resA) (generateSchedule febAB Normal) = [] \/
   Z.of_nat (length (callsOf (id resA) (generateSchedule febAB Normal))) +
     Z.of_nat (length (callsOf (id resA) (existingAssignments febAB))) <= 8).
Proof.
  assert (Hcap : forall rule, In rule (paroHardCaps (monthlySchedulerConfig (config febAB))) ->
                   calls rule <= 8) by (intros rule []).
  assert (HK : 8 <= 8) by lia.
  assert (Hr : In resA (residents febAB)) by (left; reflexivity).
  exact (conj Hcap (conj HK (conj Hr (generateSchedule_resident_cap febAB Normal 8 resA Hcap HK Hr)))).
Defined.

Lemma generateSchedule_weekend_cap_witness :
  In resA (residents febAB) /\
  (let wk := List.filter (fun a => isWeekend febAB (ca_date a))
               (callsOf (id resA) (generateSchedule febAB Normal)) in
   wk = [] \/
   Z.of_nat (length wk) + countType Weekend (callsOf (id resA) (existingAssignments febAB))
     <= maxWeekends febAB).
Proof.
  assert (Hr : In resA (residents febAB)) by (left; reflexivity).
  exact (conj Hr (generateSchedule_weekend_cap febAB Normal resA Hr)).
Defined.

Lemma generateSchedule_passes_validation_witness :
  (forall rule, In rule (paroHardCaps (monthlySchedulerConfig (config febAB))) -> calls rule <= 8) /\
  validateGeneratedSchedule (generateSchedule febAB Normal) (residents febAB) = mkValidationResult true [].
Proof.
  assert (Hcap : forall rule, In rule (paroHardCaps (monthlySchedulerConfig (config febAB))) ->
                   calls rule <= 8) by (intros rule []).
  exact (conj Hcap (generateSchedule_passes_validation febAB Normal Hcap)).
Defined.

(** Friday 2025-02-07 under a Saturday-Sunday weekend. *)
Lemma generateSchedule_uncovered_day_witness :
  isHoliday febSatSun (mkDate (year febSatSun) (month febSatSun) 7) = false /\
  isWeekend febSatSun (mkDate (year febSatSun) (month febSatSun) 7) = false /\
  (getDay (mkDate (year febSatSun) (month febSatSun) 7) = 0 \/
   getDay (mkDate (year febSatSun) (month febSatSun) 7) = 5 \/
   getDay (mkDate (year febSatSun) (month febSatSun) 7) = 6) /\
  List.filter (fun a => Z.eqb (ca_date a) (mkDate (year febSatSun) (month febSatSun) 7))
    (nonPostCalls (generateSchedule febSatSun Normal)) = [].
Proof.
  assert (Hh : isHoliday febSatSun (mkDate (year febSatSun) (month febSatSun) 7) = false)
    by (vm_compute; reflexivity).
  assert (Hw : isWeekend febSatSun (mkDate (year febSatSun) (month febSatSun) 7) = false)
    by (vm_compute; reflexivity).
  assert (Hd : getDay (mkDate (year febSatSun) (month febSatSun) 7) = 0 \/
               getDay (mkDate (year febSatSun) (month febSatSun) 7) = 5 \/
               getDay (mkDate (year febSatSun) (month febSatSun) 7) = 6)
    by (right; left; vm_compute; reflexivity).
  exact (conj Hh (conj Hw (conj Hd (generateSchedule_uncovered_day febSatSun Normal 7 Hh Hw Hd)))).
Defined.

Lemma default_weekend_day_types_witness :
  weekendDefinition (monthlySchedulerConfig (config febLeaveMonday)) = None /\
  dr_callType (dayRequirementOf febLeaveMonday 7) =
    if isHoliday febLeaveMonday (mkDate (year febLeaveMonday) (month febLeaveMonday) 7) then Holiday
    else if (1 <=? getDay (mkDate (year febLeaveMonday) (month febLeaveMonday) 7)) &&
            (getDay (mkDate (year febLeaveMonday) (month febLeaveMonday) 7) <=? 4)
    then Night else Weekend.
Proof.
  assert (Hn : weekendDefinition (monthlySchedulerConfig (config febLeaveMonday)) = None) by reflexivity.
  exact (conj Hn (default_weekend_day_types febLeaveMonday 7 Hn)).
Defined.

Lemma findAlternativeDates_long_request_witness :
  15 <= LeaveAnalyzer.leaveDays (leaveReq 0 14) /\
  LeaveAnalyzer.findAlternativeDates [resA] [] (leaveReq 0 14)
    (Analyzer.mkCoverageAnalysis Analyzer.High 0 1 1 0 [0]) = [].
Proof.
  assert (H : 15 <= LeaveAnalyzer.leaveDays (leaveReq 0 14)) by (vm_compute; discriminate).
  exact (conj H (findAlternativeDates_long_request [resA] [] (leaveReq 0 14)
                   (Analyzer.mkCoverageAnalysis Analyzer.High 0 1 1 0 [0]) H)).
Defined.

Lemma calculateFairness_more_leave_witness :
  lr_status (mkLeaveRequest "old" "a" "Vacation" Approved 10 19) = Approved /\
  0 <= LeaveAnalyzer.leaveDays (mkLeaveRequest "old" "a" "Vacation" Approved 10 19) /\
  LeaveAnalyzer.fr_score (LeaveAnalyzer.calculateFairness (leaveReq 100 104)
      [mkLeaveRequest "old" "a" "Vacation" Approved 10 19] resA (Some 5%Q)) <=
  LeaveAnalyzer.fr_score (LeaveAnalyzer.calculateFairness (leaveReq 100 104) [] resA (Some 5%Q)).
Proof.
  assert (Hl : lr_status (mkLeaveRequest "old" "a" "Vacation" Approved 10 19) = Approved)
    by reflexivity.
  assert (Hd : 0 <= LeaveAnalyzer.leaveDays (mkLeaveRequest "old" "a" "Vacation" Approved 10 19))
    by (vm_compute; discriminate).
  exact (conj Hl (conj Hd (calculateFairness_more_leave (leaveReq 100 104) [] resA (Some 5%Q)
                             (mkLeaveRequest "old" "a" "Vacation" Approved 10 19) Hl Hd))).
Defined.

Lemma long_request_denied_witness :
  (forall l, In l [mkLeaveRequest "old" "a" "Vacation" Approved 10 19] ->
     0 <= LeaveAnalyzer.leaveDays l) /\
  LeaveAnalyzer.policyValue None LeaveAnalyzer.maxConsecutiveDays 14 <
    LeaveAnalyzer.leaveDays (leaveReq 100 129) /\
  LeaveAnalyzer.policyValue None LeaveAnalyzer.annualLimit 21 <
    LeaveAnalyzer.leaveDays (leaveReq 100 129) /\
  Analyzer.generateRecommendation (Analyzer.mkFairnessAnalysis 90)
    (Analyzer.mkCoverageAnalysis Analyzer.Low 9 10 1 (9 # 10) []) []
    (LeaveAnalyzer.checkPolicyCompliance (leaveReq 100 129)
       [mkLeaveRequest "old" "a" "Vacation" Approved 10 19] None 0) = Analyzer.Deny.
Proof.
  assert (Hh : forall l, In l [mkLeaveRequest "old" "a" "Vacation" Approved 10 19] ->
                 0 <= LeaveAnalyzer.leaveDays l).
  { intros l [<-|[]]. vm_compute. discriminate. }
  assert (Hm : LeaveAnalyzer.policyValue None LeaveAnalyzer.maxConsecutiveDays 14 <
               LeaveAnalyzer.leaveDays (leaveReq 100 129)) by (vm_compute; reflexivity).
  assert (Hl : LeaveAnalyzer.policyValue None LeaveAnalyzer.annualLimit 21 <
               LeaveAnalyzer.leaveDays (leaveReq 100 129)) by (vm_compute; reflexivity).
  exact (conj Hh (conj Hm (conj Hl (long_request_denied (Analyzer.mkFairnessAnalysis 90)
     (Analyzer.mkCoverageAnalysis Analyzer.Low 9 10 1 (9 # 10) []) [] (leaveReq 100 129)
     [mkLeaveRequest "old" "a" "Vacation" Approved 10 19] None 0 Hh Hm Hl)))).
Defined.

Lemma yearly_block_calendar_witness :
  Yearly.generateYearlySchedule yearlyResidents cfgDefault "2025-2026"%string = Some year2526 /\
  ay_id year2526 = "2025-2026"%string /\
  exists sy, Yearly.startYearOf "2025-2026"%string = Some sy /\ length (blocks year2526) = 13%nat /\
  forall k b, blocks year2526 !! k = Some b ->
    blockNumber b = Z.of_nat k + 1 /\ startDate b = mkDate sy 6 1 + 28 * Z.of_nat k /\
    endDate b = startDate b + 27.
Proof.
  assert (H : Yearly.generateYearlySchedule yearlyResidents cfgDefault "2025-2026"%string
              = Some year2526) by (vm_compute; reflexivity).
  exact (conj H (yearly_block_calendar yearlyResidents cfgDefault "2025-2026"%string year2526 H)).
Defined.

Lemma yearly_every_resident_every_block_witness :
  Yearly.generateYearlySchedule yearlyResidents cfgDefault "2025-2026"%string = Some year2526 /\
  forall b, In b (blocks year2526) -> map ra_residentId (assignments b) = map id yearlyResidents.
Proof.
  assert (H : Yearly.generateYearlySchedule yearlyResidents cfgDefault "2025-2026"%string
              = Some year2526) by (vm_compute; reflexivity).
  exact (conj H (yearly_every_resident_every_block yearlyResidents cfgDefault "2025-2026"%string
                   year2526 H)).
Defined.

Lemma yearly_holiday_leave_seniors_witness :
  Yearly.generateYearlySchedule yearlyResidents cfgDefault "2025-2026"%string = Some year2526 /\
  forall b a, In b (blocks year2526) -> In a (assignments b) -> rotationType a = HOLIDAY_LEAVE ->
  exists r, In r yearlyResidents /\ id r = ra_residentId a /\ 4 <= pgyLevel r.
Proof.
  assert (H : Yearly.generateYearlySchedule yearlyResidents cfgDefault "2025-2026"%string
              = Some year2526) by (vm_compute; reflexivity).
  exact (conj H (yearly_holiday_leave_seniors yearlyResidents cfgDefault "2025-2026"%string
                   year2526 H)).
Defined.

Lemma yearly_mandatory_rotation_witness :
  Yearly.generateYearlySchedule yearlyResidents cfgMandatory "2025-2026"%string = Some yearMandatory /\
  exists b a, blocks yearMandatory !! Z.to_nat (3 - 1) = Some b /\ blockNumber b = 3 /\
    In a (assignments b) /\ ra_residentId a = id resA /\ rotationType a = MANDATORY_OFF_SERVICE.
Proof.
  assert (H : Yearly.generateYearlySchedule yearlyResidents cfgMandatory "2025-2026"%string
              = Some yearMandatory) by (vm_compute; reflexivity).
  assert (Hy : yearlySchedulerConfig cfgMandatory =
               Some (mkYearlySchedulerConfig (Some [mkRotationRule 3 [3] "Plastics"])
                                             (Some [mkRotationRule 10 [5] "Board exam"])))
    by reflexivity.
  assert (Hm : mandatoryRotations (mkYearlySchedulerConfig (Some [mkRotationRule 3 [3] "Plastics"])
                                             (Some [mkRotationRule 10 [5] "Board exam"])) =
               Some [mkRotationRule 3 [3] "Plastics"]) by reflexivity.
  assert (Hrule : In (mkRotationRule 3 [3] "Plastics") [mkRotationRule 3 [3] "Plastics"])
    by (left; reflexivity).
  assert (Hbn : 1 <= rule_blockNumber (mkRotationRule 3 [3] "Plastics") <= 13)
    by (cbn [rule_blockNumber]; lia).
  assert (Hr : yearlyResidents !! 0%nat = Some resA) by reflexivity.
  assert (Hp : In (pgyLevel resA) (pgyLevels (mkRotationRule 3 [3] "Plastics")))
    by (left; reflexivity).
  exact (conj H (yearly_mandatory_rotation yearlyResidents cfgMandatory "2025-2026"%string
                   yearMandatory _ _ (mkRotationRule 3 [3] "Plastics") 0 resA Hy Hm Hrule Hbn Hr Hp H)).
Defined.

Lemma yearly_team_tags_witness :
  Yearly.generateYearlySchedule yearlyResidents cfgMandatory "2025-2026"%string = Some yearMandatory /\
  forall b a, In b (blocks yearMandatory) -> In a (assignments b) ->
  (team a <> None <-> rotationType a = CORE_NSX).
Proof.
  assert (H : Yearly.generateYearlySchedule yearlyResidents cfgMandatory "2025-2026"%string
              = Some yearMandatory) by (vm_compute; reflexivity).
  exact (conj H (yearly_team_tags yearlyResidents cfgMandatory "2025-2026"%string yearMandatory H)).
Defined.

Lemma analyzeCoverageImpact_ratio_edge_witness :
  Analyzer.totalResidents (Analyzer.analyzeCoverageImpact [] [] septRequest) = 0 /\
  (Analyzer.coverageRatio (Analyzer.analyzeCoverageImpact [] [] septRequest) < 1)%Q /\
  (Analyzer.totalResidents (Analyzer.analyzeCoverageImpact [] [] septRequest) = 0 ->
   Analyzer.riskLevel (Analyzer.analyzeCoverageImpact [] [] septRequest) = Analyzer.High).
Proof.
  assert (H : Analyzer.totalResidents (Analyzer.analyzeCoverageImpact [] [] septRequest) = 0)
    by reflexivity.
  exact (conj H (analyzeCoverageImpact_ratio_edge [] [] septRequest)).
Defined.
